(** * mlpython.misc.io: dataset loaders and dataset iterators

    A shallow embedding of [mlpython/misc/io.py] (Python 2, numpy): the
    LIBSVM line parser [libsvm_load_line], the file loader [libsvm_load],
    and the helper classes [IteratorWithFields] and [MemoryDataset].

    Conventions of the embedding.
    - A Python [str] is a [string]; a file is the list of its lines, as the
      [for line in stream] loop sees them.
    - Python and numpy exceptions are the values of [exn]; a computation
      that may raise returns a [result].
    - A 1-D numpy array is a [list]; [a[k] = v] is [np_setitem], which
      raises [IndexError] out of range and wraps negative indices.
    - The module is Python 2: [zip] builds its list before the loop body
      runs, so the first loop of [libsvm_load_line] walks the original
      tokens while it deletes from [tokens]. *)

From stdpp Require Import gmap strings list.
From Stdlib Require Import ZArith QArith Ascii.

Local Open Scope Z_scope.

(** ** Exceptions and the error monad *)

Inductive exn : Type :=
| ValueError
| IndexError
| OverflowError
| TypeError.

Inductive result (A : Type) : Type :=
| Ok (a : A)
| Err (e : exn).

Arguments Ok {A} a.
Arguments Err {A} e.

#[global] Instance result_ret : MRet result := fun A a => Ok a.
#[global] Instance result_bind : MBind result := fun A B k m =>
  match m with
  | Ok a => k a
  | Err e => Err e
  end.

Definition is_ok {A : Type} (m : result A) : bool :=
  match m with Ok _ => true | Err _ => false end.

(** A [for] loop whose body may raise: the state is threaded through the
    elements, and the first exception ends the loop. *)
Fixpoint foldM {S X : Type} (f : S -> X -> result S) (s : S) (l : list X)
  : result S :=
  match l with
  | [] => Ok s
  | x :: l' => s' ← f s x; foldM f s' l'
  end.

(** ** Python strings *)

Definition colon : ascii := ":"%char.

(** Whitespace of a Python 2 [str]: space, \t, \n, \v, \f, \r. *)
Definition is_space (c : ascii) : bool :=
  let n := N_of_ascii c in
  ((n =? 32) || ((9 <=? n) && (n <=? 13)))%N.

Definition is_digit_char (c : ascii) : bool :=
  let n := N_of_ascii c in ((48 <=? n) && (n <=? 57))%N.

Definition str_is_empty (s : string) : bool :=
  match s with EmptyString => true | _ => false end.

(** [s.lstrip()], [s.rstrip()] and [s.strip()]. *)
Fixpoint py_lstrip (s : string) : string :=
  match s with
  | EmptyString => EmptyString
  | String c s' => if is_space c then py_lstrip s' else s
  end.

Fixpoint py_rstrip (s : string) : string :=
  match s with
  | EmptyString => EmptyString
  | String c s' =>
      let r := py_rstrip s' in
      if str_is_empty r && is_space c then EmptyString else String c r
  end.

Definition py_strip (s : string) : string := py_lstrip (py_rstrip s).

(** [s.split()]: the maximal runs of non-whitespace characters. [cur] is
    the run being read. *)
Fixpoint split_from (s cur : string) : list string :=
  match s with
  | EmptyString => if str_is_empty cur then [] else [cur]
  | String c s' =>
      if is_space c then
        if str_is_empty cur then split_from s' EmptyString
        else cur :: split_from s' EmptyString
      else split_from s' (String.append cur (String c EmptyString))
  end.

Definition py_split (s : string) : list string := split_from s EmptyString.

(** [s.split(sep)] for a one-character separator: always at least one
    part. *)
Fixpoint py_split_on (sep : ascii) (s : string) : list string :=
  match s with
  | EmptyString => [EmptyString]
  | String c s' =>
      if Ascii.eqb c sep then EmptyString :: py_split_on sep s'
      else match py_split_on sep s' with
           | p :: ps => String c p :: ps
           | [] => [String c EmptyString]
           end
  end.

(** [s.find(c)]: the lowest index of [c], or -1. *)
Fixpoint py_find (c : ascii) (s : string) : Z :=
  match s with
  | EmptyString => -1
  | String a s' =>
      if Ascii.eqb a c then 0
      else let k := py_find c s' in if k <? 0 then -1 else k + 1
  end.

Fixpoint str_take (n : nat) (s : string) : string :=
  match n, s with
  | O, _ => EmptyString
  | _, EmptyString => EmptyString
  | S n', String c s' => String c (str_take n' s')
  end.

(** [s[:k]] at a [k >= 0] (the only use is guarded by [find(':') >= 0]). *)
Definition py_prefix (s : string) (k : Z) : string := str_take (Z.to_nat k) s.

(** [s.isdigit()]: at least one character, all of them decimal digits. *)
Fixpoint all_digits (s : string) : bool :=
  match s with
  | EmptyString => true
  | String c s' => is_digit_char c && all_digits s'
  end.

Definition isdigit (s : string) : bool := negb (str_is_empty s) && all_digits s.

(** [int(s)] for an [s] with [s.isdigit()]: Python 2 gives an [int] or a
    [long], never an overflow. *)
Fixpoint int_from (acc : Z) (s : string) : Z :=
  match s with
  | EmptyString => acc
  | String c s' => int_from (10 * acc + (Z.of_N (N_of_ascii c) - 48)) s'
  end.

Definition py_int (s : string) : Z := int_from 0 s.

(** ** Python lists and numpy vectors *)

(** [l[k]] on a Python list. *)
Definition py_index {A : Type} (l : list A) (k : Z) : result A :=
  let n := Z.of_nat (length l) in
  let k' := if k <? 0 then k + n else k in
  if (0 <=? k') && (k' <? n) then
    match l !! Z.to_nat k' with Some a => Ok a | None => Err IndexError end
  else Err IndexError.

(** [del l[k]] on a Python list. *)
Definition py_del {A : Type} (l : list A) (k : Z) : result (list A) :=
  let n := Z.of_nat (length l) in
  let k' := if k <? 0 then k + n else k in
  if (0 <=? k') && (k' <? n) then Ok (delete (Z.to_nat k') l)
  else Err IndexError.

(** [a[k] = v] on a 1-D numpy array. *)
Definition np_setitem {A : Type} (a : list A) (k : Z) (v : A) : result (list A) :=
  let n := Z.of_nat (length a) in
  let k' := if k <? 0 then k + n else k in
  if (0 <=? k') && (k' <? n) then Ok (<[Z.to_nat k' := v]> a)
  else Err IndexError.

(** [np.zeros((n))]: a negative dimension is a [ValueError]. *)
Definition np_zeros {A : Type} (zero : A) (n : Z) : result (list A) :=
  if n <? 0 then Err ValueError else Ok (replicate (Z.to_nat n) zero).

(** [max(a)] over a vector of integers: [ValueError] when it is empty. *)
Definition py_max (a : list Z) : result Z :=
  match a with
  | [] => Err ValueError
  | x :: a' => Ok (foldl Z.max x a')
  end.

(** ** The classification of a token

    The test of the first loop of [libsvm_load_line]: the identifier in
    front of the first [:] when it is made of digits. A token whose
    identifier is below 1 is deleted by that loop; the others with a
    numeric identifier are counted in [n_feat]. *)

Definition numeric_id (token : string) : option Z :=
  if 0 <=? py_find colon token then
    if isdigit (py_prefix token (py_find colon token))
    then Some (py_int (py_prefix token (py_find colon token)))
    else None
  else None.

Definition is_numeric_feature (token : string) : bool :=
  match numeric_id token with Some _ => true | None => false end.

Definition is_removed (token : string) : bool :=
  match numeric_id token with Some k => k <? 1 | None => false end.

Definition is_counted (token : string) : bool :=
  match numeric_id token with Some k => negb (k <? 1) | None => false end.

Definition kept (tokens : list string) : list string :=
  List.filter (fun t => negb (is_removed t)) tokens.

Definition count_features (tokens : list string) : Z :=
  Z.of_nat (length (List.filter is_counted tokens)).

(** The tokens of a line, and the tokens after the first one. *)
Definition line_tokens (line : string) : list string := py_split (py_strip line).

Definition feature_tokens (line : string) : list string := drop 1 (line_tokens line).

(** The largest numeric identifier after the target token (0 when there
    is none). *)
Definition line_max_index (line : string) : Z :=
  foldr Z.max 0 (omap numeric_id (feature_tokens line)).

(** ** The LIBSVM line parser and file loader *)

Section Libsvm.

(** The element type of float vectors, [float(s)] on a feature value
    ([None] is its [ValueError]) and the zero of [np.zeros]. *)
Variable F : Type.
Variable fzero : F.
Variable pyfloat : string -> option F.

(** The parameters [convert_non_digit_features] and [convert_target] of
    the two loaders; either may raise. *)
Variable E : Type.
Variable convert_non_digit_features : string -> string -> result E.
Variable T : Type.
Context `{Countable T}.
Variable convert_target : string -> result T.

(** The largest value of numpy's [dtype='int'] (a C long): storing a
    larger Python integer raises [OverflowError]. *)
Variable int_max : Z.

Definition float_of (s : string) : result F :=
  match pyfloat s with
  | Some v => Ok v
  | None => Err ValueError
  end.

(** [a[k] = v] on a vector of [dtype='int']. *)
Definition np_setitem_int (a : list Z) (k : Z) (v : Z) : result (list Z) :=
  a' ← np_setitem a k v;
  if int_max <? v then Err OverflowError else Ok a'.

(** The fields of an example: the list
    [[input, target, extra_0, extra_1, ...]]. *)
Inductive field : Type :=
| FSparse (inputs : list F) (indices : list Z)
| FDense (input : list F)
| FTarget (t : T)
| FExtra (e : E).

Definition example : Type := list field.

(** *** First loop: remove the feature ids below 1, count the others *)

Definition remove_step (st : list string * Z * Z) (ti : string * Z)
  : result (list string * Z * Z) :=
  let '(tokens, n_removed, n_feat) := st in
  let '(token, i) := ti in
  if 0 <=? py_find colon token then
    if isdigit (py_prefix token (py_find colon token)) then
      if py_int (py_prefix token (py_find colon token)) <? 1 then
        tokens' ← py_del tokens (i - n_removed);
        Ok (tokens', n_removed + 1, n_feat)
      else Ok (tokens, n_removed, n_feat + 1)
    else Ok st
  else Ok st.

Definition remove_loop (tokens : list string) : result (list string * Z * Z) :=
  foldM remove_step (tokens, 0, 0)
        (zip tokens (seqZ 0 (Z.of_nat (length tokens)))).

(** *** Second loop: fill the vectors from [tokens[1:]] *)

Inductive buffers : Type :=
| BSparse (inputs : list F) (indices : list Z)
| BDense (input : list F).

Definition alloc (sparse : bool) (n_feat input_size : Z) : result buffers :=
  if sparse then
    inputs ← np_zeros fzero n_feat;
    indices ← np_zeros 0 n_feat;
    Ok (BSparse inputs indices)
  else
    input ← np_zeros fzero input_size;
    Ok (BDense input).

Definition fill_step (st : buffers * Z * list E) (token : string)
  : result (buffers * Z * list E) :=
  let '(b, i, extra) := st in
  match py_split_on colon token with
  | [id_str; input_str] =>
      if isdigit id_str then
        b' ← match b with
             | BSparse inputs indices =>
                 indices' ← np_setitem_int indices i (py_int id_str);
                 v ← float_of input_str;
                 inputs' ← np_setitem inputs i v;
                 Ok (BSparse inputs' indices')
             | BDense input =>
                 v ← float_of input_str;
                 input' ← np_setitem input (py_int id_str - 1) v;
                 Ok (BDense input')
             end;
        Ok (b', i + 1, extra)
      else
        e ← convert_non_digit_features id_str input_str;
        Ok (b, i, extra ++ [e])
  | _ => Err ValueError
  end.

Definition input_field (b : buffers) : field :=
  match b with
  | BSparse inputs indices => FSparse inputs indices
  | BDense input => FDense input
  end.

(** The parser on the tokens of the line. *)
Definition libsvm_load_tokens (tokens : list string) (sparse : bool)
           (input_size : Z) : result example :=
  '(tokens, _, n_feat) ← remove_loop tokens;
  b ← alloc sparse n_feat input_size;
  '(b, _, extra) ← foldM fill_step (b, 0, []) (drop 1 tokens);
  t0 ← py_index tokens 0;
  target ← convert_target t0;
  Ok ([input_field b; FTarget target] ++ map FExtra extra).

Definition libsvm_load_line (line : string) (sparse : bool) (input_size : Z)
  : result example :=
  let line := py_strip line in
  let tokens := py_split line in
  libsvm_load_tokens tokens sparse input_size.


(** *** The file loader *)

Record metadata : Type := Metadata {
  targets : gset T;
  input_size : Z;
}.

(** [example[0][1]] and [example[1]]. *)
Definition example_indices (ex : example) : result (list Z) :=
  e0 ← py_index ex 0;
  match e0 with
  | FSparse _ indices => Ok indices
  | _ => Err TypeError
  end.

Definition example_target (ex : example) : result T :=
  e1 ← py_index ex 1;
  match e1 with
  | FTarget t => Ok t
  | _ => Err TypeError
  end.

(** The body of the first pass. [given] is [given_input_size]. *)
Definition scan_step (sparse : bool) (given : option Z)
           (st : list example * gset T * Z) (line : string)
  : result (list example * gset T * Z) :=
  let '(data, targets, input_size) := st in
  ex ← libsvm_load_line line true (-1);
  indices ← example_indices ex;
  max_non_zero_feature ← py_max indices;
  let input_size :=
    match given with
    | None => if input_size <? max_non_zero_feature
              then max_non_zero_feature else input_size
    | Some _ => input_size
    end in
  t ← example_target ex;
  let targets := {[ t ]} ∪ targets in
  Ok (if sparse then data ++ [ex] else data, targets, input_size).

(** The body of the second pass. *)
Definition dense_step (input_size : Z) (data : list example) (line : string)
  : result (list example) :=
  ex ← libsvm_load_line line false input_size;
  Ok (data ++ [ex]).

Definition libsvm_load (file : list string) (sparse : bool)
           (input_size : option Z) : result (list example * metadata) :=
  let given_input_size := input_size in
  let input_size := match input_size with None => 0 | Some n => n end in
  '(data, targets, input_size) ←
    foldM (scan_step sparse given_input_size) ([], ∅, input_size) file;
  data ← (if sparse then Ok data
          else foldM (dense_step input_size) data file);
  Ok (data, Metadata targets input_size).

(** *** What one token of [tokens[1:]] stands for

    The second loop reads a token as a feature (identifier and value) or
    as an extra field. *)

Inductive item : Type :=
| IFeat (k : Z) (v : F)
| IExtra (e : E).

Definition token_item (token : string) : result item :=
  match py_split_on colon token with
  | [id_str; input_str] =>
      if isdigit id_str then
        v ← float_of input_str; Ok (IFeat (py_int id_str) v)
      else
        e ← convert_non_digit_features id_str input_str; Ok (IExtra e)
  | _ => Err ValueError
  end.

Fixpoint items_of (tokens : list string) : result (list item) :=
  match tokens with
  | [] => Ok []
  | tok :: tokens' =>
      it ← token_item tok; its ← items_of tokens'; Ok (it :: its)
  end.

Definition item_ids (items : list item) : list Z :=
  omap (fun it => match it with IFeat k _ => Some k | IExtra _ => None end)
       items.

Definition item_vals (items : list item) : list F :=
  omap (fun it => match it with IFeat _ v => Some v | IExtra _ => None end)
       items.

Definition item_extras (items : list item) : list E :=
  omap (fun it => match it with IFeat _ _ => None | IExtra e => Some e end)
       items.

(** The padding at the end of the sparse vectors: the entries that
    [n_feat] counted and the second loop did not fill. *)
Definition padding (tokens : list string) (items : list item) : nat :=
  (Z.to_nat (count_features tokens) - length (item_ids items))%nat.

(** A well-formed token of [tokens[1:]]: [id:value] with a value that
    [float] reads and an identifier that fits the index vector, or a
    non-numeric identifier that the conversion accepts. *)
Definition well_formed_feature (token : string) : bool :=
  match token_item token with
  | Ok (IFeat k _) => k <=? int_max
  | Ok (IExtra _) => true
  | Err _ => false
  end.

(** A valid line: a target that is not itself of the form of a numeric
    feature and that [convert_target] accepts, then well-formed
    tokens. *)
Definition valid_libsvm_line (line : string) : bool :=
  match line_tokens line with
  | [] => false
  | t0 :: rest =>
      negb (is_numeric_feature t0) && is_ok (convert_target t0)
      && forallb well_formed_feature rest
  end.

(** The dense vector of a sparse pair: [dense[indices - 1] = values] on
    [dense = np.zeros(input_size)], one assignment after the other. *)
Definition scatter (dense values : list F) (indices : list Z)
  : result (list F) :=
  foldM (fun a vk => np_setitem a (vk.2 - 1) vk.1) dense (zip values indices).

Definition densify (input_size : Z) (values : list F) (indices : list Z)
  : result (list F) :=
  dense ← np_zeros fzero input_size;
  scatter dense values indices.

End Libsvm.

Arguments FSparse {F E T} inputs indices.
Arguments FDense {F E T} input.
Arguments FTarget {F E T} t.
Arguments FExtra {F E T} e.
Arguments BSparse {F} inputs indices.
Arguments BDense {F} input.
Arguments IFeat {F E} k v.
Arguments IExtra {F E} e.
Arguments item_ids {F E} items.
Arguments item_vals {F E} items.
Arguments item_extras {F E} items.
Arguments scatter {F} dense values indices.
Arguments padding {F E} tokens items.
Arguments Metadata {T _ _} targets input_size.
Arguments targets {T _ _} m.
Arguments input_size {T _ _} m.

(** ** The default parameters, and a float model for concrete lines *)

(** [convert_target=str]: the target token itself. *)
Definition convert_target_str (s : string) : result string := Ok s.

(** [convert_non_digit_features=float]: the loaders call it with two
    arguments, and [float] takes one, so every call is a [TypeError]. *)
Definition convert_non_digit_float {E : Type} (id_str input_str : string)
  : result E := Err TypeError.

(** [float(s)] on plain decimal literals ([0.5], [-2.0], [3]), with exact
    rational values; the other spellings Python reads (exponents, [inf],
    [nan]) are outside this model and are not used below. *)
Fixpoint dec_from (mant : Z) (frac : option nat) (seen : bool) (s : string)
  : option (Z * nat) :=
  match s with
  | EmptyString => if seen then Some (mant, default O frac) else None
  | String c s' =>
      if is_digit_char c then
        dec_from (10 * mant + (Z.of_N (N_of_ascii c) - 48)) (S <$> frac) true s'
      else if Ascii.eqb c "."%char then
        match frac with
        | None => dec_from mant (Some O) seen s'
        | Some _ => None
        end
      else None
  end.

Definition dec_value (sign : Z) (s : string) : option Q :=
  match dec_from 0 None false s with
  | Some (m, k) => Some (Qred (Qmake (sign * m) (Z.to_pos (10 ^ Z.of_nat k))))
  | None => None
  end.

Definition dec_float (s : string) : option Q :=
  match s with
  | String c s' =>
      if Ascii.eqb c "-"%char then dec_value (-1) s'
      else if Ascii.eqb c "+"%char then dec_value 1 s'
      else dec_value 1 s
  | EmptyString => None
  end.

(** The largest C long of a 64-bit platform. *)
Definition int64_max : Z := 2 ^ 63 - 1.

(** The two loaders with their default parameters, on this float model. *)
Definition load_line_default (line : string) (sparse : bool) (input_size : Z)
  : result (example Q Q string) :=
  libsvm_load_line Q 0%Q dec_float Q convert_non_digit_float
                   string convert_target_str int64_max line sparse input_size.

Definition load_default (file : list string) (sparse : bool)
           (input_size : option Z)
  : result (list (example Q Q string) * metadata string) :=
  libsvm_load Q 0%Q dec_float Q convert_non_digit_float
              string convert_target_str int64_max file sparse input_size.

(** ** IteratorWithFields *)

Section IteratorWithFields.

Variable A : Type.

(** [r[beg:end]] on a row: Python clamps both bounds to the row, a
    negative bound counts from the end, and no bound ever raises. *)
Definition py_slice (r : list A) (beg end_ : Z) : list A :=
  let n := Z.of_nat (length r) in
  let clamp k := if k <? 0 then Z.max (k + n) 0 else Z.min k n in
  take (Z.to_nat (clamp end_ - clamp beg)) (drop (Z.to_nat (clamp beg)) r).

Definition py_getslice (r : list A) (beg end_ : Z) : result (list A) :=
  Ok (py_slice r beg end_).

(** [__init__] stores the array and the descriptors. *)
Record IteratorWithFields : Type := IteratorWithFields_init {
  iwf_data : list (list A);
  iwf_fields : list (Z * Z);
}.

(** [__iter__]: the examples the generator yields, or the exception that
    ends it. *)
Definition IteratorWithFields_iter (self : IteratorWithFields)
  : result (list (list (list A))) :=
  mapM (fun r => mapM (fun be => py_getslice r be.1 be.2) (iwf_fields self))
       (iwf_data self).

End IteratorWithFields.

Arguments py_slice {A} r beg end_.
Arguments py_getslice {A} r beg end_.
Arguments IteratorWithFields_init {A} iwf_data iwf_fields.
Arguments iwf_data {A} i.
Arguments iwf_fields {A} i.
Arguments IteratorWithFields_iter {A} self.

(** ** MemoryDataset *)

Section MemoryDataset.

(** The elements of the arrays, the zero of [np.zeros], the element
    types, and the conversion of one element to an element type. *)
Variable A : Type.
Variable zero : A.
Variable dtype : Type.
Variable cast : dtype -> A -> A.

(** The contents of an array: a scalar (shape [()]) or the list of its
    sub-arrays along the first axis. *)
#[local] Set Warnings "-register-all".
Inductive ndarray : Type :=
| Scalar (x : A)
| Array (rows : list ndarray).

Fixpoint has_shape (sh : list nat) (a : ndarray) : bool :=
  match sh, a with
  | [], Scalar _ => true
  | n :: sh', Array rows =>
      Nat.eqb (length rows) n && forallb (has_shape sh') rows
  | _, _ => false
  end.

Fixpoint nd_cast (d : dtype) (a : ndarray) : ndarray :=
  match a with
  | Scalar x => Scalar (cast d x)
  | Array rows => Array (map (nd_cast d) rows)
  end.

Fixpoint nd_zeros (sh : list nat) : ndarray :=
  match sh with
  | [] => Scalar zero
  | n :: sh' => Array (replicate n (nd_zeros sh'))
  end.

(** A numpy array: its shape, its element type and its contents. *)
Record nparray : Type := NpArray {
  np_shape : list nat;
  np_dtype : dtype;
  np_data : ndarray;
}.

(** [np.zeros(shape, dtype=d)]. *)
Definition np_zeros_nd (sh : list nat) (d : dtype) : nparray :=
  NpArray sh d (nd_zeros sh).

(** [m[t] = v]: the row index is checked, then [v] is converted to the
    element type and stored. Only a value of exactly the row's shape is
    stored; numpy also accepts the values it can broadcast to the row,
    which this model reports as the [ValueError] of the others. *)
Definition nd_setitem (m : nparray) (t : Z) (v : ndarray) : result nparray :=
  match np_shape m, np_data m with
  | _ :: sh_row, Array rows =>
      let n := Z.of_nat (length rows) in
      let t' := if t <? 0 then t + n else t in
      if (0 <=? t') && (t' <? n) then
        if has_shape sh_row v then
          Ok (NpArray (np_shape m) (np_dtype m)
                      (Array (<[Z.to_nat t' := nd_cast (np_dtype m) v]> rows)))
        else Err ValueError
      else Err IndexError
  | _, _ => Err IndexError
  end.

(** [m[t]]. *)
Definition nd_getitem (m : nparray) (t : Z) : result ndarray :=
  match np_data m with
  | Array rows => py_index rows t
  | Scalar _ => Err IndexError
  end.

(** What a source yields and what the dataset yields: one field value,
    or a Python sequence of field values. *)
Inductive pyexample : Type :=
| PVal (v : ndarray)
| PSeq (vs : list ndarray).

(** [example[i]]. *)
Definition example_getitem (ex : pyexample) (i : Z) : result ndarray :=
  match ex with
  | PSeq vs => py_index vs i
  | PVal (Array rows) => py_index rows i
  | PVal (Scalar _) => Err IndexError
  end.

(** The array numpy makes of [example] when it is assigned as a whole. *)
Definition example_value (ex : pyexample) : ndarray :=
  match ex with
  | PVal v => v
  | PSeq vs => Array vs
  end.

Record MemoryDataset : Type := MkMemoryDataset {
  md_data : list pyexample;
  md_field_shapes : list (list nat);
  md_n_fields : nat;
  md_mem_data : list nparray;
  md_length : nat;
}.

(** The allocation loop: one zero array per field. *)
Definition alloc_step (field_shapes : list (list nat)) (dtypes : list dtype)
           (length_ : nat) (mem_data : list nparray) (i : nat)
  : result (list nparray) :=
  sh ← py_index field_shapes (Z.of_nat i);
  let mem_shape :=
    if decide (sh = [1%nat]) then [length_] else length_ :: sh in
  d ← py_index dtypes (Z.of_nat i);
  Ok (mem_data ++ [np_zeros_nd mem_shape d]).

(** The copy loops. [t] is the row being written. *)
Definition copy_single (st : list nparray * Z) (ex : pyexample)
  : result (list nparray * Z) :=
  let '(mem_data, t) := st in
  m ← py_index mem_data 0;
  m' ← nd_setitem m t (example_value ex);
  Ok (<[0%nat := m']> mem_data, t + 1).

Definition copy_field (ex : pyexample) (t : Z) (mem_data : list nparray)
           (i : nat) : result (list nparray) :=
  m ← py_index mem_data (Z.of_nat i);
  v ← example_getitem ex (Z.of_nat i);
  m' ← nd_setitem m t v;
  Ok (<[i := m']> mem_data).

Definition copy_multi (n_fields : nat) (st : list nparray * Z)
           (ex : pyexample) : result (list nparray * Z) :=
  let '(mem_data, t) := st in
  mem_data' ← foldM (copy_field ex t) mem_data (seq 0 n_fields);
  Ok (mem_data', t + 1).

(** [__init__(data, field_shapes, dtypes, length)]. *)
Definition MemoryDataset_init (data : list pyexample)
           (field_shapes : list (list nat)) (dtypes : list dtype)
           (length_ : option nat) : result MemoryDataset :=
  let n_fields := length field_shapes in
  let length_ :=
    match length_ with
    | None => foldl (fun n _ => S n) O data
    | Some n => n
    end in
  mem_data ← foldM (alloc_step field_shapes dtypes length_) []
                   (seq 0 n_fields);
  '(mem_data, _) ←
    (if Nat.eqb n_fields 1
     then foldM copy_single (mem_data, 0) data
     else foldM (copy_multi n_fields) (mem_data, 0) data);
  Ok (MkMemoryDataset data field_shapes n_fields mem_data length_).

(** [__iter__]. *)
Definition MemoryDataset_iter (self : MemoryDataset)
  : result (list pyexample) :=
  if Nat.eqb (md_n_fields self) 1 then
    m ← py_index (md_mem_data self) 0;
    match np_data m with
    | Array rows => Ok (map PVal rows)
    | Scalar _ => Err TypeError
    end
  else
    mapM (fun t => vs ← mapM (fun m => nd_getitem m (Z.of_nat t))
                              (md_mem_data self);
                   Ok (PSeq vs))
         (seq 0 (md_length self)).

(** *** Examples that match the declared fields *)

(** The shape of one row of the array of a field: a field declared with
    the shape [(1,)] is stored, and yielded, as a scalar. *)
Definition row_shape (sh : list nat) : list nat :=
  if decide (sh = [1%nat]) then [] else sh.

(** A value of the shape of the row that the element type leaves as it
    is. *)
Definition value_matches (sh : list nat) (d : dtype) (v : ndarray) : Prop :=
  has_shape (row_shape sh) v = true /\ nd_cast d v = v.

(** The value of field [i] of an example: the example itself when there
    is one field, its [i]-th entry otherwise. *)
Definition field_of (ex : pyexample) (i : nat) : option ndarray :=
  match ex with
  | PVal v => match i with O => Some v | S _ => None end
  | PSeq vs => vs !! i
  end.

Definition example_matches (field_shapes : list (list nat))
           (dtypes : list dtype) (ex : pyexample) : Prop :=
  (if Nat.eqb (length field_shapes) 1 then exists v, ex = PVal v
   else exists vs, ex = PSeq vs /\ length vs = length field_shapes) /\
  forall i sh d,
    field_shapes !! i = Some sh -> dtypes !! i = Some d ->
    exists v, field_of ex i = Some v /\ value_matches sh d v.

Definition rows_of (m : nparray) : list ndarray :=
  match np_data m with
  | Array rows => rows
  | Scalar _ => []
  end.

(** The arrays of the fields while the examples of [data] are copied:
    one array of [len] rows per field, and [filled i t] says that row [t]
    of field [i] holds the value of that field in example [t]. *)
Definition mem_inv (data : list pyexample) (field_shapes : list (list nat))
           (dtypes : list dtype) (len : nat) (filled : nat -> nat -> Prop)
           (mem_data : list nparray) : Prop :=
  length mem_data = length field_shapes /\
  forall i sh d,
    field_shapes !! i = Some sh -> dtypes !! i = Some d ->
    exists rows,
      mem_data !! i = Some (NpArray (len :: row_shape sh) d (Array rows)) /\
      length rows = len /\
      forall t ex v,
        filled i t -> data !! t = Some ex -> field_of ex i = Some v ->
        rows !! t = Some v.

End MemoryDataset.

Arguments Scalar {A} x.
Arguments Array {A} rows.
Arguments PVal {A} v.
Arguments PSeq {A} vs.
Arguments NpArray {A dtype} np_shape np_dtype np_data.
Arguments np_shape {A dtype} n.
Arguments np_dtype {A dtype} n.
Arguments np_data {A dtype} n.
Arguments rows_of {A dtype} m.
Arguments field_of {A} ex i.

(** ** FileDataset *)

Section FileDataset.

Variable X : Type.

(** [__init__] stores the file name and the conversion of a line. As for
    [libsvm_load], the file stands for the lines that iterating the
    opened stream gives. *)
Record FileDataset : Type := FileDataset_init {
  fd_file : list string;
  fd_load_line : string -> result X;
}.

(** [__iter__]: the examples of one pass over the file, or the exception
    that [load_line] raises on a line. *)
Definition FileDataset_iter (self : FileDataset) : result (list X) :=
  mapM (fd_load_line self) (fd_file self).

End FileDataset.

Arguments FileDataset_init {X} fd_file fd_load_line.
Arguments fd_file {X} f.
Arguments fd_load_line {X} f.
Arguments FileDataset_iter {X} self.

(** ** ASCII format *)

Section Ascii.

(** The elements of the matrix and the options [convert_input] and
    [convert_target]. *)
Variable X : Type.
Variable convert_input : string -> result X.
Variable convert_target : string -> result X.

(** [np.array(rows).shape[1]]: rows of one length make a matrix; no row,
    or rows of several lengths (which numpy, in the versions that run
    this module, packs into a vector of lists), make an array of one
    dimension, on which [shape[1]] is an [IndexError]. *)
Definition np_shape_1 (rows : list (list X)) : result Z :=
  match rows with
  | [] => Err IndexError
  | r :: rows' =>
      if forallb (fun r' => Nat.eqb (length r') (length r)) rows'
      then Ok (Z.of_nat (length r))
      else Err IndexError
  end.

(** What [ascii_load] returns beside the metadata: the matrix, or the
    iterator over (input, target) fields. *)
Inductive ascii_data : Type :=
| AsciiMatrix (data : list (list X))
| AsciiFields (it : IteratorWithFields X).

(** The row of a line when the last column is not a target. *)
Definition ascii_row (line : string) : result (list X) :=
  mapM convert_input (py_split line).

(** The row of a line when the last column is the target. *)
Definition ascii_row_target (line : string) : result (list X) :=
  inputs ← mapM convert_input (py_slice (py_split line) 0 (-1));
  last ← py_index (py_split line) (-1);
  target ← convert_target last;
  Ok (inputs ++ [target]).

(** [ascii_load(filename, convert_input, last_column_is_target,
    convert_target)]: the data and the metadata [input_size]. *)
Definition ascii_load (file : list string) (last_column_is_target : bool)
  : result (ascii_data * Z) :=
  if negb last_column_is_target then
    data ← mapM ascii_row file;
    n ← np_shape_1 data;
    Ok (AsciiMatrix data, n)
  else
    data ← mapM ascii_row_target file;
    n ← np_shape_1 data;
    Ok (AsciiFields (IteratorWithFields_init data [(0, n - 1); (n - 1, n)]),
        n - 1).

End Ascii.

Arguments AsciiMatrix {X} data.
Arguments AsciiFields {X} it.

(** ** Loading large datasets *)

Module LargeDatasets.

Section LargeDatasets.

Variable F : Type.
Variable pyfloat : string -> option F.

(** [load_line_default(line)]: the vector of the floats of the tokens. *)
Definition load_line_default (line : string) : result (list F) :=
  mapM (float_of F pyfloat) (py_split line).

(** [load_from_file(filename, load_line=load_line_default)]. *)
Definition load_from_file (file : list string)
           (load_line : option (string -> result (list F)))
  : FileDataset (list F) :=
  FileDataset_init file (default load_line_default load_line).

End LargeDatasets.

End LargeDatasets.

(** ** Vocabulary of the statements on files *)

(** The [input_size] after a line of the first pass of [libsvm_load]: [n]
    before the line, [m] the largest index of the line. *)
Definition scanned_size (given : option Z) (n m : Z) : Z :=
  match given with
  | None => if n <? m then m else n
  | Some _ => n
  end.

(** The lines of a file end with a newline. *)
Definition newline : string := String (ascii_of_nat 10) EmptyString.

(** The file of the two lines [+1 1:0.5 3:2.0] and [-1 2:1.0]. *)
Definition two_line_file : list string :=
  ["+1 1:0.5 3:2.0" +:+ newline; "-1 2:1.0" +:+ newline].

(** ** Vocabulary of the statements on edge cases *)

Section LibsvmVocabulary.

Variable F : Type.
Variable fzero : F.
Variable pyfloat : string -> option F.
Variable E : Type.
Variable convert_non_digit_features : string -> string -> result E.
Variable T : Type.
Variable convert_target : string -> result T.
Variable int_max : Z.

(** What the first pass of [libsvm_load] has seen of a line: its sparse
    example, with a non-empty index vector of maximum [m] and the target
    [t]. *)
Definition scanned (line : string) (ex : example F E T) (m : Z) (t : T)
  : Prop :=
  libsvm_load_line F fzero pyfloat E convert_non_digit_features T
                   convert_target int_max line true (-1) = Ok ex /\
  exists idx, example_indices F E T ex = Ok idx /\ py_max idx = Ok m /\
              example_target F E T ex = Ok t.

End LibsvmVocabulary.

Section AsciiVocabulary.

Variable X : Type.
Variable convert_input : string -> result X.
Variable convert_target : string -> result X.

(** What a line gives when its last column is the target: [n] converted
    inputs and the converted last token. *)
Definition target_row (n : Z) (line : string) (inputs : list X) (t : X)
  : Prop :=
  exists toks last,
    py_split line = toks ++ [last] /\
    mapM convert_input toks = Ok inputs /\
    convert_target last = Ok t /\
    Z.of_nat (length toks) = n.

End AsciiVocabulary.

Section MemoryDatasetVocabulary.

Variable A : Type.
Variable zero : A.
Variable dtype : Type.
Variable cast : dtype -> A -> A.

(** An example of the form and the shapes that the fields declare,
    whatever the type of its elements. *)
Definition example_shaped (field_shapes : list (list nat)) (ex : pyexample A)
  : Prop :=
  (if Nat.eqb (length field_shapes) 1 then exists v, ex = PVal v
   else exists vs, ex = PSeq vs /\ length vs = length field_shapes) /\
  forall i sh,
    field_shapes !! i = Some sh ->
    exists v, field_of ex i = Some v /\ has_shape A (row_shape sh) v = true.

(** The example with every field converted to its element type. *)
Definition example_cast (dtypes : list dtype) (ex : pyexample A)
  : pyexample A :=
  match ex with
  | PVal v => match dtypes with
              | d :: _ => PVal (nd_cast A dtype cast d v)
              | [] => PVal v
              end
  | PSeq vs => PSeq (zip_with (nd_cast A dtype cast) dtypes vs)
  end.

(** The example that a row of zeros yields. *)
Definition zero_example (field_shapes : list (list nat)) : pyexample A :=
  match field_shapes with
  | [sh] => PVal (nd_zeros A zero (row_shape sh))
  | _ => PSeq (map (fun sh => nd_zeros A zero (row_shape sh)) field_shapes)
  end.

(** The array of field [i] when the first [k] examples of [data] have
    been copied into it. *)
Definition field_array (data : list (pyexample A)) (len : nat) (i : nat)
           (sh : list nat) (d : dtype) (k : nat) : nparray A dtype :=
  NpArray (len :: row_shape sh) d
    (Array (map (fun ex => nd_cast A dtype cast d
                             (default (Scalar zero) (field_of ex i)))
                (take k data)
            ++ replicate (len - k) (nd_zeros A zero (row_shape sh)))).

(** The arrays of the fields when [rows i] examples have been copied into
    field [i]. *)
Definition filled_to (data : list (pyexample A))
           (field_shapes : list (list nat)) (dtypes : list dtype) (len : nat)
           (rows : nat -> nat) (mem_data : list (nparray A dtype)) : Prop :=
  length mem_data = length field_shapes /\
  forall i sh d,
    field_shapes !! i = Some sh -> dtypes !! i = Some d ->
    (rows i <= len)%nat /\ (rows i <= length data)%nat /\
    mem_data !! i = Some (field_array data len i sh d (rows i)).

End MemoryDatasetVocabulary.

(** The conversion of an integer to the element types [int] ([false]) and
    [bool] ([true]) of numpy. *)
Definition np_bool_cast (as_bool : bool) (x : Z) : Z :=
  if as_bool then (if x =? 0 then 0 else 1) else x.

(** The sparse examples and the metadata of the two-line file. *)
Definition two_line_examples : list (example Q Q string) :=
  [[FSparse [(1 # 2)%Q; (2 # 1)%Q] [1; 3]; FTarget "+1"];
   [FSparse [(1 # 1)%Q] [2]; FTarget "-1"]].

Definition two_line_metadata : metadata string :=
  Metadata {[ "+1"; "-1" ]} 3.

(** An ASCII file of two lines of three columns. *)
Definition ascii_file : list string :=
  ["1.0 2.0 1" +:+ newline; "3 4.5 0" +:+ newline].

(** * Properties *)

(** ** Strings *)

Lemma py_find_range c s : py_find c s = -1 \/ 0 <= py_find c s.
Proof.
  induction s as [|a s IH]; simpl; [by left|].
  destruct (Ascii.eqb a c); [right; lia|].
  destruct (Z.ltb_spec (py_find c s) 0); [by left | right; lia].
Qed.

Lemma py_split_on_cons c s : exists p ps, py_split_on c s = p :: ps.
Proof.
  induction s as [|a s (p & ps & IH)]; simpl; [by eauto|].
  destruct (Ascii.eqb a c); [by eauto|]. rewrite IH. by eauto.
Qed.

Lemma py_split_on_find c s p ps :
  py_split_on c s = p :: ps ->
  (ps = [] /\ py_find c s = -1 /\ p = s) \/
  (ps <> [] /\ 0 <= py_find c s /\ p = py_prefix s (py_find c s)).
Proof.
  revert p ps. induction s as [|a s IH]; simpl; intros p ps Hs.
  - left. by inversion Hs.
  - destruct (Ascii.eqb a c).
    + right. inversion Hs; subst. destruct (py_split_on_cons c s) as (q & qs & Hq).
      rewrite Hq. by repeat split.
    + destruct (py_split_on_cons c s) as (q & qs & Hq). rewrite Hq in Hs.
      inversion Hs; subst. destruct (IH _ _ Hq) as [(-> & Hf & ->)|(Hne & Hf & ->)].
      * left. rewrite Hf. by repeat split.
      * right. destruct (Z.ltb_spec (py_find c s) 0); [lia|].
        repeat split; [done | lia |]. unfold py_prefix.
        replace (Z.to_nat (py_find c s + 1)) with (S (Z.to_nat (py_find c s))) by lia.
        done.
Qed.

(** ** The first loop of [libsvm_load_line] *)

Ltac tuple_eq :=
  repeat match goal with
         | |- Ok _ = Ok _ => f_equal
         | |- (_, _) = (_, _) => f_equal
         end; try done; try lia.

Lemma bind_Ok {A B} (a : A) (k : A -> result B) : (Ok a ≫= k) = k a.
Proof. reflexivity. Qed.

Lemma py_del_middle {A} (l1 l2 : list A) (x : A) :
  py_del (l1 ++ x :: l2) (Z.of_nat (length l1)) = Ok (l1 ++ l2).
Proof.
  unfold py_del. rewrite length_app. simpl.
  destruct (Z.ltb_spec (Z.of_nat (length l1)) 0); [lia|].
  rewrite andb_true_intro by (split; [apply Z.leb_le | apply Z.ltb_lt]; lia).
  rewrite Nat2Z.id. f_equal. apply delete_middle.
Qed.

Lemma remove_step_spec tokens n_removed n_feat token i :
  remove_step (tokens, n_removed, n_feat) (token, i) =
    if is_removed token then
      tokens' ← py_del tokens (i - n_removed); Ok (tokens', n_removed + 1, n_feat)
    else Ok (tokens, n_removed, if is_counted token then n_feat + 1 else n_feat).
Proof.
  unfold remove_step, is_removed, is_counted, numeric_id.
  destruct (0 <=? py_find colon token); [|done].
  destruct (isdigit _); [|done].
  by destruct (_ <? 1).
Qed.

Lemma remove_loop_from rest : forall done_ n_removed n_feat i,
  i = Z.of_nat (length done_) + n_removed ->
  foldM remove_step (done_ ++ rest, n_removed, n_feat)
        (zip rest (seqZ i (Z.of_nat (length rest)))) =
  Ok (done_ ++ kept rest,
      n_removed + Z.of_nat (length rest) - Z.of_nat (length (kept rest)),
      n_feat + count_features rest).
Proof.
  induction rest as [|tok rest IH]; intros done_ nr nf i Hi.
  - simpl. unfold count_features. simpl. tuple_eq.
  - replace (Z.of_nat (length (tok :: rest))) with (Z.succ (Z.of_nat (length rest)))
      by (simpl; lia).
    rewrite seqZ_cons by lia. rewrite Z.pred_succ. cbn [zip zip_with foldM].
    rewrite remove_step_spec. unfold kept, count_features. cbn [List.filter].
    assert (is_removed tok = true -> is_counted tok = false) as Hrc.
    { unfold is_removed, is_counted. destruct (numeric_id tok); [|done].
      by intros ->. }
    destruct (is_removed tok) eqn:Hr.
    + replace (i - nr) with (Z.of_nat (length done_)) by lia.
      rewrite py_del_middle. rewrite !bind_Ok. rewrite (Hrc eq_refl).
      cbn [negb]. rewrite (IH done_) by lia.
      unfold kept, count_features. tuple_eq.
    + rewrite bind_Ok. cbn [negb].
      replace (done_ ++ tok :: rest) with ((done_ ++ [tok]) ++ rest)
        by (by rewrite <- app_assoc).
      rewrite (IH (done_ ++ [tok])) by (rewrite length_app; simpl; lia).
      unfold kept, count_features. rewrite <- app_assoc. simpl.
      destruct (is_counted tok); simpl; tuple_eq.
Qed.

Lemma remove_loop_spec tokens :
  remove_loop tokens =
  Ok (kept tokens, Z.of_nat (length tokens) - Z.of_nat (length (kept tokens)),
      count_features tokens).
Proof.
  unfold remove_loop.
  change (tokens, 0, 0) with ([] ++ tokens, 0, 0).
  rewrite (remove_loop_from tokens [] 0 0 0) by done.
  simpl. tuple_eq.
Qed.

(** ** The second loop of [libsvm_load_line] *)

Section LibsvmFacts.

Variable F : Type.
Variable fzero : F.
Variable pyfloat : string -> option F.
Variable E : Type.
Variable convert_non_digit_features : string -> string -> result E.
Variable T : Type.
Context `{Countable T}.
Variable convert_target : string -> result T.
Variable int_max : Z.

#[local] Abbreviation fill_step :=
  (fill_step F pyfloat E convert_non_digit_features int_max).
#[local] Abbreviation float_of := (float_of F pyfloat).
#[local] Abbreviation token_item :=
  (token_item F pyfloat E convert_non_digit_features).
#[local] Abbreviation items_of :=
  (items_of F pyfloat E convert_non_digit_features).
#[local] Abbreviation load_tokens :=
  (libsvm_load_tokens F fzero pyfloat E convert_non_digit_features T
                      convert_target int_max).
#[local] Abbreviation load_line :=
  (libsvm_load_line F fzero pyfloat E convert_non_digit_features T
                    convert_target int_max).
#[local] Abbreviation load :=
  (libsvm_load F fzero pyfloat E convert_non_digit_features T
               convert_target int_max).

Lemma token_item_numeric_id tok it :
  token_item tok = Ok it ->
  numeric_id tok = match it with IFeat k _ => Some k | IExtra _ => None end.
Proof.
  unfold token_item, numeric_id. intros Hit.
  destruct (py_split_on colon tok) as [|id_str [|input_str [|? ?]]] eqn:Hs;
    try discriminate.
  destruct (py_split_on_find _ _ _ _ Hs) as [(? & _)|(_ & Hf & ->)]; [done|].
  rewrite (proj2 (Z.leb_le _ _) Hf).
  destruct (isdigit _).
  - destruct (float_of input_str); simplify_eq/=. done.
  - destruct (convert_non_digit_features _ _); simplify_eq/=. done.
Qed.

Lemma np_setitem_length {A} (a a' : list A) k v :
  np_setitem a k v = Ok a' -> length a' = length a.
Proof.
  unfold np_setitem. destruct (_ && _); [|done].
  intros [= <-]. by rewrite length_insert.
Qed.

Lemma np_setitem_at {A} (pre post : list A) x v :
  np_setitem (pre ++ x :: post) (Z.of_nat (length pre)) v = Ok (pre ++ v :: post).
Proof.
  unfold np_setitem. rewrite length_app. simpl.
  destruct (Z.ltb_spec (Z.of_nat (length pre)) 0); [lia|].
  rewrite andb_true_intro by (split; [apply Z.leb_le | apply Z.ltb_lt]; lia).
  rewrite Nat2Z.id. f_equal.
  rewrite insert_app_r_alt by done. by rewrite Nat.sub_diag.
Qed.

Lemma np_setitem_end {A} (pre : list A) v :
  np_setitem pre (Z.of_nat (length pre)) v = Err IndexError.
Proof.
  unfold np_setitem.
  destruct (Z.ltb_spec (Z.of_nat (length pre)) 0); [lia|].
  destruct (Z.ltb_spec (Z.of_nat (length pre)) (Z.of_nat (length pre))); [lia|].
  by rewrite andb_false_r.
Qed.

Lemma fill_step_feat b i extra tok k v :
  token_item tok = Ok (IFeat k v) ->
  fill_step (b, i, extra) tok =
    b' ← match b with
         | BSparse inputs indices =>
             indices' ← np_setitem_int int_max indices i k;
             inputs' ← np_setitem inputs i v;
             Ok (BSparse inputs' indices')
         | BDense input =>
             input' ← np_setitem input (k - 1) v;
             Ok (BDense input')
         end;
    Ok (b', i + 1, extra).
Proof.
  unfold token_item, fill_step. intros Hit.
  destruct (py_split_on colon tok) as [|id_str [|input_str [|? ?]]];
    try discriminate.
  destruct (isdigit id_str).
  - destruct (float_of input_str) as [v'|] eqn:Hv; simplify_eq/=.
    destruct b; simpl; [|done].
    by destruct (np_setitem_int _ _ _ _).
  - destruct (convert_non_digit_features _ _); simplify_eq/=.
Qed.

Lemma fill_step_extra b i extra tok e :
  token_item tok = Ok (IExtra e) ->
  fill_step (b, i, extra) tok = Ok (b, i, extra ++ [e]).
Proof.
  unfold token_item, fill_step. intros Hit.
  destruct (py_split_on colon tok) as [|id_str [|input_str [|? ?]]];
    try discriminate.
  destruct (isdigit id_str).
  - destruct (float_of input_str); simplify_eq/=.
  - destruct (convert_non_digit_features _ _); simplify_eq/=. done.
Qed.

Lemma fill_step_ok_item st tok st' :
  fill_step st tok = Ok st' -> exists it, token_item tok = Ok it.
Proof.
  destruct st as [[b i] extra]. unfold token_item, fill_step. intros Hst.
  destruct (py_split_on colon tok) as [|id_str [|input_str [|? ?]]];
    try discriminate.
  destruct (isdigit id_str).
  - destruct (float_of input_str) as [v|] eqn:Hv; [by eauto|].
    destruct b; simpl in Hst; [|done].
    by destruct (np_setitem_int _ _ _ _).
  - destruct (convert_non_digit_features _ _); [by eauto | done].
Qed.

Lemma fill_sparse_items toks : forall pre_v pre_k m extra items,
  items_of toks = Ok items ->
  length pre_v = length pre_k ->
  (length (item_ids items) <= m)%nat ->
  Forall (fun k => k <= int_max) (item_ids items) ->
  foldM fill_step
        (BSparse (pre_v ++ replicate m fzero) (pre_k ++ replicate m 0),
         Z.of_nat (length pre_v), extra) toks =
  Ok (BSparse
        (pre_v ++ item_vals items ++
           replicate (m - length (item_ids items)) fzero)
        (pre_k ++ item_ids items ++
           replicate (m - length (item_ids items)) 0),
      Z.of_nat (length pre_v + length (item_ids items)),
      extra ++ item_extras items).
Proof.
  induction toks as [|tok toks IH]; intros pre_v pre_k m extra items Hits Hlen Hm Hmax.
  - simplify_eq/=. rewrite Nat.sub_0_r, Nat.add_0_r, app_nil_r. done.
  - simpl in Hits. destruct (token_item tok) as [it|] eqn:Hit; [|done].
    destruct (items_of toks) as [its|] eqn:Hits'; [|done].
    injection Hits as <-. cbn [foldM].
    destruct it as [k v|e].
    + rewrite (fill_step_feat _ _ _ _ _ _ Hit).
      simpl in Hm, Hmax. destruct m as [|m]; [lia|]. simpl.
      apply Forall_cons in Hmax as [Hk Hmax].
      unfold np_setitem_int. rewrite Hlen at 1. rewrite np_setitem_at.
      simpl. destruct (Z.ltb_spec int_max k); [lia|]. simpl.
      rewrite np_setitem_at. simpl.
      replace (Z.of_nat (length pre_v) + 1) with (Z.of_nat (length (pre_v ++ [v])))
        by (rewrite length_app; simpl; lia).
      rewrite (cons_middle v pre_v), (cons_middle k pre_k), !app_assoc.
      rewrite (IH (pre_v ++ [v]) (pre_k ++ [k]) m extra its);
        [|done|by rewrite !length_app, Hlen|lia|done].
      rewrite <- !app_assoc. simpl. rewrite length_app. simpl.
      tuple_eq.
    + rewrite (fill_step_extra _ _ _ _ _ Hit). simpl.
      rewrite (IH pre_v pre_k m (extra ++ [e]) its) by done.
      rewrite <- app_assoc. done.
Qed.

Lemma fill_sparse_ok_items toks : forall pre_v pre_k m extra st',
  foldM fill_step
        (BSparse (pre_v ++ replicate m fzero) (pre_k ++ replicate m 0),
         Z.of_nat (length pre_v), extra) toks = Ok st' ->
  length pre_v = length pre_k ->
  exists items,
    items_of toks = Ok items /\
    (length (item_ids items) <= m)%nat /\
    Forall (fun k => k <= int_max) (item_ids items).
Proof.
  induction toks as [|tok toks IH]; intros pre_v pre_k m extra st' Hst Hlen.
  - exists []. repeat split; simpl; [lia | constructor].
  - cbn [foldM] in Hst.
    destruct (fill_step _ tok) as [st1|] eqn:Hstep; [|done].
    destruct (fill_step_ok_item _ _ _ Hstep) as [it Hit].
    cbn [items_of]. rewrite Hit. simpl in Hst.
    destruct it as [k v|e].
    + rewrite (fill_step_feat _ _ _ _ _ _ Hit) in Hstep.
      unfold np_setitem_int in Hstep. rewrite Hlen in Hstep at 1.
      destruct m as [|m].
      { simpl in Hstep. rewrite !app_nil_r, !np_setitem_end in Hstep. done. }
      simpl in Hstep. rewrite !np_setitem_at in Hstep. simpl in Hstep.
      destruct (Z.ltb_spec int_max k); [done|]. simpl in Hstep.
      injection Hstep as <-.
      replace (Z.of_nat (length pre_v) + 1) with (Z.of_nat (length (pre_v ++ [v])))
        in Hst by (rewrite length_app; simpl; lia).
      rewrite (cons_middle v pre_v), (cons_middle k pre_k), !app_assoc in Hst.
      destruct (IH _ _ _ _ _ Hst) as (its & -> & Hm & Hmax);
        [by rewrite !length_app, Hlen|].
      exists (IFeat k v :: its). simpl. repeat split; [lia|].
      by constructor.
    + rewrite (fill_step_extra _ _ _ _ _ Hit) in Hstep. injection Hstep as <-.
      destruct (IH _ _ _ _ _ Hst Hlen) as (its & -> & Hm & Hmax).
      exists (IExtra e :: its). by repeat split.
Qed.

Lemma np_setitem_in_range {A} (a : list A) k v :
  0 <= k < Z.of_nat (length a) ->
  np_setitem a k v = Ok (<[Z.to_nat k := v]> a).
Proof.
  intros Hk. unfold np_setitem.
  destruct (Z.ltb_spec k 0); [lia|].
  by rewrite andb_true_intro by (split; [apply Z.leb_le | apply Z.ltb_lt]; lia).
Qed.

Lemma np_setitem_above {A} (a : list A) k v :
  Z.of_nat (length a) <= k -> np_setitem a k v = Err IndexError.
Proof.
  intros Hk. unfold np_setitem.
  destruct (Z.ltb_spec k 0); [lia|].
  destruct (Z.ltb_spec k (Z.of_nat (length a))); [lia|].
  by rewrite andb_false_r.
Qed.

Lemma fill_dense_items toks : forall input i extra items,
  items_of toks = Ok items ->
  Forall (fun k => 1 <= k <= Z.of_nat (length input)) (item_ids items) ->
  exists input',
    scatter input (item_vals items) (item_ids items) = Ok input' /\
    foldM fill_step (BDense input, i, extra) toks =
      Ok (BDense input', i + Z.of_nat (length (item_ids items)),
          extra ++ item_extras items).
Proof.
  induction toks as [|tok toks IH]; intros input i extra items Hits Hrng.
  - injection Hits as <-. exists input. simpl. split; [done|].
    rewrite app_nil_r. tuple_eq.
  - simpl in Hits. destruct (token_item tok) as [it|] eqn:Hit; [|done].
    destruct (items_of toks) as [its|] eqn:Hits'; [|done].
    injection Hits as <-. cbn [foldM].
    destruct it as [k v|e].
    + rewrite (fill_step_feat _ _ _ _ _ _ Hit).
      simpl in Hrng. apply Forall_cons in Hrng as [Hk Hrng].
      unfold scatter. simpl.
      rewrite np_setitem_in_range by lia. simpl.
      destruct (IH (<[Z.to_nat (k - 1) := v]> input) (i + 1) extra its eq_refl)
        as (input' & Hsc & Hfill); [by rewrite length_insert|].
      exists input'. split; [done|]. rewrite Hfill. tuple_eq.
    + rewrite (fill_step_extra _ _ _ _ _ Hit). simpl.
      destruct (IH input i (extra ++ [e]) its eq_refl Hrng)
        as (input' & Hsc & Hfill).
      exists input'. split; [done|]. rewrite Hfill, <- app_assoc. done.
Qed.

Lemma fill_dense_out_of_range toks : forall input i extra items,
  items_of toks = Ok items ->
  Forall (fun k => 1 <= k) (item_ids items) ->
  Exists (fun k => Z.of_nat (length input) < k) (item_ids items) ->
  foldM fill_step (BDense input, i, extra) toks = Err IndexError.
Proof.
  induction toks as [|tok toks IH]; intros input i extra items Hits Hpos Hbig.
  - injection Hits as <-. by apply Exists_nil in Hbig.
  - simpl in Hits. destruct (token_item tok) as [it|] eqn:Hit; [|done].
    destruct (items_of toks) as [its|] eqn:Hits'; [|done].
    injection Hits as <-. cbn [foldM].
    destruct it as [k v|e].
    + rewrite (fill_step_feat _ _ _ _ _ _ Hit).
      simpl in Hpos, Hbig. apply Forall_cons in Hpos as [Hk Hpos].
      destruct (Z.le_gt_cases k (Z.of_nat (length input))) as [Hle|Hgt].
      * rewrite np_setitem_in_range by lia. simpl.
        apply Exists_cons in Hbig as [Hbig|Hbig]; [lia|].
        apply (IH _ _ _ its eq_refl Hpos). by rewrite length_insert.
      * by rewrite np_setitem_above by lia.
    + rewrite (fill_step_extra _ _ _ _ _ Hit). simpl.
      by apply (IH _ _ _ its eq_refl).
Qed.

(** *** The tokens that survive the first loop *)

Lemma kept_not_removed tokens :
  Forall (fun t => is_removed t = false) (kept tokens).
Proof.
  unfold kept. induction tokens as [|t tokens IH]; simpl; [constructor|].
  destruct (is_removed t) eqn:Hr; simpl; [done|]. by constructor.
Qed.

Lemma is_removed_not_counted t : is_removed t = true -> is_counted t = false.
Proof.
  unfold is_removed, is_counted. destruct (numeric_id t); [|done]. by intros ->.
Qed.

Lemma count_features_kept tokens :
  count_features (kept tokens) = count_features tokens.
Proof.
  unfold count_features, kept. f_equal.
  induction tokens as [|t tokens IH]; simpl; [done|].
  destruct (is_removed t) eqn:Hr; simpl.
  - by rewrite (is_removed_not_counted _ Hr).
  - destruct (is_counted t); simpl; by rewrite IH.
Qed.

Lemma count_features_cons t tokens :
  count_features (t :: tokens) =
  (if is_counted t then 1 else 0) + count_features tokens.
Proof.
  unfold count_features. simpl. destruct (is_counted t); simpl; lia.
Qed.

Lemma count_features_nonneg tokens : 0 <= count_features tokens.
Proof. unfold count_features. lia. Qed.

Lemma items_of_kept toks items :
  items_of toks = Ok items ->
  Forall (fun t => is_removed t = false) toks ->
  item_ids items = omap numeric_id toks /\
  count_features toks = Z.of_nat (length (item_ids items)) /\
  Forall (fun k => 1 <= k) (item_ids items).
Proof.
  revert items. induction toks as [|tok toks IH]; intros items Hits Hkept.
  - injection Hits as <-. repeat split. constructor.
  - simpl in Hits. destruct (token_item tok) as [it|] eqn:Hit; [|done].
    destruct (items_of toks) as [its|] eqn:Hits'; [|done].
    injection Hits as <-. apply Forall_cons in Hkept as [Hk Hkept].
    destruct (IH its eq_refl Hkept) as (Hids & Hcount & Hpos).
    pose proof (token_item_numeric_id _ _ Hit) as Hid.
    rewrite count_features_cons. unfold is_counted. unfold is_removed in Hk.
    change (omap numeric_id (tok :: toks)) with
      (match numeric_id tok with
       | Some k => k :: omap numeric_id toks
       | None => omap numeric_id toks
       end).
    rewrite Hid in *. destruct it as [k v|e].
    + change (item_ids (IFeat k v :: its)) with (k :: item_ids its).
      rewrite Hk, Hcount, Hids. simpl. repeat split; [lia|].
      constructor; [by apply Z.ltb_ge | by rewrite <- Hids].
    + change (item_ids (IExtra e :: its)) with (item_ids its).
      rewrite Hcount, Hids. repeat split. by rewrite <- Hids.
Qed.

(** *** The parser on the surviving tokens *)

Lemma load_tokens_unfold tokens sparse isz :
  load_tokens tokens sparse isz =
    b ← alloc F fzero sparse (count_features tokens) isz;
    '(b, _, extra) ← foldM fill_step (b, 0, []) (drop 1 (kept tokens));
    t0 ← py_index (kept tokens) 0;
    target ← convert_target t0;
    Ok ([input_field F E T b; FTarget target] ++ map FExtra extra).
Proof. unfold libsvm_load_tokens. by rewrite remove_loop_spec. Qed.

Lemma np_zeros_nonneg {A} (z : A) n :
  0 <= n -> np_zeros z n = Ok (replicate (Z.to_nat n) z).
Proof. intros Hn. unfold np_zeros. by destruct (Z.ltb_spec n 0); [lia|]. Qed.

Lemma py_index_0 {A} (l : list A) x :
  py_index l 0 = Ok x -> exists l', l = x :: l'.
Proof. destruct l as [|y l]; [done|]. intros [= ->]. by eauto. Qed.

Lemma kept_count tokens t0 rest items :
  kept tokens = t0 :: rest ->
  items_of rest = Ok items ->
  item_ids items = omap numeric_id rest /\
  Forall (fun k => 1 <= k) (item_ids items) /\
  count_features tokens =
    (if is_counted t0 then 1 else 0) + Z.of_nat (length (item_ids items)).
Proof.
  intros Hk Hits. pose proof (kept_not_removed tokens) as Hnr.
  rewrite Hk in Hnr. apply Forall_cons in Hnr as [_ Hnr].
  destruct (items_of_kept _ _ Hits Hnr) as (Hids & Hcount & Hpos).
  repeat split; [done..|].
  by rewrite <- count_features_kept, Hk, count_features_cons, Hcount.
Qed.

Lemma load_tokens_sparse_intro tokens t0 rest items tgt isz :
  kept tokens = t0 :: rest ->
  items_of rest = Ok items ->
  Forall (fun k => k <= int_max) (item_ids items) ->
  convert_target t0 = Ok tgt ->
  load_tokens tokens true isz =
    Ok (FSparse (item_vals items ++ replicate (padding tokens items) fzero)
                (item_ids items ++ replicate (padding tokens items) 0)
        :: FTarget tgt :: map FExtra (item_extras items)).
Proof.
  intros Hk Hits Hmax Htgt.
  destruct (kept_count _ _ _ _ Hk Hits) as (_ & _ & Hn).
  rewrite load_tokens_unfold. unfold alloc.
  rewrite !np_zeros_nonneg by apply count_features_nonneg. simpl.
  rewrite Hk. simpl.
  pose proof (fill_sparse_items rest [] [] (Z.to_nat (count_features tokens))
                [] items Hits eq_refl) as Hfill.
  simpl in Hfill. change (Z.of_nat 0) with 0 in Hfill.
  rewrite drop_0, Hfill; [|destruct (is_counted t0); lia|done].
  simpl. by rewrite Htgt.
Qed.

Lemma load_tokens_sparse_elim tokens isz ex :
  load_tokens tokens true isz = Ok ex ->
  exists t0 rest items tgt,
    kept tokens = t0 :: rest /\
    items_of rest = Ok items /\
    Forall (fun k => k <= int_max) (item_ids items) /\
    convert_target t0 = Ok tgt.
Proof.
  rewrite load_tokens_unfold. unfold alloc.
  rewrite !np_zeros_nonneg by apply count_features_nonneg. simpl.
  intros Hex.
  destruct (foldM fill_step _ (drop 1 (kept tokens))) as [[[b i] extra]|]
    eqn:Hfill; [|done].
  simpl in Hex.
  destruct (py_index (kept tokens) 0) as [t0|] eqn:Ht0; [|done].
  destruct (py_index_0 _ _ Ht0) as [rest Hk]. simpl in Hex.
  destruct (convert_target t0) as [tgt|] eqn:Htgt; [|done].
  rewrite Hk in Hfill. simpl in Hfill. rewrite drop_0 in Hfill.
  destruct (fill_sparse_ok_items rest [] [] _ _ _ Hfill eq_refl)
    as (items & Hits & _ & Hmax).
  by exists t0, rest, items, tgt.
Qed.

Lemma load_tokens_dense_ok tokens t0 rest items isz :
  kept tokens = t0 :: rest ->
  items_of rest = Ok items ->
  0 <= isz ->
  Forall (fun k => k <= isz) (item_ids items) ->
  exists dense,
    densify F fzero isz (item_vals items) (item_ids items) = Ok dense /\
    load_tokens tokens false isz =
      (tgt ← convert_target t0;
       Ok (FDense dense :: FTarget tgt :: map FExtra (item_extras items))).
Proof.
  intros Hk Hits Hisz Hle.
  destruct (kept_count _ _ _ _ Hk Hits) as (_ & Hpos & _).
  rewrite load_tokens_unfold. unfold densify, alloc.
  rewrite !np_zeros_nonneg by done. simpl. rewrite Hk. simpl. rewrite drop_0.
  destruct (fill_dense_items rest (replicate (Z.to_nat isz) fzero) 0 [] items Hits)
    as (dense & Hsc & Hfill).
  { rewrite length_replicate. rewrite Forall_forall in Hpos, Hle.
    apply Forall_forall. intros k Hin. specialize (Hpos k Hin).
    specialize (Hle k Hin). lia. }
  exists dense. split; [done|]. by rewrite Hfill.
Qed.

Lemma load_tokens_dense_out_of_range tokens t0 rest items isz :
  kept tokens = t0 :: rest ->
  items_of rest = Ok items ->
  0 <= isz ->
  Exists (fun k => isz < k) (item_ids items) ->
  load_tokens tokens false isz = Err IndexError.
Proof.
  intros Hk Hits Hisz Hbig.
  destruct (kept_count _ _ _ _ Hk Hits) as (_ & Hpos & _).
  rewrite load_tokens_unfold. unfold alloc.
  rewrite !np_zeros_nonneg by done. simpl. rewrite Hk. simpl. rewrite drop_0.
  rewrite (fill_dense_out_of_range rest _ 0 [] items Hits Hpos); [done|].
  rewrite length_replicate. eapply Exists_impl; [exact Hbig|].
  simpl. intros k Hlt. lia.
Qed.

(** *** Valid lines *)

Lemma items_of_cons tok toks :
  items_of (tok :: toks) =
    (it ← token_item tok; its ← items_of toks; Ok (it :: its)).
Proof. reflexivity. Qed.

Lemma well_formed_items rest :
  forallb (well_formed_feature F pyfloat E convert_non_digit_features int_max)
          rest = true ->
  exists items,
    items_of (kept rest) = Ok items /\
    Forall (fun k => k <= int_max) (item_ids items).
Proof.
  induction rest as [|tok rest IH]; simpl; intros Hwf.
  - exists []. split; [done | constructor].
  - apply andb_true_iff in Hwf as [Htok Hwf].
    destruct (IH Hwf) as (its & Hits & Hmax).
    unfold kept in *. cbn [List.filter].
    destruct (is_removed tok); cbn [negb]; [by eauto|].
    unfold well_formed_feature in Htok. rewrite items_of_cons.
    destruct (token_item tok) as [[k v|e]|] eqn:Hit; [| |done].
    + exists (IFeat k v :: its). rewrite Hits. split; [done|].
      constructor; [by apply Z.leb_le | done].
    + exists (IExtra e :: its). by rewrite Hits.
Qed.

Lemma foldr_max_ge (l : list Z) k : k ∈ l -> k <= foldr Z.max 0 l.
Proof.
  induction l as [|x l IH]; [by intros ?%elem_of_nil|].
  intros [->|Hin]%elem_of_cons; simpl; [lia|]. specialize (IH Hin). lia.
Qed.

Lemma foldr_max_nonneg (l : list Z) : 0 <= foldr Z.max 0 l.
Proof. induction l as [|x l IH]; simpl; lia. Qed.

Lemma kept_ids_le_max rest k :
  k ∈ omap numeric_id (kept rest) -> k <= foldr Z.max 0 (omap numeric_id rest).
Proof.
  intros (tok & Hin & Hid)%list_elem_of_omap. apply foldr_max_ge.
  apply list_elem_of_omap. exists tok. split; [|done].
  apply list_elem_of_In. apply list_elem_of_In in Hin.
  unfold kept in Hin. by apply filter_In in Hin as [? _].
Qed.

(** *** Sparse and dense parsing agree *)

(** C1. For every valid libsvm line and every [input_size] at least as
  large as the line's maximum feature index, the line parses in sparse
  mode to a pair [(values, indices)], scattering that pair into a zero
  vector of length [input_size] at the positions [indices - 1] succeeds,
  and the vector it gives is exactly the dense vector of the same line
  parsed in dense mode with that [input_size]; the target and the extra
  fields of the two examples are the same. *)
Theorem sparse_scatter_equals_dense line input_size isz0 :
  valid_libsvm_line F pyfloat E convert_non_digit_features T convert_target
                    int_max line = true ->
  line_max_index line <= input_size ->
  exists values indices rest dense,
    load_line line true isz0 = Ok (FSparse values indices :: rest) /\
    densify F fzero input_size values indices = Ok dense /\
    load_line line false input_size = Ok (FDense dense :: rest).
Proof.
  unfold valid_libsvm_line, line_max_index, feature_tokens, libsvm_load_line.
  fold (line_tokens line).
  destruct (line_tokens line) as [|t0 rest] eqn:Htok; [done|].
  intros [[Hnum Htgt]%andb_true_iff Hwf]%andb_true_iff Hmax.
  simpl in Hmax. rewrite drop_0 in Hmax.
  unfold is_numeric_feature in Hnum.
  destruct (numeric_id t0) eqn:Hid; [done|].
  destruct (convert_target t0) as [tgt|] eqn:Hct; [|done].
  destruct (well_formed_items _ Hwf) as (items & Hits & Hfit).
  assert (kept (t0 :: rest) = t0 :: kept rest) as Hk.
  { unfold kept. simpl. unfold is_removed. by rewrite Hid. }
  destruct (kept_count _ _ _ _ Hk Hits) as (Hids & Hpos & Hn).
  unfold is_counted in Hn. rewrite Hid in Hn.
  pose proof (foldr_max_nonneg (omap numeric_id rest)) as H0.
  destruct (load_tokens_dense_ok _ _ _ _ input_size Hk Hits)
    as (dense & Hdense & Hload); [lia| |].
  { apply Forall_forall. intros k Hin. rewrite Hids in Hin.
    apply kept_ids_le_max in Hin. lia. }
  exists (item_vals items), (item_ids items),
    (FTarget tgt :: map FExtra (item_extras items)), dense.
  split; [|split; [done|]].
  - rewrite (load_tokens_sparse_intro _ _ _ _ _ isz0 Hk Hits Hfit Hct).
    unfold padding. rewrite Hn.
    replace (Z.to_nat (0 + Z.of_nat (length (item_ids items)))
             - length (item_ids items))%nat with O by lia.
    simpl. by rewrite !app_nil_r.
  - by rewrite Hload, Hct.
Qed.

(** *** Features with an identifier below 1 *)

Lemma foldM_congr {S X} (f g : S -> X -> result S) l1 l2 :
  Forall2 (fun x y => forall s, f s x = g s y) l1 l2 ->
  forall s, foldM f s l1 = foldM g s l2.
Proof.
  induction 1 as [|x y l1 l2 Hxy _ IH]; intros s; simpl; [done|].
  rewrite Hxy. destruct (g s y); simpl; [apply IH | done].
Qed.

Lemma foldM_congr_middle {S X} (f : S -> X -> result S) before after x y :
  (forall s, f s x = f s y) ->
  forall s, foldM f s (before ++ x :: after) = foldM f s (before ++ y :: after).
Proof.
  intros Hxy. apply foldM_congr. apply Forall2_app; [by apply Forall_Forall2_diag, Forall_true|].
  constructor; [done|]. by apply Forall_Forall2_diag, Forall_true.
Qed.

Lemma load_same_lines line line' :
  (forall sparse isz, load_line line sparse isz = load_line line' sparse isz) ->
  forall before after sparse isz,
    load (before ++ line :: after) sparse isz =
    load (before ++ line' :: after) sparse isz.
Proof.
  intros Hline before after sparse isz. unfold libsvm_load.
  rewrite (foldM_congr_middle (scan_step _ _ _ _ _ _ _ _ _ _) before after line line').
  2:{ intros [[data tg] n]. unfold scan_step. by rewrite Hline. }
  destruct (foldM _ _ (before ++ line' :: after)) as [[[data tg] n]|]; [|done].
  simpl. destruct sparse; [done|].
  rewrite (foldM_congr_middle (dense_step _ _ _ _ _ _ _ _ _) before after line line').
  2:{ intros data'. unfold dense_step. by rewrite Hline. }
  done.
Qed.

(** A feature token whose identifier is made of digits and is below 1
    (so 0) leaves no trace: the line parses, in sparse and in dense mode,
    to what the line without the token parses to, the first loop keeps the
    same tokens and counts the same [n_feat], and [libsvm_load] returns
    the same examples and the same metadata, so the same discovered
    [input_size], for a file with either line. A negative identifier is
    not made of digits, and its token is not dropped. *)
Theorem nonpositive_index_is_dropped line line' t0 pre tok post k :
  line_tokens line = t0 :: pre ++ tok :: post ->
  line_tokens line' = t0 :: pre ++ post ->
  numeric_id tok = Some k ->
  k <= 0 ->
  (forall sparse isz, load_line line sparse isz = load_line line' sparse isz) /\
  (exists tokens n_removed n_removed' n_feat,
      remove_loop (line_tokens line) = Ok (tokens, n_removed, n_feat) /\
      remove_loop (line_tokens line') = Ok (tokens, n_removed', n_feat) /\
      tok ∉ tokens) /\
  (forall before after sparse isz,
      load (before ++ line :: after) sparse isz =
      load (before ++ line' :: after) sparse isz).
Proof.
  intros Hl Hl' Hid Hk.
  assert (is_removed tok = true) as Hrem.
  { unfold is_removed. rewrite Hid. by apply Z.ltb_lt; lia. }
  assert (kept (line_tokens line) = kept (line_tokens line')) as Hkept.
  { rewrite Hl, Hl'. unfold kept. simpl. rewrite !List.filter_app. simpl.
    by rewrite Hrem. }
  assert (count_features (line_tokens line) = count_features (line_tokens line'))
    as Hcount.
  { rewrite Hl, Hl'. unfold count_features. simpl. rewrite !List.filter_app.
    simpl. by rewrite (is_removed_not_counted _ Hrem). }
  assert (forall sparse isz, load_line line sparse isz = load_line line' sparse isz)
    as Hline.
  { intros sparse isz. unfold libsvm_load_line. fold (line_tokens line).
    fold (line_tokens line'). by rewrite !load_tokens_unfold, Hkept, Hcount. }
  split; [done|]. split; [|by apply load_same_lines].
  rewrite !remove_loop_spec, Hkept, Hcount. do 4 eexists.
  split; [done|]. split; [done|].
  intros Hin%list_elem_of_In. unfold kept in Hin.
  apply filter_In in Hin as [_ Hin]. by rewrite Hrem in Hin.
Qed.

(** *** The first pass of [libsvm_load] *)

#[local] Abbreviation scan_step :=
  (scan_step F fzero pyfloat E convert_non_digit_features T convert_target
             int_max).
#[local] Abbreviation dense_step :=
  (dense_step F fzero pyfloat E convert_non_digit_features T convert_target
              int_max).

Lemma scan_step_intro sp o data tg n line ex idx m t :
  load_line line true (-1) = Ok ex ->
  example_indices F E T ex = Ok idx ->
  py_max idx = Ok m ->
  example_target F E T ex = Ok t ->
  scan_step sp o (data, tg, n) line =
    Ok (if sp then data ++ [ex] else data, {[ t ]} ∪ tg, scanned_size o n m).
Proof.
  intros Hex Hidx Hm Ht. unfold scan_step. rewrite Hex. simpl.
  rewrite Hidx. simpl. rewrite Hm. simpl. rewrite Ht. simpl.
  by destruct o.
Qed.

Lemma scan_step_elim sp o data tg n line st' :
  scan_step sp o (data, tg, n) line = Ok st' ->
  exists ex idx m t,
    load_line line true (-1) = Ok ex /\
    example_indices F E T ex = Ok idx /\
    py_max idx = Ok m /\
    example_target F E T ex = Ok t /\
    st' = (if sp then data ++ [ex] else data, {[ t ]} ∪ tg, scanned_size o n m).
Proof.
  intros Hst. unfold scan_step in Hst.
  destruct (load_line line true (-1)) as [ex|] eqn:Hex; [|done].
  simpl in Hst. destruct (example_indices F E T ex) as [idx|] eqn:Hidx; [|done].
  simpl in Hst. destruct (py_max idx) as [m|] eqn:Hm; [|done].
  simpl in Hst. destruct (example_target F E T ex) as [t|] eqn:Ht; [|done].
  simpl in Hst. injection Hst as <-. exists ex, idx, m, t.
  by repeat split.
Qed.

Lemma scan_fold_change file : forall sp o sp' g data tg n d2 n2 data' tg' n',
  foldM (scan_step sp o) (data, tg, n) file = Ok (data', tg', n') ->
  exists d2',
    foldM (scan_step sp' (Some g)) (d2, tg, n2) file = Ok (d2', tg', n2) /\
    (sp' = false -> d2' = d2) /\
    (sp = true -> sp' = true -> d2 = data -> d2' = data').
Proof.
  induction file as [|line file IH];
    intros sp o sp' g data tg n d2 n2 data' tg' n' Hscan.
  - injection Hscan as <- <- <-. exists d2. by repeat split.
  - cbn [foldM] in Hscan |- *.
    destruct (scan_step sp o _ line) as [st1|] eqn:Hstep; [|done].
    destruct (scan_step_elim _ _ _ _ _ _ _ Hstep) as (ex & idx & m & t & Hex & Hidx & Hm & Ht & ->).
    rewrite (scan_step_intro sp' (Some g) d2 tg n2 _ _ _ _ _ Hex Hidx Hm Ht).
    simpl in Hscan |- *.
    destruct (IH _ _ sp' g _ _ _ (if sp' then d2 ++ [ex] else d2) n2 _ _ _ Hscan)
      as (d2' & Hfold & Hd1 & Hd2).
    exists d2'. split; [done|]. split.
    + intros ->. by apply Hd1.
    + intros -> -> ->. by apply Hd2.
Qed.

Lemma scan_fold_data file : forall o data tg n data' tg' n',
  foldM (scan_step true o) (data, tg, n) file = Ok (data', tg', n') ->
  exists exs,
    mapM (fun line => load_line line true (-1)) file = Ok exs /\
    data' = data ++ exs.
Proof.
  induction file as [|line file IH]; intros o data tg n data' tg' n' Hscan.
  - injection Hscan as <- <- <-. exists []. by rewrite app_nil_r.
  - cbn [foldM] in Hscan.
    destruct (scan_step true o _ line) as [st1|] eqn:Hstep; [|done].
    destruct (scan_step_elim _ _ _ _ _ _ _ Hstep) as (ex & idx & m & t & Hex & _ & _ & _ & ->).
    simpl in Hscan. destruct (IH _ _ _ _ _ _ _ Hscan) as (exs & Hexs & ->).
    exists (ex :: exs). simpl. rewrite Hex. simpl. rewrite Hexs. simpl.
    by rewrite <- app_assoc.
Qed.

(** The shape of a sparse example: both vectors have [n_feat] entries,
    and [n_feat] counts every token of the line, the first one included. *)
Lemma load_line_sparse_shape line isz ex :
  load_line line true isz = Ok ex ->
  exists vals idx t extras,
    ex = FSparse vals idx :: FTarget t :: map FExtra extras /\
    Z.of_nat (length idx) = count_features (line_tokens line) /\
    Z.of_nat (length vals) = count_features (line_tokens line).
Proof.
  unfold libsvm_load_line. fold (line_tokens line). intros Hex.
  destruct (load_tokens_sparse_elim _ _ _ Hex)
    as (t0 & rest & items & tgt & Hk & Hits & Hfit & Htgt).
  rewrite (load_tokens_sparse_intro _ _ _ _ _ isz Hk Hits Hfit Htgt) in Hex.
  injection Hex as <-. do 4 eexists. split; [done|].
  destruct (kept_count _ _ _ _ Hk Hits) as (_ & _ & Hn).
  assert (length (item_vals items) = length (item_ids items)) as Hlen.
  { clear. induction items as [|[k v|e] items IH]; simpl; [done| |done].
    by rewrite IH. }
  rewrite !length_app, !length_replicate, Hlen. unfold padding.
  destruct (is_counted t0); lia.
Qed.

Lemma py_index_nat {A} (l : list A) i x :
  l !! i = Some x -> py_index l (Z.of_nat i) = Ok x.
Proof.
  intros Hx. pose proof (lookup_lt_Some _ _ _ Hx) as Hlt. unfold py_index.
  destruct (Z.ltb_spec (Z.of_nat i) 0); [lia|].
  rewrite andb_true_intro by (split; [apply Z.leb_le | apply Z.ltb_lt]; lia).
  by rewrite Nat2Z.id, Hx.
Qed.

Lemma example_target_sparse (vals : list F) idx (t : T) (rest : example F E T) :
  example_target F E T (FSparse vals idx :: FTarget t :: rest) = Ok t.
Proof.
  unfold example_target.
  by rewrite (py_index_nat _ 1 (FTarget t)).
Qed.

Lemma py_max_spec idx m :
  py_max idx = Ok m -> m ∈ idx /\ Forall (fun k => k <= m) idx.
Proof.
  destruct idx as [|x idx]; [done|]. simpl. intros [= <-].
  revert x. induction idx as [|y idx IH]; intros x; simpl.
  - split; [by left | by constructor].
  - destruct (IH (Z.max x y)) as [Hin Hle]. split.
    + apply elem_of_cons in Hin as [Heq|Hin]; [|by right; right].
      rewrite Heq. destruct (Z.max_spec x y) as [[_ ->]|[_ ->]];
        [right; left | left]; done.
    + apply Forall_cons in Hle as [Hxy Hle]. constructor; [lia|].
      constructor; [lia | done].
Qed.

(** *** Sparse loading with a supplied size *)

(** C10 (amended). For every file whose lines all parse in sparse mode
    with a non-empty index vector, and every caller-supplied
    [input_size], [libsvm_load] in sparse mode succeeds and returns the
    metadata [input_size] equal to the supplied value, whatever the
    feature indices of the file are; the examples are the sparse parses of
    the lines, in order, as [libsvm_load_line] returns them. *)
Theorem sparse_load_keeps_supplied_size file isz :
  Forall (fun line => exists ex idx,
              load_line line true (-1) = Ok ex /\
              example_indices F E T ex = Ok idx /\
              idx <> []) file ->
  exists data tg,
    load file true (Some isz) = Ok (data, Metadata tg isz) /\
    mapM (fun line => load_line line true (-1)) file = Ok data.
Proof.
  intros Hfile. unfold libsvm_load.
  assert (forall data tg, exists data' tg',
            foldM (scan_step true (Some isz)) (data, tg, isz) file =
              Ok (data', tg', isz)) as Hscan.
  { induction Hfile as [|line file (ex & idx & Hex & Hidx & Hne) _ IH];
      intros data tg; [by eauto|].
    destruct (load_line_sparse_shape _ _ _ Hex) as (vals & idx' & t & extras & -> & _).
    destruct idx as [|x idx]; [done|].
    cbn [foldM].
    rewrite (scan_step_intro true (Some isz) data tg isz _ _ _ _ t Hex Hidx eq_refl
               (example_target_sparse _ _ _ _)).
    simpl. apply IH. }
  destruct (Hscan [] ∅) as (data & tg & Hfold). rewrite Hfold. simpl.
  exists data, tg. split; [done|].
  destruct (scan_fold_data _ _ _ _ _ _ _ _ Hfold) as (exs & Hexs & ->).
  done.
Qed.

(** *** Lines without a counted feature *)

Lemma foldM_app {S X} (f : S -> X -> result S) l1 l2 : forall s,
  foldM f s (l1 ++ l2) = (s' ← foldM f s l1; foldM f s' l2).
Proof.
  induction l1 as [|x l1 IH]; intros s; simpl; [done|].
  destruct (f s x); simpl; [apply IH | done].
Qed.

Lemma scan_step_empty_line sp o st line :
  count_features (line_tokens line) = 0 ->
  (exists e, scan_step sp o st line = Err e) /\
  (forall ex, load_line line true (-1) = Ok ex ->
     scan_step sp o st line = Err ValueError /\
     exists t extras, ex = FSparse [] [] :: FTarget t :: map FExtra extras).
Proof.
  intros Hcount. destruct st as [[data tg] n].
  destruct (load_line line true (-1)) as [ex|e] eqn:Hex.
  - destruct (load_line_sparse_shape _ _ _ Hex)
      as (vals & idx & t & extras & -> & Hidx & Hvals).
    rewrite Hcount in Hidx, Hvals.
    destruct idx; [|simpl in Hidx; lia]. destruct vals; [|simpl in Hvals; lia].
    assert (scan_step sp o (data, tg, n) line = Err ValueError) as Hstep.
    { unfold scan_step. by rewrite Hex. }
    split; [by eauto|]. intros ex' [= <-]. split; [done|]. by eauto.
  - split; [|done]. exists e. unfold scan_step. by rewrite Hex.
Qed.

(** A file with a line on which the first loop counts no numeric feature
    ([n_feat = 0], the target token included in the count) cannot be
    loaded: [libsvm_load] raises, in sparse and in dense mode, with and
    without a supplied [input_size]. When the lines before it are scanned
    without error and the line itself parses, the exception is the
    [ValueError] of [max] on the empty index vector of that line, whose
    sparse pair is the empty pair that [libsvm_load_line] returns. No
    example that [libsvm_load] returns has an empty index vector. A line
    whose target is itself counted is not such a line. *)
Theorem featureless_line_fails before line after sparse isz :
  count_features (line_tokens line) = 0 ->
  (exists e, load (before ++ line :: after) sparse isz = Err e) /\
  (forall ex st,
      load_line line true (-1) = Ok ex ->
      foldM (scan_step sparse isz) ([], ∅, default 0 isz) before = Ok st ->
      (exists t extras, ex = FSparse [] [] :: FTarget t :: map FExtra extras) /\
      py_max [] = Err ValueError /\
      load (before ++ line :: after) sparse isz = Err ValueError) /\
  (forall file data meta,
      load file true isz = Ok (data, meta) ->
      Forall (fun ex => exists idx,
                  example_indices F E T ex = Ok idx /\ idx <> []) data).
Proof.
  intros Hcount.
  assert (load (before ++ line :: after) sparse isz =
          (st ← foldM (scan_step sparse isz) ([], ∅, default 0 isz) before;
           st1 ← scan_step sparse isz st line;
           '(data, tg, n) ← foldM (scan_step sparse isz) st1 after;
           data' ← (if sparse then Ok data
                    else foldM (dense_step n) data (before ++ line :: after));
           Ok (data', Metadata tg n))) as Hload.
  { unfold libsvm_load. rewrite foldM_app. cbn [foldM].
    replace (match isz with Some n => n | None => 0 end) with (default 0 isz)
      by by destruct isz.
    destruct (foldM _ _ before) as [st|]; [|done]. simpl.
    by destruct (scan_step sparse isz st line). }
  split; [|split].
  - rewrite Hload.
    destruct (foldM _ _ before) as [st|e]; [|by eauto]. simpl.
    destruct (scan_step_empty_line sparse isz st line Hcount) as [[e ->] _].
    by eauto.
  - intros ex st Hex Hbefore. rewrite Hload, Hbefore. simpl.
    destruct (scan_step_empty_line sparse isz st line Hcount) as [_ Hline].
    destruct (Hline ex Hex) as [-> Hshape]. by repeat split.
  - intros file data meta Hfile. unfold libsvm_load in Hfile.
    destruct (foldM _ _ file) as [[[data' tg] n]|] eqn:Hfold; [|done].
    simpl in Hfile. injection Hfile as <- _. clear Hload.
    assert (forall pre, Forall (fun ex => exists idx,
                example_indices F E T ex = Ok idx /\ idx <> []) pre ->
              forall tg0 n0,
                foldM (scan_step true isz) (pre, tg0, n0) file = Ok (data', tg, n) ->
                Forall (fun ex => exists idx,
                example_indices F E T ex = Ok idx /\ idx <> []) data') as Hall.
    { clear Hfold. induction file as [|l file IH]; intros pre Hpre tg0 n0 Hfold.
      - by injection Hfold as <- _ _.
      - cbn [foldM] in Hfold.
        destruct (scan_step true isz _ l) as [st1|] eqn:Hstep; [|done].
        destruct (scan_step_elim _ _ _ _ _ _ _ Hstep)
          as (ex & idx & m & t & _ & Hidx & Hm & _ & ->).
        simpl in Hfold. eapply IH; [|exact Hfold].
        apply Forall_app. split; [done|]. constructor; [|constructor].
        exists idx. split; [done|]. by destruct idx. }
    eapply (Hall []); [constructor | exact Hfold].
Qed.

(** *** Dense loading with a supplied size *)

Lemma dense_line_of_sparse line ex idx m given :
  load_line line true (-1) = Ok ex ->
  example_indices F E T ex = Ok idx ->
  py_max idx = Ok m ->
  0 <= given ->
  (m <= given -> exists ex', load_line line false given = Ok ex') /\
  (given < m -> load_line line false given = Err IndexError).
Proof.
  unfold libsvm_load_line. fold (line_tokens line). intros Hex Hidx Hm Hgiven.
  destruct (load_tokens_sparse_elim _ _ _ Hex)
    as (t0 & rest & items & tgt & Hk & Hits & Hfit & Htgt).
  rewrite (load_tokens_sparse_intro _ _ _ _ _ (-1) Hk Hits Hfit Htgt) in Hex.
  injection Hex as <-. injection Hidx as <-.
  destruct (py_max_spec _ _ Hm) as [Hin Hle]. split.
  - intros Hmg.
    destruct (load_tokens_dense_ok _ _ _ _ given Hk Hits Hgiven)
      as (dense & _ & Hload).
    { apply Forall_app in Hle as [Hle _]. eapply Forall_impl; [exact Hle|].
      simpl. intros k Hk'. lia. }
    rewrite Hload, Htgt. by eauto.
  - intros Hgm. apply (load_tokens_dense_out_of_range _ _ _ _ _ Hk Hits Hgiven).
    apply Exists_exists. exists m. split; [|done].
    apply elem_of_app in Hin as [Hin|Hin]; [done|].
    apply elem_of_replicate in Hin as [-> _]. lia.
Qed.

Lemma dense_step_ok n acc l ex :
  load_line l false n = Ok ex -> dense_step n acc l = Ok (acc ++ [ex]).
Proof. intros Hex. unfold dense_step. by rewrite Hex. Qed.

Lemma dense_step_err n acc l e :
  load_line l false n = Err e -> dense_step n acc l = Err e.
Proof. intros Hex. unfold dense_step. by rewrite Hex. Qed.

(** C5, amended. When a file loads in sparse mode without a supplied
    [input_size], and the caller supplies an [input_size] that is not
    negative and is strictly smaller than the [input_size] so discovered
    (the largest index of the sparse examples), [libsvm_load] in dense
    mode raises [IndexError]. It is raised by [libsvm_load_line] on the
    first line with an index above the supplied size; the lines before it
    are parsed, and no write is clamped and no vector is resized. *)
Theorem undersized_dense_load_fails file given data meta :
  load file true None = Ok (data, meta) ->
  0 <= given ->
  given < input_size meta ->
  load file false (Some given) = Err IndexError /\
  exists before line after,
    file = before ++ line :: after /\
    Forall (fun l => is_ok (load_line l false given) = true) before /\
    load_line line false given = Err IndexError.
Proof.
  intros Hload Hgiven Hlt. unfold libsvm_load in Hload.
  destruct (foldM _ _ file) as [[[data0 tg] n]|] eqn:Hscan; [|done].
  simpl in Hload. injection Hload as <- <-. simpl in Hlt.
  destruct (scan_fold_change file _ _ false given _ _ _ [] given _ _ _ Hscan)
    as (d2 & Hscan2 & Hd2 & _).
  rewrite (Hd2 eq_refl) in Hscan2.
  assert (forall n0, n0 <= given ->
            forall data1 tg1,
              foldM (scan_step true None) (data1, tg1, n0) file = Ok (data0, tg, n) ->
              (forall acc, foldM (dense_step given) acc file = Err IndexError) /\
              exists before line after,
                file = before ++ line :: after /\
                Forall (fun l => is_ok (load_line l false given) = true) before /\
                load_line line false given = Err IndexError) as Hfirst.
  { clear Hscan Hscan2 Hd2. induction file as [|l file IH];
      intros n0 Hn0 data1 tg1 Hfold.
    - injection Hfold as _ _ <-. lia.
    - cbn [foldM] in Hfold.
      destruct (scan_step true None _ l) as [st1|] eqn:Hstep; [|done].
      destruct (scan_step_elim _ _ _ _ _ _ _ Hstep)
        as (ex & idx & m & t & Hex & Hidx & Hm & _ & ->).
      simpl in Hfold.
      destruct (dense_line_of_sparse _ _ _ _ given Hex Hidx Hm Hgiven)
        as [Hfit Hover].
      destruct (Z.le_gt_cases m given) as [Hle|Hgt].
      + destruct (Hfit Hle) as [ex' Hex'].
        destruct (IH (if n0 <? m then m else n0)) with (2 := Hfold)
          as (Hdense & before & line & after & -> & Hbefore & Hline).
        { destruct (n0 <? m); lia. }
        split.
        * intros acc. cbn [foldM]. rewrite (dense_step_ok _ _ _ _ Hex').
          simpl. apply Hdense.
        * exists (l :: before), line, after. split; [done|].
          split; [|done]. constructor; [by rewrite Hex' | done].
      + split.
        * intros acc. cbn [foldM].
          by rewrite (dense_step_err _ _ _ _ (Hover Hgt)).
        * exists [], l, file. by repeat split; [constructor | apply Hover]. }
  destruct (Hfirst 0 Hgiven [] ∅ Hscan) as [Hdense Hline].
  split; [|done]. unfold libsvm_load. rewrite Hscan2. simpl.
  by rewrite Hdense.
Qed.

(** *** Lines whose first token is kept as the target

    The two lemmas below hold when the first loop neither deletes nor
    counts the first token, which is the case of every target without a
    numeric identifier in front of a [:]. *)

Lemma fill_ok_items toks : forall st st',
  foldM fill_step st toks = Ok st' -> exists items, items_of toks = Ok items.
Proof.
  induction toks as [|tok toks IH]; intros st st' Hfill; [by exists []|].
  cbn [foldM] in Hfill.
  destruct (fill_step st tok) as [st1|] eqn:Hstep; [|done].
  destruct (fill_step_ok_item _ _ _ Hstep) as [it Hit].
  destruct (IH _ _ Hfill) as [its Hits].
  exists (it :: its). by rewrite items_of_cons, Hit, Hits.
Qed.

Lemma items_of_elem toks items tok :
  items_of toks = Ok items -> tok ∈ toks -> exists it, token_item tok = Ok it.
Proof.
  revert items. induction toks as [|t toks IH]; intros items Hits Hin.
  - by apply elem_of_nil in Hin.
  - rewrite items_of_cons in Hits.
    destruct (token_item t) as [it|] eqn:Hit; [|done].
    destruct (items_of toks) as [its|]; [|done].
    apply elem_of_cons in Hin as [->|Hin]; [by eauto|]. by eapply IH.
Qed.

Lemma missing_colon_raises line sparse isz t0 rest tok :
  line_tokens line = t0 :: rest ->
  is_removed t0 = false ->
  tok ∈ rest ->
  py_find colon tok < 0 ->
  exists e, load_line line sparse isz = Err e.
Proof.
  intros Htok Ht0 Hin Hfind. unfold libsvm_load_line. fold (line_tokens line).
  destruct (load_tokens (line_tokens line) sparse isz) as [ex|e] eqn:Hex;
    [|by eauto].
  assert (kept (t0 :: rest) = t0 :: kept rest) as Hk.
  { unfold kept. simpl. by rewrite Ht0. }
  exfalso. rewrite load_tokens_unfold, Htok, Hk in Hex.
  destruct (alloc F fzero sparse _ isz) as [b|]; [|done].
  simpl in Hex. rewrite drop_0 in Hex.
  destruct (foldM fill_step _ (kept rest)) as [st'|] eqn:Hfill; [|done].
  destruct (fill_ok_items _ _ _ Hfill) as [items Hits].
  assert (numeric_id tok = None) as Hid.
  { unfold numeric_id. by destruct (Z.leb_spec 0 (py_find colon tok)); [lia|]. }
  assert (tok ∈ kept rest) as Hin'.
  { apply list_elem_of_In, filter_In. split; [by apply list_elem_of_In|].
    unfold is_removed. by rewrite Hid. }
  destruct (items_of_elem _ _ _ Hits Hin') as [it Hit].
  unfold token_item in Hit.
  destruct (py_split_on_cons colon tok) as (p & ps & Hs).
  destruct (py_split_on_find _ _ _ _ Hs) as [(-> & _)|(_ & ? & _)]; [|lia].
  by rewrite Hs in Hit.
Qed.

Lemma sparse_lengths_after_target line isz t0 rest vals idx fields :
  line_tokens line = t0 :: rest ->
  is_counted t0 = false ->
  load_line line true isz = Ok (FSparse vals idx :: fields) ->
  Z.of_nat (length idx) = count_features (feature_tokens line) /\
  Z.of_nat (length vals) = count_features (feature_tokens line).
Proof.
  intros Htok Ht0 Hex.
  destruct (load_line_sparse_shape _ _ _ Hex)
    as (vals' & idx' & t & extras & [= <- <- _] & Hidx & Hvals).
  unfold feature_tokens. rewrite Htok in *. simpl. rewrite drop_0.
  rewrite count_features_cons, Ht0 in Hidx, Hvals. lia.
Qed.

End LibsvmFacts.

(** ** The two-line file *)

Section TwoLineFile.

Variable F : Type.
Variable fzero : F.
Variable pyfloat : string -> option F.
Variable E : Type.
Variable convert_non_digit_features : string -> string -> result E.
Variable int_max : Z.

(** The floats [0.5], [2.0] and [1.0] are what [float] reads from these
    strings, and the indices of the file fit the index vectors. *)
Variables f05 f20 f10 : F.
Hypothesis float_05 : pyfloat "0.5" = Some f05.
Hypothesis float_20 : pyfloat "2.0" = Some f20.
Hypothesis float_10 : pyfloat "1.0" = Some f10.
Hypothesis indices_fit : 3 <= int_max.

#[local] Abbreviation load_line :=
  (libsvm_load_line F fzero pyfloat E convert_non_digit_features string
                    convert_target_str int_max).
#[local] Abbreviation load :=
  (libsvm_load F fzero pyfloat E convert_non_digit_features string
               convert_target_str int_max).

Lemma first_line_sparse isz :
  load_line ("+1 1:0.5 3:2.0" +:+ newline) true isz =
    Ok [FSparse [f05; f20] [1; 3]; FTarget "+1"].
Proof.
  unfold libsvm_load_line.
  rewrite (load_tokens_sparse_intro F fzero pyfloat E convert_non_digit_features
             string convert_target_str int_max _ "+1" ["1:0.5"; "3:2.0"]
             [IFeat 1 f05; IFeat 3 f20] "+1" isz); [done..| | |done].
  - vm_compute. by rewrite float_05, float_20.
  - repeat constructor; lia.
Qed.

Lemma second_line_sparse isz :
  load_line ("-1 2:1.0" +:+ newline) true isz =
    Ok [FSparse [f10] [2]; FTarget "-1"].
Proof.
  unfold libsvm_load_line.
  rewrite (load_tokens_sparse_intro F fzero pyfloat E convert_non_digit_features
             string convert_target_str int_max _ "-1" ["2:1.0"]
             [IFeat 2 f10] "-1" isz); [done..| | |done].
  - vm_compute. by rewrite float_10.
  - repeat constructor; lia.
Qed.

Lemma first_line_dense :
  load_line ("+1 1:0.5 3:2.0" +:+ newline) false 3 =
    Ok [FDense [f05; fzero; f20]; FTarget "+1"].
Proof.
  unfold libsvm_load_line.
  destruct (load_tokens_dense_ok F fzero pyfloat E convert_non_digit_features
              string convert_target_str int_max
              (py_split (py_strip ("+1 1:0.5 3:2.0" +:+ newline)))
              "+1" ["1:0.5"; "3:2.0"] [IFeat 1 f05; IFeat 3 f20] 3)
    as (dense & Hdense & ->); [done| |done| |].
  - vm_compute. by rewrite float_05, float_20.
  - repeat constructor; lia.
  - vm_compute in Hdense. by injection Hdense as <-.
Qed.

Lemma second_line_dense :
  load_line ("-1 2:1.0" +:+ newline) false 3 =
    Ok [FDense [fzero; f10; fzero]; FTarget "-1"].
Proof.
  unfold libsvm_load_line.
  destruct (load_tokens_dense_ok F fzero pyfloat E convert_non_digit_features
              string convert_target_str int_max
              (py_split (py_strip ("-1 2:1.0" +:+ newline)))
              "-1" ["2:1.0"] [IFeat 2 f10] 3)
    as (dense & Hdense & ->); [done| |done| |].
  - vm_compute. by rewrite float_10.
  - repeat constructor; lia.
  - vm_compute in Hdense. by injection Hdense as <-.
Qed.

(** C2. Loading the file of the two lines [+1 1:0.5 3:2.0] and
    [-1 2:1.0] in sparse mode without an [input_size] returns the metadata
    [input_size = 3] and [targets = {'+1', '-1'}], and example 0 has the
    input [(values = [0.5, 2.0], indices = [1, 3])]; loading it in dense
    mode with [input_size = 3] returns the dense vectors [0.5, 0.0, 2.0]
    for example 0 and [0.0, 1.0, 0.0] for example 1. *)
Theorem two_line_file_loads :
  load two_line_file true None =
    Ok ([[FSparse [f05; f20] [1; 3]; FTarget "+1"];
         [FSparse [f10] [2]; FTarget "-1"]],
        Metadata {[ "+1"; "-1" ]} 3) /\
  load two_line_file false (Some 3) =
    Ok ([[FDense [f05; fzero; f20]; FTarget "+1"];
         [FDense [fzero; f10; fzero]; FTarget "-1"]],
        Metadata {[ "+1"; "-1" ]} 3).
Proof.
  assert (({[ "-1" ]} ∪ ({[ "+1" ]} ∪ ∅) : gset string) = {[ "+1"; "-1" ]})
    as Htargets by set_solver.
  unfold libsvm_load, two_line_file. cbn [foldM]. split.
  - rewrite (scan_step_intro F fzero pyfloat E convert_non_digit_features string
               convert_target_str int_max true None [] ∅ 0 _ _ [1; 3] 3 "+1"
               (first_line_sparse (-1))); [|done..].
    cbn [mbind result_bind].
    rewrite (scan_step_intro F fzero pyfloat E convert_non_digit_features string
               convert_target_str int_max true None _ _ _ _ _ [2] 2 "-1"
               (second_line_sparse (-1))); [|done..].
    simpl. by rewrite Htargets.
  - rewrite (scan_step_intro F fzero pyfloat E convert_non_digit_features string
               convert_target_str int_max false (Some 3) [] ∅ 3 _ _ [1; 3] 3 "+1"
               (first_line_sparse (-1))); [|done..].
    cbn [mbind result_bind].
    rewrite (scan_step_intro F fzero pyfloat E convert_non_digit_features string
               convert_target_str int_max false (Some 3) _ _ _ _ _ [2] 2 "-1"
               (second_line_sparse (-1))); [|done..].
    cbn [mbind result_bind scanned_size foldM].
    rewrite (dense_step_ok F fzero pyfloat E convert_non_digit_features string
               convert_target_str int_max 3 [] _ _ first_line_dense).
    cbn [mbind result_bind].
    rewrite (dense_step_ok F fzero pyfloat E convert_non_digit_features string
               convert_target_str int_max 3 _ _ _ second_line_dense).
    simpl. by rewrite Htargets.
Qed.

End TwoLineFile.

(** ** IteratorWithFields *)

Lemma mapM_pure {A B} (f : A -> B) (l : list A) :
  mapM (fun x => Ok (f x)) l = Ok (map f l).
Proof. induction l as [|x l IH]; simpl; [done|]. by rewrite IH. Qed.

Lemma IteratorWithFields_iter_total {A} (data : list (list A)) fields :
  IteratorWithFields_iter (IteratorWithFields_init data fields) =
    Ok (map (fun r => map (fun be => py_slice r be.1 be.2) fields) data).
Proof.
  unfold IteratorWithFields_iter, py_getslice. simpl.
  induction data as [|r data IH]; simpl; [done|].
  rewrite mapM_pure. simpl. by rewrite IH.
Qed.

Lemma py_slice_forward {A} (r : list A) beg end_ :
  0 <= beg <= end_ ->
  py_slice r beg end_ = take (Z.to_nat (end_ - beg)) (drop (Z.to_nat beg) r).
Proof.
  intros Hbe. unfold py_slice.
  destruct (Z.ltb_spec beg 0); [lia|]. destruct (Z.ltb_spec end_ 0); [lia|].
  destruct (Z.le_gt_cases beg (Z.of_nat (length r))) as [Hb|Hb].
  - rewrite (Z.min_l beg) by done.
    destruct (Z.le_gt_cases end_ (Z.of_nat (length r))) as [He|He].
    + by rewrite (Z.min_l end_) by done.
    + rewrite (Z.min_r end_) by lia.
      rewrite !take_ge; [done|rewrite length_drop; lia..].
  - rewrite (Z.min_r beg), (Z.min_r end_) by lia.
    rewrite !drop_ge by lia. by rewrite !take_nil.
Qed.

(** C7 (amended). For every 2D buffer, every row of it and every field
    descriptor [(beg, end)], iterating [IteratorWithFields] does not fail,
    neither at construction nor at iteration: it yields one list of fields
    per row, and the field of the descriptor is the slice [row[beg:end]],
    which Python clamps to the row. For [0 <= beg <= end] that is the
    columns from [beg] up to [end] or to the end of the row, whichever
    comes first, so when [end] exceeds the column extent the field is the
    (possibly empty) rest of the row from [beg]. *)
Theorem iterator_fields_are_clamped {A} (data : list (list A)) fields
        t r j beg end_ :
  data !! t = Some r ->
  fields !! j = Some (beg, end_) ->
  exists out row,
    IteratorWithFields_iter (IteratorWithFields_init data fields) = Ok out /\
    length out = length data /\
    out !! t = Some row /\
    length row = length fields /\
    row !! j = Some (py_slice r beg end_) /\
    (0 <= beg <= end_ ->
     py_slice r beg end_ =
       take (Z.to_nat (end_ - beg)) (drop (Z.to_nat beg) r)) /\
    (0 <= beg <= end_ -> Z.of_nat (length r) <= end_ ->
     py_slice r beg end_ = drop (Z.to_nat beg) r).
Proof.
  intros Hr Hf. rewrite IteratorWithFields_iter_total.
  eexists _, _. split; [done|]. rewrite length_map. split; [done|].
  rewrite list_lookup_fmap, Hr. simpl. split; [done|].
  rewrite length_map. split; [done|].
  rewrite list_lookup_fmap, Hf. simpl. split; [done|].
  split; [by apply py_slice_forward|].
  intros Hbe He. rewrite py_slice_forward by done. rewrite take_ge; [done|].
  rewrite length_drop. lia.
Qed.

(** C7, as stated, fails: the descriptor [(0, 5)] exceeds the three columns
    of the buffer, and the iteration yields the whole row without any
    failure. *)
Lemma iterator_out_of_range_yields :
  (exists r be, r ∈ [[1; 2; 3]] /\ be ∈ [(0, 5)] /\ Z.of_nat (length r) < be.2) /\
  IteratorWithFields_iter (IteratorWithFields_init [[1; 2; 3]] [(0, 5)]) =
    Ok [[[1; 2; 3]]] /\
  ~ (exists e,
        IteratorWithFields_iter (IteratorWithFields_init [[1; 2; 3]] [(0, 5)]) =
          Err e).
Proof.
  split; [|split].
  - exists [1; 2; 3], (0, 5).
    split; [constructor|]. split; [constructor|]. simpl. lia.
  - reflexivity.
  - by intros [e He].
Qed.

(** ** MemoryDataset *)

Section MemoryDatasetFacts.

Variable A : Type.
Variable zero : A.
Variable dtype : Type.
Variable cast : dtype -> A -> A.

#[local] Abbreviation ndarray := (ndarray A).
#[local] Abbreviation nparray := (nparray A dtype).
#[local] Abbreviation pyexample := (pyexample A).
#[local] Abbreviation nd_setitem := (nd_setitem A dtype cast).
#[local] Abbreviation value_matches := (value_matches A dtype cast).
#[local] Abbreviation example_matches := (example_matches A dtype cast).

Variable data : list pyexample.
Variable field_shapes : list (list nat).
Variable dtypes : list dtype.
Variable len : nat.

Hypothesis dtypes_length : length dtypes = length field_shapes.
Hypothesis data_matches : Forall (example_matches field_shapes dtypes) data.
Hypothesis len_data : len = length data.

#[local] Abbreviation mem_inv :=
  (mem_inv A dtype data field_shapes dtypes len).

Lemma mem_inv_weaken (filled filled' : nat -> nat -> Prop) mem_data :
  (forall i t, (i < length field_shapes)%nat -> filled' i t -> filled i t) ->
  mem_inv filled mem_data -> mem_inv filled' mem_data.
Proof.
  intros Hsub [Hlen Hinv]. split; [done|]. intros i sh d Hsh Hd.
  destruct (Hinv i sh d Hsh Hd) as (rows & Hm & Hrows & Hfilled).
  exists rows. repeat split; [done..|]. intros t ex v Hf.
  apply Hfilled, Hsub; [|done]. by apply lookup_lt_Some in Hsh.
Qed.

Lemma count_length (l : list pyexample) n :
  foldl (fun n _ => S n) n l = (n + length l)%nat.
Proof. revert n. induction l as [|x l IH]; intros n; simpl; [lia|]. rewrite IH. lia. Qed.

Lemma alloc_step_ok acc i sh d :
  field_shapes !! i = Some sh -> dtypes !! i = Some d ->
  alloc_step A zero dtype field_shapes dtypes len acc i =
    Ok (acc ++ [NpArray (len :: row_shape sh) d
                        (nd_zeros A zero (len :: row_shape sh))]).
Proof.
  intros Hsh Hd. unfold alloc_step.
  rewrite (py_index_nat _ _ _ Hsh). simpl. rewrite (py_index_nat _ _ _ Hd).
  simpl. unfold np_zeros_nd, row_shape. by destruct (decide (sh = [1%nat])).
Qed.

Lemma alloc_loop k : forall j acc,
  (j + k <= length field_shapes)%nat ->
  exists new,
    foldM (alloc_step A zero dtype field_shapes dtypes len) acc (seq j k) =
      Ok (acc ++ new) /\
    length new = k /\
    forall i sh d,
      (i < k)%nat -> field_shapes !! (j + i)%nat = Some sh ->
      dtypes !! (j + i)%nat = Some d ->
      new !! i = Some (NpArray (len :: row_shape sh) d
                               (nd_zeros A zero (len :: row_shape sh))).
Proof.
  induction k as [|k IH]; intros j acc Hjk.
  - exists []. simpl. rewrite app_nil_r. repeat split. intros; lia.
  - cbn [seq foldM].
    destruct (lookup_lt_is_Some_2 field_shapes j) as [sh Hsh]; [lia|].
    destruct (lookup_lt_is_Some_2 dtypes j) as [d Hd]; [lia|].
    rewrite (alloc_step_ok _ _ _ _ Hsh Hd). cbn [mbind result_bind].
    destruct (IH (S j) (acc ++ [NpArray (len :: row_shape sh) d
                                  (nd_zeros A zero (len :: row_shape sh))]))
      as (new & Hfold & Hlen & Hnew); [lia|].
    rewrite Hfold. eexists (_ :: new). rewrite <- app_assoc. split; [done|].
    split; [simpl; lia|].
    intros i sh' d' Hi Hsh' Hd'. destruct i as [|i].
    + rewrite Nat.add_0_r in Hsh', Hd'. by simplify_eq.
    + apply Hnew; [lia|..]; by replace (S j + i)%nat with (j + S i)%nat by lia.
Qed.

Lemma alloc_inv :
  exists mem_data,
    foldM (alloc_step A zero dtype field_shapes dtypes len) []
          (seq 0 (length field_shapes)) = Ok mem_data /\
    mem_inv (fun _ _ => False) mem_data.
Proof.
  destruct (alloc_loop (length field_shapes) 0%nat []) as (new & Hfold & Hlen & Hnew);
    [lia|].
  exists new. split; [done|]. split; [done|].
  intros i sh d Hsh Hd. eexists. split.
  - apply Hnew; [|done..]. by apply lookup_lt_Some in Hsh.
  - simpl. rewrite length_replicate. by split.
Qed.

Lemma set_row filled mem_data i t ex sh d v :
  mem_inv filled mem_data ->
  field_shapes !! i = Some sh -> dtypes !! i = Some d ->
  data !! t = Some ex -> field_of ex i = Some v -> value_matches sh d v ->
  exists m m',
    mem_data !! i = Some m /\
    nd_setitem m (Z.of_nat t) v = Ok m' /\
    mem_inv (fun i' t' => filled i' t' \/ (i' = i /\ t' = t))
            (<[i := m']> mem_data).
Proof.
  intros [Hlen Hinv] Hsh Hd Hex Hv [Hshape Hcast].
  destruct (Hinv i sh d Hsh Hd) as (rows & Hm & Hrows & Hfilled).
  pose proof (lookup_lt_Some _ _ _ Hex) as Ht.
  eexists _, _. split; [exact Hm|]. split.
  { unfold nd_setitem. simpl.
    destruct (Z.ltb_spec (Z.of_nat t) 0); [lia|].
    rewrite andb_true_intro
      by (split; [apply Z.leb_le | apply Z.ltb_lt]; lia).
    rewrite Hshape, Hcast, Nat2Z.id. done. }
  split; [by rewrite length_insert|].
  intros i' sh' d' Hsh' Hd'. destruct (decide (i' = i)) as [->|Hne].
  - simplify_eq. exists (<[t := v]> rows).
    rewrite list_lookup_insert_eq by (by apply lookup_lt_Some in Hm).
    split; [done|]. split; [by rewrite length_insert|].
    intros t' ex' v' Hf Hex' Hv'. destruct (decide (t' = t)) as [->|Hnet].
    + simplify_eq. apply list_lookup_insert_eq. lia.
    + rewrite list_lookup_insert_ne by done.
      apply (Hfilled t' ex' v'); [|done..]. by destruct Hf as [?|[_ ?]].
  - destruct (Hinv i' sh' d' Hsh' Hd') as (rows' & Hm' & Hrows' & Hfilled').
    exists rows'. rewrite list_lookup_insert_ne by done.
    split; [done|]. split; [done|].
    intros t' ex' v' Hf. apply Hfilled'. by destruct Hf as [?|[? _]].
Qed.

Lemma copy_field_ok filled mem_data i t vs sh d :
  mem_inv filled mem_data ->
  field_shapes !! i = Some sh -> dtypes !! i = Some d ->
  data !! t = Some (PSeq vs) ->
  exists mem_data',
    copy_field A dtype cast (PSeq vs) (Z.of_nat t) mem_data i = Ok mem_data' /\
    mem_inv (fun i' t' => filled i' t' \/ (i' = i /\ t' = t)) mem_data'.
Proof.
  intros Hinv Hsh Hd Hex.
  pose proof (proj1 (Forall_forall _ _) data_matches _
                (list_elem_of_lookup_2 _ _ _ Hex)) as [_ Hfields].
  destruct (Hfields i sh d Hsh Hd) as (v & Hv & Hmatch).
  destruct (set_row _ _ _ _ _ _ _ _ Hinv Hsh Hd Hex Hv Hmatch)
    as (m & m' & Hm & Hset & Hinv').
  exists (<[i := m']> mem_data). split; [|done].
  unfold copy_field. rewrite (py_index_nat _ _ _ Hm). simpl.
  rewrite (py_index_nat _ _ _ Hv). simpl. by rewrite Hset.
Qed.

Lemma copy_fields_loop t vs :
  data !! t = Some (PSeq vs) ->
  forall k j filled mem_data,
    (j + k <= length field_shapes)%nat ->
    mem_inv filled mem_data ->
    exists mem_data',
      foldM (copy_field A dtype cast (PSeq vs) (Z.of_nat t)) mem_data (seq j k) =
        Ok mem_data' /\
      mem_inv (fun i t' => filled i t' \/ ((j <= i < j + k)%nat /\ t' = t))
              mem_data'.
Proof.
  intros Hex. induction k as [|k IH]; intros j filled mem_data Hjk Hinv.
  - exists mem_data. split; [done|].
    eapply mem_inv_weaken; [|exact Hinv]. intros i t' _ [?|[? _]]; [done|lia].
  - cbn [seq foldM].
    destruct (lookup_lt_is_Some_2 field_shapes j) as [sh Hsh]; [lia|].
    destruct (lookup_lt_is_Some_2 dtypes j) as [d Hd]; [lia|].
    destruct (copy_field_ok _ _ _ _ _ _ _ Hinv Hsh Hd Hex) as (mem1 & -> & Hinv1).
    cbn [mbind result_bind].
    destruct (IH (S j) _ mem1 ltac:(lia) Hinv1) as (mem2 & -> & Hinv2).
    exists mem2. split; [done|].
    eapply mem_inv_weaken; [|exact Hinv2]. simpl.
    intros i t' _ [?|[Hi ->]]; [by left; left|].
    destruct (decide (i = j)) as [->|?]; [by left; right|]. right. split; [lia|done].
Qed.

Lemma drop_cons_lookup {X} (l : list X) t x rest :
  drop t l = x :: rest -> l !! t = Some x /\ drop (S t) l = rest.
Proof.
  intros Hdrop. split.
  - assert (drop t l !! 0%nat = Some x) as H0 by (by rewrite Hdrop).
    rewrite lookup_drop in H0. by rewrite Nat.add_0_r in H0.
  - replace (S t) with (t + 1)%nat by lia. by rewrite <- drop_drop, Hdrop.
Qed.

Lemma copy_multi_unfold n mem_data t ex :
  copy_multi A dtype cast n (mem_data, t) ex =
    (mem_data' ← foldM (copy_field A dtype cast ex t) mem_data (seq 0 n);
     Ok (mem_data', t + 1)).
Proof. reflexivity. Qed.

Lemma copy_multi_loop rest :
  Nat.eqb (length field_shapes) 1 = false ->
  forall t mem_data,
    drop t data = rest ->
    mem_inv (fun _ t' => (t' < t)%nat) mem_data ->
    exists mem_data' t',
      foldM (copy_multi A dtype cast (length field_shapes))
            (mem_data, Z.of_nat t) rest = Ok (mem_data', t') /\
      mem_inv (fun _ t' => (t' < length data)%nat) mem_data'.
Proof.
  intros Hmulti. induction rest as [|ex rest IH]; intros t mem_data Hdrop Hinv.
  - exists mem_data, (Z.of_nat t). split; [done|].
    eapply mem_inv_weaken; [|exact Hinv]. simpl. intros _ t' _ Ht'.
    destruct (Nat.lt_ge_cases t (length data)) as [Hlt|Hge]; [|lia].
    apply (f_equal length) in Hdrop. rewrite length_drop in Hdrop.
    simpl in Hdrop. lia.
  - destruct (drop_cons_lookup _ _ _ _ Hdrop) as [Hex Hdrop'].
    pose proof (proj1 (Forall_forall _ _) data_matches _
                  (list_elem_of_lookup_2 _ _ _ Hex)) as [Hform _].
    rewrite Hmulti in Hform. destruct Hform as (vs & -> & Hvs).
    cbn [foldM]. rewrite copy_multi_unfold.
    destruct (copy_fields_loop t vs Hex (length field_shapes) 0%nat _ mem_data
                ltac:(lia) Hinv) as (mem1 & -> & Hinv1).
    cbn [mbind result_bind].
    replace (Z.of_nat t + 1) with (Z.of_nat (S t)) by lia.
    apply IH; [done|]. eapply mem_inv_weaken; [|exact Hinv1]. simpl.
    intros i t' Hi Ht'. destruct (decide (t' = t)) as [->|?]; [|left; lia].
    right. split; [lia | done].
Qed.

Lemma copy_single_unfold mem_data t ex :
  copy_single A dtype cast (mem_data, t) ex =
    (m ← py_index mem_data 0;
     m' ← nd_setitem m t (example_value A ex);
     Ok (<[0%nat := m']> mem_data, t + 1)).
Proof. reflexivity. Qed.

Lemma copy_single_loop rest :
  Nat.eqb (length field_shapes) 1 = true ->
  forall t mem_data,
    drop t data = rest ->
    mem_inv (fun _ t' => (t' < t)%nat) mem_data ->
    exists mem_data' t',
      foldM (copy_single A dtype cast) (mem_data, Z.of_nat t) rest =
        Ok (mem_data', t') /\
      mem_inv (fun _ t' => (t' < length data)%nat) mem_data'.
Proof.
  intros Hsingle. apply Nat.eqb_eq in Hsingle as Hn.
  induction rest as [|ex rest IH]; intros t mem_data Hdrop Hinv.
  - exists mem_data, (Z.of_nat t). split; [done|].
    eapply mem_inv_weaken; [|exact Hinv]. simpl. intros _ t' _ Ht'.
    destruct (Nat.lt_ge_cases t (length data)) as [Hlt|Hge]; [|lia].
    apply (f_equal length) in Hdrop. rewrite length_drop in Hdrop.
    simpl in Hdrop. lia.
  - destruct (drop_cons_lookup _ _ _ _ Hdrop) as [Hex Hdrop'].
    pose proof (proj1 (Forall_forall _ _) data_matches _
                  (list_elem_of_lookup_2 _ _ _ Hex)) as [Hform Hfields].
    rewrite Hsingle in Hform. destruct Hform as (v & ->).
    destruct (lookup_lt_is_Some_2 field_shapes 0) as [sh Hsh]; [lia|].
    destruct (lookup_lt_is_Some_2 dtypes 0) as [d Hd]; [lia|].
    destruct (Hfields _ _ _ Hsh Hd) as (v' & [= <-] & Hmatch).
    destruct (set_row _ _ _ _ _ _ _ _ Hinv Hsh Hd Hex eq_refl Hmatch)
      as (m & m' & Hm & Hset & Hinv1).
    cbn [foldM]. rewrite copy_single_unfold.
    rewrite (py_index_nat _ 0 _ Hm : py_index mem_data 0 = Ok m).
    cbn [mbind result_bind example_value].
    rewrite Hset. cbn [mbind result_bind].
    replace (Z.of_nat t + 1) with (Z.of_nat (S t)) by lia.
    apply IH; [done|]. eapply mem_inv_weaken; [|exact Hinv1]. simpl.
    intros i t' Hi Ht'. destruct (decide (t' = t)) as [->|?]; [|left; lia].
    right. split; [lia | done].
Qed.

Lemma mapM_Ok_lookup {X Y} (f : X -> result Y) l : forall out,
  length l = length out ->
  (forall i x y, l !! i = Some x -> out !! i = Some y -> f x = Ok y) ->
  mapM f l = Ok out.
Proof.
  induction l as [|x l IH]; intros [|y out] Hlen Hf; try done.
  change (mapM f (x :: l)) with (y ← f x; k ← mapM f l; Ok (y :: k)).
  rewrite (Hf 0%nat x y eq_refl eq_refl). cbn [mbind result_bind].
  rewrite (IH out); [done|by injection Hlen|]. intros i. apply (Hf (S i)).
Qed.

Lemma iter_multi mem_data ds_data :
  Nat.eqb (length field_shapes) 1 = false ->
  mem_inv (fun _ t' => (t' < length data)%nat) mem_data ->
  MemoryDataset_iter A dtype
    (MkMemoryDataset A dtype ds_data field_shapes (length field_shapes)
                     mem_data len) = Ok data.
Proof.
  intros Hmulti [Hlen Hinv]. unfold MemoryDataset_iter. simpl. rewrite Hmulti.
  apply mapM_Ok_lookup; [by rewrite length_seq|].
  intros t x ex Hx Hex. apply lookup_seq in Hx as [-> _]. simpl.
  pose proof (proj1 (Forall_forall _ _) data_matches _
                (list_elem_of_lookup_2 _ _ _ Hex)) as [Hform Hfields].
  rewrite Hmulti in Hform. destruct Hform as (vs & -> & Hvs).
  rewrite (mapM_Ok_lookup _ mem_data vs); [done|lia|].
  intros i m v Hm Hv.
  destruct (lookup_lt_is_Some_2 field_shapes i) as [sh Hsh];
    [apply lookup_lt_Some in Hm; lia|].
  destruct (lookup_lt_is_Some_2 dtypes i) as [d Hd];
    [apply lookup_lt_Some in Hm; lia|].
  destruct (Hinv i sh d Hsh Hd) as (rows & Hm' & Hrows & Hfilled).
  rewrite Hm in Hm'. injection Hm' as ->.
  unfold nd_getitem. simpl. apply py_index_nat.
  apply (Hfilled t (PSeq vs) v); [|done..]. by apply lookup_lt_Some in Hex.
Qed.

Lemma iter_single mem_data ds_data :
  Nat.eqb (length field_shapes) 1 = true ->
  mem_inv (fun _ t' => (t' < length data)%nat) mem_data ->
  MemoryDataset_iter A dtype
    (MkMemoryDataset A dtype ds_data field_shapes (length field_shapes)
                     mem_data len) = Ok data.
Proof.
  intros Hsingle [Hlen Hinv]. apply Nat.eqb_eq in Hsingle as Hn.
  unfold MemoryDataset_iter. simpl. rewrite Hsingle.
  destruct (lookup_lt_is_Some_2 field_shapes 0) as [sh Hsh]; [lia|].
  destruct (lookup_lt_is_Some_2 dtypes 0) as [d Hd]; [lia|].
  destruct (Hinv 0%nat sh d Hsh Hd) as (rows & Hm & Hrows & Hfilled).
  rewrite (py_index_nat _ 0 _ Hm : py_index mem_data 0 = Ok _). simpl. f_equal.
  apply list_eq. intros t. rewrite list_lookup_fmap.
  destruct (data !! t) as [ex|] eqn:Hex.
  - pose proof (proj1 (Forall_forall _ _) data_matches _
                  (list_elem_of_lookup_2 _ _ _ Hex)) as [Hform _].
    rewrite Hsingle in Hform. destruct Hform as (v & ->).
    rewrite (Hfilled t (PVal v) v); [done| |done..].
    by apply lookup_lt_Some in Hex.
  - apply lookup_ge_None in Hex. rewrite (proj2 (lookup_ge_None rows t)); [done|lia].
Qed.

Lemma round_trip_core length_ :
  length_ = None \/ length_ = Some len ->
  exists ds,
    MemoryDataset_init A zero dtype cast data field_shapes dtypes length_ = Ok ds /\
    MemoryDataset_iter A dtype ds = Ok data.
Proof.
  intros Hlength. unfold MemoryDataset_init.
  assert (match length_ with
          | Some n => n
          | None => foldl (fun n _ => S n) 0%nat data
          end = len) as ->.
  { destruct Hlength as [->| ->]; [|done]. by rewrite count_length, len_data. }
  destruct alloc_inv as (mem0 & -> & Hinv0). cbn [mbind result_bind].
  assert (mem_inv (fun _ t' => (t' < 0)%nat) mem0) as Hinv0'.
  { eapply mem_inv_weaken; [|exact Hinv0]. simpl. intros; lia. }
  destruct (Nat.eqb (length field_shapes) 1) eqn:Hn.
  - destruct (copy_single_loop data Hn 0%nat mem0 eq_refl Hinv0')
      as (mem1 & t' & Hcopy & Hinv1).
    change (Z.of_nat 0) with 0 in Hcopy. rewrite Hcopy. simpl.
    eexists. split; [done|]. by apply iter_single.
  - destruct (copy_multi_loop data Hn 0%nat mem0 eq_refl Hinv0')
      as (mem1 & t' & Hcopy & Hinv1).
    change (Z.of_nat 0) with 0 in Hcopy. rewrite Hcopy. simpl.
    eexists. split; [done|]. by apply iter_multi.
Qed.

End MemoryDatasetFacts.

(** C9. For every finite source of examples that match the declared
    field shapes and element types, constructing a [MemoryDataset] from
    it, with the length left out or given as the number of examples,
    succeeds, and iterating the dataset yields the examples of the source,
    by value and in the same order: with one field each example is the
    field value itself (a scalar for a field declared with the shape
    [(1,)]), with several fields it is the list of the field values in the
    order of the fields. *)
Theorem memory_dataset_round_trip {A dtype} (zero : A) (cast : dtype -> A -> A)
        data field_shapes dtypes length_ :
  length dtypes = length field_shapes ->
  Forall (example_matches A dtype cast field_shapes dtypes) data ->
  length_ = None \/ length_ = Some (length data) ->
  exists ds,
    MemoryDataset_init A zero dtype cast data field_shapes dtypes length_ = Ok ds /\
    MemoryDataset_iter A dtype ds = Ok data.
Proof.
  intros Hd Hdata Hlen.
  by apply (round_trip_core A zero dtype cast data field_shapes dtypes
                            (length data) Hd Hdata eq_refl).
Qed.

(** * Concrete lines and files

    The loaders with their default parameters
    ([convert_target=str], [convert_non_digit_features=float]) on the
    decimal float model. *)

(** C3. The first loop of [libsvm_load_line] classifies the target token
    as well: on the line [1:5 2:3] the only token after the target is
    [2:3], one feature, and the sparse vectors have two entries, the second
    one left at zero, because [n_feat] counted the target [1:5]. *)
Theorem target_token_is_counted :
  feature_tokens "1:5 2:3" = ["2:3"] /\
  count_features (feature_tokens "1:5 2:3") = 1 /\
  load_line_default "1:5 2:3" true (-1) =
    Ok [FSparse [(3 # 1)%Q; (0 # 1)%Q] [2; 0]; FTarget "1:5"].
Proof. repeat split; vm_compute; reflexivity. Qed.

(** C8. The first loop of [libsvm_load_line] deletes a first token with a
    numeric identifier below 1: on the line [0:1 foo 1:2] the token [foo],
    which follows the target token [0:1] and has no [:], becomes the
    target, and the line parses without error in sparse and in dense
    mode. *)
Theorem missing_colon_after_deleted_target :
  line_tokens "0:1 foo 1:2" = ["0:1"; "foo"; "1:2"] /\
  py_find colon "foo" = -1 /\
  load_line_default "0:1 foo 1:2" true (-1) =
    Ok [FSparse [(2 # 1)%Q] [1]; FTarget "foo"] /\
  load_line_default "0:1 foo 1:2" false 1 =
    Ok [FDense [(2 # 1)%Q]; FTarget "foo"].
Proof. repeat split; vm_compute; reflexivity. Qed.

(** C10, as stated, fails: the second line of this file has a target and
    no feature, and sparse loading with a supplied [input_size] raises the
    [ValueError] of [max] on its empty index vector. *)
Lemma sparse_load_with_size_can_fail :
  load_default ["+1 1:0.5" +:+ newline; "-1" +:+ newline] true (Some 1) =
    Err ValueError.
Proof. vm_compute. reflexivity. Qed.

(** C4. A feature token with a negative index is not dropped. On the line
    [+1 -1:5 1:2] the identifier [-1] is not made of digits, so the first
    loop neither deletes nor counts the token [-1:5], and the second loop
    passes it to [convert_non_digit_features]: with the default [float]
    the line raises [TypeError] in both modes, and with a converter of two
    arguments the output of the converter is appended to the example as an
    extra field. The line without the token parses to the example without
    that field. *)
Theorem negative_index_is_not_dropped :
  line_tokens "+1 -1:5 1:2" = ["+1"; "-1:5"; "1:2"] /\
  numeric_id "-1:5" = None /\
  is_removed "-1:5" = false /\
  load_line_default "+1 -1:5 1:2" true (-1) = Err TypeError /\
  load_line_default "+1 -1:5 1:2" false 1 = Err TypeError /\
  load_line_default "+1 1:2" true (-1) =
    Ok [FSparse [(2 # 1)%Q] [1]; FTarget "+1"] /\
  libsvm_load_line Q 0%Q dec_float (string * string)
                   (fun id_str input_str => Ok (id_str, input_str))
                   string convert_target_str int64_max
                   "+1 -1:5 1:2" true (-1) =
    Ok [FSparse [(2 # 1)%Q] [1]; FTarget "+1"; FExtra ("-1", "5")] /\
  libsvm_load_line Q 0%Q dec_float (string * string)
                   (fun id_str input_str => Ok (id_str, input_str))
                   string convert_target_str int64_max
                   "+1 -1:5 1:2" false 1 =
    Ok [FDense [(2 # 1)%Q]; FTarget "+1"; FExtra ("-1", "5")].
Proof. repeat split; vm_compute; reflexivity. Qed.

(** C5, as stated, fails: a supplied [input_size] below the maximum
    feature index of the file does not always end in an indexing error. A
    line without a feature raises the [ValueError] of [max] in the first
    pass, a negative size raises the [ValueError] of [np.zeros], and on the
    line [0:1 5:2 1:2] the first loop deletes the target, [5:2] becomes the
    target, and the size 3 fits the only index left. *)
Lemma undersized_dense_load_other_outcomes :
  load_default ["+1 3:0.5" +:+ newline; "-1" +:+ newline] false (Some 1) =
    Err ValueError /\
  load_default two_line_file false (Some (-1)) = Err ValueError /\
  load_default ["0:1 5:2 1:2" +:+ newline] false (Some 3) =
    Ok ([[FDense [(2 # 1)%Q; (0 # 1)%Q; (0 # 1)%Q]; FTarget "5:2"]],
        Metadata {[ "5:2" ]} 3).
Proof. repeat split; vm_compute; reflexivity. Qed.

(** C6. A line that consists of a target token only is loaded without
    error when the target has the form of a numeric feature. On the file
    of the one line [1:5] no token follows the target, but the first loop
    of [libsvm_load_line] counts the target [1:5] itself: the index vector
    has one entry, never filled, [max] does not fail on it, and
    [libsvm_load] returns, in sparse and in dense mode, with and without a
    supplied [input_size]. *)
Theorem target_only_line_loads :
  feature_tokens "1:5" = [] /\
  count_features (feature_tokens "1:5") = 0 /\
  load_line_default "1:5" true (-1) =
    Ok [FSparse [(0 # 1)%Q] [0]; FTarget "1:5"] /\
  load_default ["1:5" +:+ newline] true None =
    Ok ([[FSparse [(0 # 1)%Q] [0]; FTarget "1:5"]], Metadata {[ "1:5" ]} 0) /\
  load_default ["1:5" +:+ newline] false None =
    Ok ([[FDense []; FTarget "1:5"]], Metadata {[ "1:5" ]} 0) /\
  load_default ["1:5" +:+ newline] true (Some 4) =
    Ok ([[FSparse [(0 # 1)%Q] [0]; FTarget "1:5"]], Metadata {[ "1:5" ]} 4) /\
  load_default ["1:5" +:+ newline] false (Some 4) =
    Ok ([[FDense [(0 # 1)%Q; (0 # 1)%Q; (0 # 1)%Q; (0 # 1)%Q];
          FTarget "1:5"]],
        Metadata {[ "1:5" ]} 4).
Proof. repeat split; vm_compute; reflexivity. Qed.

(** ** Instances of the theorems *)

Lemma sparse_scatter_equals_dense_witness :
  exists values indices rest dense,
    load_line_default "+1 1:0.5 3:2.0" true (-1) =
      Ok (FSparse values indices :: rest) /\
    densify Q 0%Q 3 values indices = Ok dense /\
    load_line_default "+1 1:0.5 3:2.0" false 3 = Ok (FDense dense :: rest).
Proof.
  apply (sparse_scatter_equals_dense Q 0%Q dec_float Q convert_non_digit_float
           string convert_target_str int64_max "+1 1:0.5 3:2.0" 3 (-1)).
  - vm_compute. reflexivity.
  - vm_compute. discriminate.
Defined.

Lemma two_line_file_loads_witness :
  load_default two_line_file true None =
    Ok ([[FSparse [(1 # 2)%Q; (2 # 1)%Q] [1; 3]; FTarget "+1"];
         [FSparse [(1 # 1)%Q] [2]; FTarget "-1"]],
        Metadata {[ "+1"; "-1" ]} 3) /\
  load_default two_line_file false (Some 3) =
    Ok ([[FDense [(1 # 2)%Q; (0 # 1)%Q; (2 # 1)%Q]; FTarget "+1"];
         [FDense [(0 # 1)%Q; (1 # 1)%Q; (0 # 1)%Q]; FTarget "-1"]],
        Metadata {[ "+1"; "-1" ]} 3).
Proof.
  apply (two_line_file_loads Q 0%Q dec_float Q convert_non_digit_float
           int64_max (1 # 2)%Q (2 # 1)%Q (1 # 1)%Q).
  - vm_compute. reflexivity.
  - vm_compute. reflexivity.
  - vm_compute. reflexivity.
  - vm_compute. discriminate.
Defined.

Lemma nonpositive_index_is_dropped_witness :
  load_line_default "+1 0:7 1:2" false 1 = load_line_default "+1 1:2" false 1.
Proof.
  refine (proj1 (nonpositive_index_is_dropped Q 0%Q dec_float Q
                   convert_non_digit_float string convert_target_str int64_max
                   "+1 0:7 1:2" "+1 1:2" "+1" [] "0:7" ["1:2"] 0 _ _ _ _)
                false 1).
  - vm_compute. reflexivity.
  - vm_compute. reflexivity.
  - vm_compute. reflexivity.
  - vm_compute. discriminate.
Defined.

Lemma undersized_dense_load_fails_witness :
  load_default two_line_file false (Some 2) = Err IndexError.
Proof.
  refine (proj1 (undersized_dense_load_fails Q 0%Q dec_float Q
                   convert_non_digit_float string convert_target_str int64_max
                   two_line_file 2 _ (Metadata {[ "+1"; "-1" ]} 3) _ _ _)).
  - vm_compute. reflexivity.
  - vm_compute. discriminate.
  - vm_compute. reflexivity.
Defined.

Lemma featureless_line_fails_witness :
  exists e,
    load_default (["+1 1:0.5" +:+ newline] ++ ("-1" +:+ newline) :: [])
                 true None = Err e.
Proof.
  refine (proj1 (featureless_line_fails Q 0%Q dec_float Q
                   convert_non_digit_float string convert_target_str int64_max
                   ["+1 1:0.5" +:+ newline] ("-1" +:+ newline) [] true None _)).
  vm_compute. reflexivity.
Defined.

Lemma sparse_load_keeps_supplied_size_witness :
  exists data tg,
    load_default two_line_file true (Some 1) = Ok (data, Metadata tg 1) /\
    mapM (fun line => load_line_default line true (-1)) two_line_file = Ok data.
Proof.
  apply (sparse_load_keeps_supplied_size Q 0%Q dec_float Q
           convert_non_digit_float string convert_target_str int64_max
           two_line_file 1).
  repeat constructor.
  - eexists _, _. split; [vm_compute; reflexivity|].
    split; [vm_compute; reflexivity | discriminate].
  - eexists _, _. split; [vm_compute; reflexivity|].
    split; [vm_compute; reflexivity | discriminate].
Defined.

Lemma iterator_fields_are_clamped_witness :
  exists out row,
    IteratorWithFields_iter
      (IteratorWithFields_init [[1; 2; 3]; [4; 5; 6]] [(0, 2); (2, 7)]) = Ok out /\
    length out = 2%nat /\
    out !! 1%nat = Some row /\
    length row = 2%nat /\
    row !! 1%nat = Some (py_slice [4; 5; 6] 2 7) /\
    (0 <= 2 <= 7 ->
     py_slice [4; 5; 6] 2 7 =
       take (Z.to_nat (7 - 2)) (drop (Z.to_nat 2) [4; 5; 6])) /\
    (0 <= 2 <= 7 -> Z.of_nat (length [4; 5; 6]) <= 7 ->
     py_slice [4; 5; 6] 2 7 = drop (Z.to_nat 2) [4; 5; 6]).
Proof.
  apply (iterator_fields_are_clamped [[1; 2; 3]; [4; 5; 6]] [(0, 2); (2, 7)]
           1 [4; 5; 6] 1 2 7).
  - reflexivity.
  - reflexivity.
Defined.

Lemma memory_dataset_round_trip_witness :
  exists ds,
    MemoryDataset_init Z 0 unit (fun _ x => x)
      [PSeq [Array [Scalar 1; Scalar 2]; Scalar 7];
       PSeq [Array [Scalar 3; Scalar 4]; Scalar 8]]
      [[2%nat]; [1%nat]] [tt; tt] None = Ok ds /\
    MemoryDataset_iter Z unit ds =
      Ok [PSeq [Array [Scalar 1; Scalar 2]; Scalar 7];
          PSeq [Array [Scalar 3; Scalar 4]; Scalar 8]].
Proof.
  apply (memory_dataset_round_trip 0 (fun (_ : unit) (x : Z) => x)).
  - reflexivity.
  - repeat constructor; simpl; try (by eauto);
      intros [|[|i]] sh d Hsh Hd; simplify_eq/=; eexists; by repeat split.
  - by left.
Defined.

(** * Edge cases, invariants and composition

    Properties of the loaders and of the dataset classes beyond the
    documented behaviour: what they raise, what their outputs always
    satisfy, and how they compose. *)

(** ** The LIBSVM line parser and file loader *)

Section LibsvmEdges.

Variable F : Type.
Variable fzero : F.
Variable pyfloat : string -> option F.
Variable E : Type.
Variable convert_non_digit_features : string -> string -> result E.
Variable T : Type.
Context `{Countable T}.
Variable convert_target : string -> result T.
Variable int_max : Z.

#[local] Abbreviation fill_step :=
  (fill_step F pyfloat E convert_non_digit_features int_max).
#[local] Abbreviation token_item :=
  (token_item F pyfloat E convert_non_digit_features).
#[local] Abbreviation items_of :=
  (items_of F pyfloat E convert_non_digit_features).
#[local] Abbreviation load_tokens :=
  (libsvm_load_tokens F fzero pyfloat E convert_non_digit_features T
                      convert_target int_max).
#[local] Abbreviation load_line :=
  (libsvm_load_line F fzero pyfloat E convert_non_digit_features T
                    convert_target int_max).
#[local] Abbreviation load :=
  (libsvm_load F fzero pyfloat E convert_non_digit_features T
               convert_target int_max).
#[local] Abbreviation scan_step :=
  (scan_step F fzero pyfloat E convert_non_digit_features T convert_target
             int_max).
#[local] Abbreviation dense_step :=
  (dense_step F fzero pyfloat E convert_non_digit_features T convert_target
              int_max).
#[local] Abbreviation scanned :=
  (scanned F fzero pyfloat E convert_non_digit_features T convert_target
           int_max).

(** X1. A line without any token (empty, or white space only) raises:
    in sparse mode, and in dense mode with an [input_size] of at least 0,
    the [IndexError] of [tokens[0]]; in dense mode with a negative
    [input_size] the [ValueError] of [np.zeros], which comes first. *)
Theorem blank_line_raises line isz :
  line_tokens line = [] ->
  load_line line true isz = Err IndexError /\
  (0 <= isz -> load_line line false isz = Err IndexError) /\
  (isz < 0 -> load_line line false isz = Err ValueError).
Proof.
  intros Htok. unfold libsvm_load_line. fold (line_tokens line). rewrite Htok.
  split; [done|]. split; intros Hisz.
  - rewrite load_tokens_unfold. unfold alloc.
    by rewrite np_zeros_nonneg by done.
  - rewrite load_tokens_unfold. unfold alloc, np_zeros.
    by destruct (Z.ltb_spec isz 0); [|lia].
Qed.

(** X2. In dense mode a negative [input_size], the default [-1]
    included, makes every line raise [ValueError]: [np.zeros(input_size)]
    is evaluated before any token is converted. *)
Theorem dense_needs_input_size line isz :
  isz < 0 ->
  libsvm_load_line F fzero pyfloat E convert_non_digit_features T
                   convert_target int_max line false isz = Err ValueError.
Proof.
  intros Hisz. unfold libsvm_load_line. rewrite load_tokens_unfold.
  unfold alloc, np_zeros. by destruct (Z.ltb_spec isz 0); [|lia].
Qed.

(** X3. When the first token of a line is not deleted by the first loop,
    a later token without [:] makes the line raise, in sparse and in dense
    mode and for every [input_size]. *)
Theorem token_without_colon_raises line sparse isz t0 rest tok :
  line_tokens line = t0 :: rest ->
  is_removed t0 = false ->
  tok ∈ rest ->
  py_find colon tok < 0 ->
  exists e, load_line line sparse isz = Err e.
Proof. apply missing_colon_raises. Qed.

(** X4. A sparse example is a pair of vectors of equal length followed by
    the target and the extra values, and the two vectors have [n_feat]
    entries: the number of tokens of the whole line, the first one
    included, that have a numeric identifier of at least 1. *)
Theorem sparse_vectors_have_n_feat_entries line isz ex :
  load_line line true isz = Ok ex ->
  exists values indices target extras,
    ex = FSparse values indices :: FTarget target :: map FExtra extras /\
    length values = length indices /\
    Z.of_nat (length indices) = count_features (line_tokens line).
Proof.
  intros Hex.
  destruct (load_line_sparse_shape _ _ _ _ _ _ _ _ _ _ _ Hex)
    as (vals & idx & t & extras & -> & Hidx & Hvals).
  exists vals, idx, t, extras. split; [done|]. split; [lia | done].
Qed.

Lemma first_token_kept t0 rest :
  is_removed t0 = false -> kept (t0 :: rest) = t0 :: kept rest.
Proof. intros Ht0. unfold kept. simpl. by rewrite Ht0. Qed.

Lemma numeric_feature_flags t0 :
  is_numeric_feature t0 = false -> is_removed t0 = false /\ is_counted t0 = false.
Proof.
  unfold is_numeric_feature, is_removed, is_counted.
  by destruct (numeric_id t0).
Qed.

(** X5. When the first token of a line does not have the form of a numeric
    feature, the sparse example holds exactly what the tokens after it
    stand for, in their order and without padding: the identifiers that
    are at least 1 as indices, their values, the converted first token as
    target and the outputs of [convert_non_digit_features]. Every index
    lies between 1 and the largest integer of the index type. *)
Theorem sparse_example_of_items line isz t0 rest ex :
  line_tokens line = t0 :: rest ->
  is_numeric_feature t0 = false ->
  load_line line true isz = Ok ex ->
  exists items target,
    items_of (kept rest) = Ok items /\
    convert_target t0 = Ok target /\
    ex = FSparse (item_vals items) (item_ids items)
         :: FTarget target :: map FExtra (item_extras items) /\
    item_ids items = omap numeric_id (kept rest) /\
    Forall (fun k => 1 <= k <= int_max) (item_ids items).
Proof.
  intros Htok Ht0 Hex. destruct (numeric_feature_flags _ Ht0) as [Hrem Hcnt].
  unfold libsvm_load_line in Hex. fold (line_tokens line) in Hex.
  destruct (load_tokens_sparse_elim _ _ _ _ _ _ _ _ _ _ _ Hex)
    as (t0' & rest' & items & tgt & Hk & Hits & Hfit & Htgt).
  rewrite (load_tokens_sparse_intro _ _ _ _ _ _ _ _ _ _ _ _ _ isz Hk Hits Hfit Htgt)
    in Hex.
  destruct (kept_count _ _ _ _ _ _ _ _ Hk Hits) as (Hids & Hpos & Hn).
  rewrite Htok, (first_token_kept _ _ Hrem) in Hk. injection Hk as <- <-.
  rewrite Hcnt in Hn. unfold padding in Hex. rewrite Hn in Hex.
  replace (Z.to_nat (0 + Z.of_nat (length (item_ids items)))
           - length (item_ids items))%nat with O in Hex by lia.
  simpl in Hex. rewrite !app_nil_r in Hex. injection Hex as <-.
  exists items, tgt. repeat split; try done.
  apply Forall_forall. intros k Hin.
  rewrite Forall_forall in Hpos, Hfit. specialize (Hpos k Hin).
  specialize (Hfit k Hin). lia.
Qed.

Lemma load_tokens_dense_elim tokens isz ex :
  load_tokens tokens false isz = Ok ex ->
  exists t0 rest items tgt,
    kept tokens = t0 :: rest /\
    items_of rest = Ok items /\
    0 <= isz /\
    Forall (fun k => k <= isz) (item_ids items) /\
    convert_target t0 = Ok tgt.
Proof.
  intros Hex. pose proof Hex as Hex0. rewrite load_tokens_unfold in Hex.
  unfold alloc, np_zeros in Hex.
  destruct (Z.ltb_spec isz 0) as [|Hisz]; [done|]. simpl in Hex.
  destruct (foldM fill_step _ (drop 1 (kept tokens))) as [[[b i] extra]|]
    eqn:Hfill; [|done].
  simpl in Hex.
  destruct (py_index (kept tokens) 0) as [t0|] eqn:Ht0; [|done].
  destruct (py_index_0 _ _ Ht0) as [rest Hk]. simpl in Hex.
  destruct (convert_target t0) as [tgt|] eqn:Htgt; [|done].
  rewrite Hk in Hfill. simpl in Hfill. rewrite drop_0 in Hfill.
  destruct (fill_ok_items _ _ _ _ _ _ _ _ Hfill) as [items Hits].
  exists t0, rest, items, tgt. repeat split; try done.
  apply Forall_forall. intros k Hin.
  destruct (Z.le_gt_cases k isz) as [|Hgt]; [done|]. exfalso.
  rewrite (load_tokens_dense_out_of_range _ _ _ _ _ _ _ _ _ _ _ _ _ Hk Hits Hisz)
    in Hex0; [done|].
  apply Exists_exists. exists k. split; [done | lia].
Qed.

Lemma np_setitem_nonneg {A} (a a' : list A) k v :
  0 <= k -> np_setitem a k v = Ok a' ->
  a' = <[Z.to_nat k := v]> a /\ k < Z.of_nat (length a).
Proof.
  intros Hk. unfold np_setitem. destruct (Z.ltb_spec k 0); [lia|].
  destruct (Z.ltb_spec k (Z.of_nat (length a))).
  - destruct (0 <=? k); simpl; [|done]. by intros [= <-].
  - by rewrite andb_false_r.
Qed.

Lemma scatter_length (base : list F) vals ids out :
  scatter base vals ids = Ok out -> length out = length base.
Proof.
  unfold scatter. revert base ids.
  induction vals as [|v vals IH]; intros base [|k ids] Hsc;
    try (by injection Hsc as <-).
  simpl in Hsc. destruct (np_setitem base (k - 1) v) as [a|] eqn:Hset; [|done].
  simpl in Hsc. rewrite (IH _ _ Hsc).
  by apply np_setitem_length in Hset.
Qed.

Lemma scatter_lookup_other (base : list F) vals ids out p :
  scatter base vals ids = Ok out ->
  Forall (fun k => 1 <= k) ids ->
  Z.of_nat p + 1 ∉ ids ->
  out !! p = base !! p.
Proof.
  unfold scatter. revert base ids.
  induction vals as [|v vals IH]; intros base [|k ids] Hsc Hpos Hp;
    try (by injection Hsc as <-).
  simpl in Hsc. destruct (np_setitem base (k - 1) v) as [a|] eqn:Hset; [|done].
  simpl in Hsc. apply Forall_cons in Hpos as [Hk Hpos].
  apply not_elem_of_cons in Hp as [Hne Hp].
  rewrite (IH _ _ Hsc Hpos Hp).
  apply np_setitem_nonneg in Hset as [-> _]; [|lia].
  apply list_lookup_insert_ne. lia.
Qed.

Lemma scatter_lookup_written (base : list F) vals : forall ids out j k x,
  scatter base vals ids = Ok out ->
  Forall (fun k => 1 <= k) ids ->
  NoDup ids ->
  ids !! j = Some k -> vals !! j = Some x ->
  out !! Z.to_nat (k - 1) = Some x.
Proof.
  revert base. induction vals as [|v vals IH];
    intros base [|k0 ids] out j k x Hsc Hpos Hnd Hk Hx; try done.
  unfold scatter in Hsc. simpl in Hsc.
  destruct (np_setitem base (k0 - 1) v) as [a|] eqn:Hset; [|done].
  simpl in Hsc. apply Forall_cons in Hpos as [Hk0 Hpos].
  apply NoDup_cons in Hnd as [Hnotin Hnd].
  destruct j as [|j].
  - injection Hk as <-. injection Hx as <-.
    rewrite (scatter_lookup_other a vals ids out (Z.to_nat (k0 - 1)) Hsc Hpos).
    + apply np_setitem_nonneg in Hset as [-> Hlt]; [|lia].
      apply list_lookup_insert_eq. lia.
    + by replace (Z.of_nat (Z.to_nat (k0 - 1)) + 1) with k0 by lia.
  - by apply (IH a ids out j k x Hsc).
Qed.

(** X6. The dense vector of a line has exactly [input_size] entries,
    whatever the line holds. *)
Theorem dense_vector_has_input_size_entries line isz dense fields :
  libsvm_load_line F fzero pyfloat E convert_non_digit_features T
                   convert_target int_max line false isz
    = Ok (FDense dense :: fields) ->
  Z.of_nat (length dense) = isz.
Proof.
  unfold libsvm_load_line. fold (line_tokens line). intros Hex.
  destruct (load_tokens_dense_elim _ _ _ Hex)
    as (t0 & rest & items & tgt & Hk & Hits & Hisz & Hle & Htgt).
  destruct (load_tokens_dense_ok F fzero pyfloat E convert_non_digit_features T
              convert_target int_max _ _ _ _ _ Hk Hits Hisz Hle)
    as (dense' & Hdense & Hload).
  rewrite Hload, Htgt in Hex. injection Hex as <- _.
  unfold densify in Hdense. rewrite np_zeros_nonneg in Hdense by done.
  simpl in Hdense. apply scatter_length in Hdense.
  rewrite Hdense, length_replicate. lia.
Qed.

(** X7. In the dense vector of a line whose first token is kept, every
    position that no feature of the line names holds the zero of
    [np.zeros], and, when no identifier occurs twice, the value of the
    feature with identifier [k] sits at position [k - 1]. *)
Theorem dense_vector_contents line isz t0 rest dense fields :
  line_tokens line = t0 :: rest ->
  is_removed t0 = false ->
  load_line line false isz = Ok (FDense dense :: fields) ->
  exists items,
    items_of (kept rest) = Ok items /\
    item_ids items = omap numeric_id (kept rest) /\
    (forall p, Z.of_nat p < isz -> Z.of_nat p + 1 ∉ item_ids items ->
               dense !! p = Some fzero) /\
    (NoDup (item_ids items) ->
     forall j k x, item_ids items !! j = Some k -> item_vals items !! j = Some x ->
                   dense !! Z.to_nat (k - 1) = Some x).
Proof.
  unfold libsvm_load_line. fold (line_tokens line). intros Htok Hrem Hex.
  destruct (load_tokens_dense_elim _ _ _ Hex)
    as (t0' & rest' & items & tgt & Hk & Hits & Hisz & Hle & Htgt).
  destruct (load_tokens_dense_ok F fzero pyfloat E convert_non_digit_features T
              convert_target int_max _ _ _ _ _ Hk Hits Hisz Hle)
    as (dense' & Hdense & Hload).
  rewrite Hload, Htgt in Hex. injection Hex as <- _.
  destruct (kept_count _ _ _ _ _ _ _ _ Hk Hits) as (Hids & Hpos & _).
  rewrite Htok, (first_token_kept _ _ Hrem) in Hk. injection Hk as <- <-.
  unfold densify in Hdense. rewrite np_zeros_nonneg in Hdense by done.
  simpl in Hdense. exists items. split; [done|]. split; [done|]. split.
  - intros p Hp Hnot.
    rewrite (scatter_lookup_other _ _ _ _ p Hdense Hpos Hnot).
    apply lookup_replicate_2. lia.
  - intros Hnd j k x Hj Hx.
    by apply (scatter_lookup_written _ _ _ _ j k x Hdense Hpos Hnd).
Qed.

Lemma extra_conversion_error_raises line sparse isz t0 rest tok id_str v e0 :
  line_tokens line = t0 :: rest ->
  is_removed t0 = false ->
  tok ∈ rest ->
  py_split_on colon tok = [id_str; v] ->
  isdigit id_str = false ->
  convert_non_digit_features id_str v = Err e0 ->
  exists e, load_line line sparse isz = Err e.
Proof.
  intros Htok Ht0 Hin Hsplit Hdig Hconv.
  unfold libsvm_load_line. fold (line_tokens line).
  destruct (load_tokens (line_tokens line) sparse isz) as [ex|e] eqn:Hex;
    [|by eauto].
  exfalso. rewrite load_tokens_unfold, Htok, (first_token_kept _ _ Ht0) in Hex.
  destruct (alloc F fzero sparse _ isz) as [b|]; [|done].
  simpl in Hex. rewrite drop_0 in Hex.
  destruct (foldM fill_step _ (kept rest)) as [st'|] eqn:Hfill; [|done].
  destruct (fill_ok_items _ _ _ _ _ _ _ _ Hfill) as [items Hits].
  assert (numeric_id tok = None) as Hid.
  { unfold numeric_id.
    destruct (py_split_on_find _ _ _ _ Hsplit) as [(? & _)|(_ & Hf & Hp)]; [done|].
    rewrite (proj2 (Z.leb_le _ _) Hf), <- Hp. by rewrite Hdig. }
  assert (tok ∈ kept rest) as Hin'.
  { apply list_elem_of_In, filter_In. split; [by apply list_elem_of_In|].
    unfold is_removed. by rewrite Hid. }
  destruct (items_of_elem _ _ _ _ _ _ _ Hits Hin') as [it Hit].
  unfold token_item in Hit. by rewrite Hsplit, Hdig, Hconv in Hit.
Qed.

(** ** The file loader *)

Lemma mapM_Forall2 {X Y} (f : X -> result Y) l out :
  Forall2 (fun x y => f x = Ok y) l out -> mapM f l = Ok out.
Proof.
  induction 1 as [|x y l out Hxy _ IH]; [done|].
  change (mapM f (x :: l)) with (y ← f x; k ← mapM f l; Ok (y :: k)).
  by rewrite Hxy, IH.
Qed.

Lemma mapM_Ok_Forall2 {X Y} (f : X -> result Y) l : forall out,
  mapM f l = Ok out -> Forall2 (fun x y => f x = Ok y) l out.
Proof.
  induction l as [|x l IH]; intros out Hout.
  - injection Hout as <-. constructor.
  - change (mapM f (x :: l)) with (y ← f x; k ← mapM f l; Ok (y :: k)) in Hout.
    destruct (f x) as [y|] eqn:Hy; [|done]. simpl in Hout.
    destruct (mapM f l) as [k|]; [|done]. injection Hout as <-.
    constructor; [done | by apply IH].
Qed.

Lemma scan_fold_spec file : forall sp o data tg n data' tg' n',
  foldM (scan_step sp o) (data, tg, n) file = Ok (data', tg', n') ->
  exists exs,
    Forall2 (fun line ex => exists m t, scanned line ex m t) file exs /\
    data' = (if sp then data ++ exs else data) /\
    (forall t, t ∈ tg' <-> t ∈ tg \/
                 exists ex, ex ∈ exs /\ example_target F E T ex = Ok t) /\
    match o with
    | Some _ => n' = n
    | None =>
        n <= n' /\
        Forall2 (fun line ex => exists m t, scanned line ex m t /\ m <= n')
                file exs /\
        (n' = n \/ exists line ex t, ex ∈ exs /\ scanned line ex n' t)
    end.
Proof.
  induction file as [|line file IH]; intros sp o data tg n data' tg' n' Hscan.
  - injection Hscan as <- <- <-. exists []. split; [constructor|].
    split; [by destruct sp; rewrite ?app_nil_r|]. split.
    + intros t. split; [by left|]. intros [?|(ex & Hin & _)]; [done|].
      by apply elem_of_nil in Hin.
    + destruct o; [done|]. split; [lia|]. split; [constructor | by left].
  - cbn [foldM] in Hscan.
    destruct (scan_step sp o _ line) as [st1|] eqn:Hstep; [|done].
    apply scan_step_elim in Hstep
      as (ex & idx & m & t & Hex & Hidx & Hm & Ht & ->).
    simpl in Hscan. destruct (IH _ _ _ _ _ _ _ _ Hscan)
      as (exs & Hall & -> & Htg & Hsize).
    assert (scanned line ex m t) as Hsc by (split; [done | by eauto]).
    exists (ex :: exs). split; [constructor; by eauto|].
    split; [by destruct sp; rewrite <- ?app_assoc|]. split.
    + intros t'. rewrite Htg. split.
      * intros [[Heq%elem_of_singleton|?]%elem_of_union|(ex' & Hin & Hex')].
        -- right. exists ex. split; [by left | by rewrite Heq].
        -- by left.
        -- right. exists ex'. split; [by right | done].
      * intros [?|(ex' & [->|Hin]%elem_of_cons & Hex')].
        -- left. apply elem_of_union. by right.
        -- left. rewrite Ht in Hex'. injection Hex' as <-.
           apply elem_of_union. left. by apply elem_of_singleton.
        -- right. by eauto.
    + destruct o as [g|]; [done|]. unfold scanned_size in Hsize.
      destruct Hsize as (Hle & Hbound & Hatt).
      assert (n <= n' /\ m <= n') as [Hn Hmn]
        by (destruct (Z.ltb_spec n m); lia).
      split; [done|]. split; [constructor; by eauto|].
      destruct Hatt as [->|(line' & ex' & t' & Hin & Hsc')].
      * destruct (Z.ltb_spec n m); [|by left].
        right. exists line, ex, t. split; [by left | done].
      * right. exists line', ex', t'. split; [by right | done].
Qed.

Lemma dense_fold_spec n file : forall acc data,
  foldM (dense_step n) acc file = Ok data ->
  exists exs,
    Forall2 (fun line ex => load_line line false n = Ok ex) file exs /\
    data = acc ++ exs.
Proof.
  induction file as [|line file IH]; intros acc data Hfold.
  - injection Hfold as <-. exists []. split; [constructor|]. by rewrite app_nil_r.
  - cbn [foldM] in Hfold.
    destruct (load_line line false n) as [ex|e] eqn:Hex.
    + rewrite (dense_step_ok _ _ _ _ _ _ _ _ _ _ _ _ Hex) in Hfold.
      simpl in Hfold. destruct (IH _ _ Hfold) as (exs & Hall & ->).
      exists (ex :: exs). split; [by constructor|]. by rewrite <- app_assoc.
    + by rewrite (dense_step_err _ _ _ _ _ _ _ _ _ _ _ _ Hex) in Hfold.
Qed.

Lemma dense_fold_intro n file exs :
  Forall2 (fun line ex => load_line line false n = Ok ex) file exs ->
  forall acc, foldM (dense_step n) acc file = Ok (acc ++ exs).
Proof.
  induction 1 as [|line ex file exs Hex _ IH]; intros acc.
  - by rewrite app_nil_r.
  - cbn [foldM]. rewrite (dense_step_ok _ _ _ _ _ _ _ _ _ _ _ _ Hex). simpl.
    rewrite IH. by rewrite <- app_assoc.
Qed.

Lemma scan_fold_flag file : forall sp o data tg n d2 data' tg' n',
  foldM (scan_step sp o) (data, tg, n) file = Ok (data', tg', n') ->
  foldM (scan_step false o) (d2, tg, n) file = Ok (d2, tg', n').
Proof.
  induction file as [|line file IH]; intros sp o data tg n d2 data' tg' n' Hscan.
  - by injection Hscan as _ <- <-.
  - cbn [foldM] in Hscan |- *.
    destruct (scan_step sp o _ line) as [st1|] eqn:Hstep; [|done].
    apply scan_step_elim in Hstep
      as (ex & idx & m & t & Hex & Hidx & Hm & Ht & ->).
    rewrite (scan_step_intro _ _ _ _ _ _ _ _ false o d2 tg n _ _ _ _ _
               Hex Hidx Hm Ht).
    simpl in Hscan |- *. by eapply IH.
Qed.

Lemma dense_lines_fit n file exs :
  0 <= n ->
  Forall2 (fun line ex => exists m t, scanned line ex m t /\ m <= n) file exs ->
  exists dexs, Forall2 (fun line ex => load_line line false n = Ok ex) file dexs.
Proof.
  intros Hn. induction 1 as [|line ex file exs (m & t & Hsc & Hm) _ [dexs IH]].
  - exists []. constructor.
  - destruct Hsc as (Hex & idx & Hidx & Hmax & _).
    destruct (dense_line_of_sparse _ _ _ _ _ _ _ _ _ _ _ _ n Hex Hidx Hmax Hn)
      as [Hfit _].
    destruct (Hfit Hm) as [dex Hdex]. exists (dex :: dexs). by constructor.
Qed.

(** X8. Without a supplied [input_size], the one that sparse loading
    returns is not negative, bounds every index of every example, and is
    0 (for a file without lines) or an index that occurs in some
    example. *)
Theorem discovered_input_size_is_largest_index file data meta :
  load file true None = Ok (data, meta) ->
  0 <= input_size meta /\
  (forall ex idx k, ex ∈ data -> example_indices F E T ex = Ok idx -> k ∈ idx ->
                    k <= input_size meta) /\
  (input_size meta = 0 \/
   exists ex idx, ex ∈ data /\ example_indices F E T ex = Ok idx /\
                  input_size meta ∈ idx).
Proof.
  intros Hload. unfold libsvm_load in Hload.
  destruct (foldM _ _ file) as [[[data0 tg] n]|] eqn:Hscan; [|done].
  simpl in Hload. injection Hload as <- <-. simpl.
  destruct (scan_fold_spec _ _ _ _ _ _ _ _ _ Hscan)
    as (exs & _ & -> & _ & Hle & Hbound & Hatt).
  simpl. split; [done|]. split.
  - intros ex idx k Hin Hidx Hk.
    apply list_elem_of_lookup in Hin as [i Hi].
    destruct (Forall2_lookup_r _ _ _ _ _ Hbound Hi)
      as (line & _ & m & t & (_ & idx' & Hidx' & Hmax & _) & Hm).
    rewrite Hidx in Hidx'. injection Hidx' as <-.
    apply py_max_spec in Hmax as [_ Hall].
    rewrite Forall_forall in Hall. specialize (Hall k Hk). lia.
  - destruct Hatt as [?|(line & ex & t & Hin & _ & idx & Hidx & Hmax & _)];
      [by left|].
    right. exists ex, idx. split; [done|]. split; [done|].
    by apply py_max_spec in Hmax as [? _].
Qed.

(** X9. The metadata [targets] of a sparse load is exactly the set of
    the targets of the returned examples. *)
Theorem targets_are_the_targets_of_the_lines file isz data meta :
  load file true isz = Ok (data, meta) ->
  forall t, t ∈ targets meta <->
            exists ex, ex ∈ data /\ example_target F E T ex = Ok t.
Proof.
  intros Hload t. unfold libsvm_load in Hload.
  destruct (foldM _ _ file) as [[[data0 tg] n]|] eqn:Hscan; [|done].
  simpl in Hload. injection Hload as <- <-. simpl.
  destruct (scan_fold_spec _ _ _ _ _ _ _ _ _ Hscan) as (exs & _ & -> & Htg & _).
  rewrite Htg. simpl. split; [|by right].
  intros [Hin|?]; [|done]. by apply not_elem_of_empty in Hin.
Qed.

(** X10. When a file loads in sparse mode without a supplied
    [input_size], it also loads in dense mode without one, with the same
    metadata, and each example is the dense parse of its line at the
    discovered [input_size]. *)
Theorem auto_sized_dense_load_succeeds file data meta :
  libsvm_load F fzero pyfloat E convert_non_digit_features T convert_target
              int_max file true None = Ok (data, meta) ->
  exists ddata,
    libsvm_load F fzero pyfloat E convert_non_digit_features T convert_target
                int_max file false None = Ok (ddata, meta) /\
    Forall2 (fun line ex => load_line line false (input_size meta) = Ok ex)
            file ddata.
Proof.
  intros Hload. unfold libsvm_load in Hload |- *.
  destruct (foldM _ _ file) as [[[data0 tg] n]|] eqn:Hscan; [|done].
  simpl in Hload. injection Hload as <- <-. simpl.
  rewrite (scan_fold_flag _ _ _ _ _ _ [] _ _ _ Hscan). simpl.
  destruct (scan_fold_spec _ _ _ _ _ _ _ _ _ Hscan)
    as (exs & _ & _ & _ & Hle & Hbound & _).
  destruct (dense_lines_fit n file exs Hle Hbound) as [dexs Hdexs].
  exists dexs. split; [|done].
  by rewrite (dense_fold_intro _ _ _ Hdexs []).
Qed.

(** X11. When a file loads in sparse mode without a supplied
    [input_size], dense loading with any supplied size of at least the
    discovered one succeeds: the metadata has the same targets and the
    supplied size, and each example is the dense parse of its line at
    that size. *)
Theorem sufficient_size_dense_load_succeeds file given data meta :
  libsvm_load F fzero pyfloat E convert_non_digit_features T convert_target
              int_max file true None = Ok (data, meta) ->
  input_size meta <= given ->
  exists ddata,
    libsvm_load F fzero pyfloat E convert_non_digit_features T convert_target
                int_max file false (Some given)
      = Ok (ddata, Metadata (targets meta) given) /\
    Forall2 (fun line ex => load_line line false given = Ok ex) file ddata.
Proof.
  intros Hload Hgiven. unfold libsvm_load in Hload |- *.
  destruct (foldM _ _ file) as [[[data0 tg] n]|] eqn:Hscan; [|done].
  simpl in Hload. injection Hload as <- <-. simpl in Hgiven |- *.
  destruct (scan_fold_change _ _ _ _ _ _ _ _ file _ _ false given _ _ _ []
              given _ _ _ Hscan) as (d2 & -> & Hd2 & _).
  rewrite (Hd2 eq_refl). simpl.
  destruct (scan_fold_spec _ _ _ _ _ _ _ _ _ Hscan)
    as (exs & _ & _ & _ & Hle & Hbound & _).
  destruct (dense_lines_fit given file exs) as [dexs Hdexs]; [lia| |].
  { eapply Forall2_impl; [exact Hbound|]. simpl.
    intros line ex (m & t & Hsc & Hm). exists m, t. split; [done | lia]. }
  exists dexs. split; [|done].
  by rewrite (dense_fold_intro _ _ _ Hdexs []).
Qed.

(** X12. The data that [libsvm_load] returns is what a [FileDataset] over
    the same file yields with [libsvm_load_line] as [load_line] (sparse, or
    dense at the returned [input_size]): one example per line, in the
    order of the lines. *)
Theorem loaded_examples_are_the_line_parses file sparse isz data meta :
  load file sparse isz = Ok (data, meta) ->
  FileDataset_iter
    (FileDataset_init file
       (fun line => if sparse then load_line line true (-1)
                    else load_line line false (input_size meta))) = Ok data /\
  length data = length file.
Proof.
  intros Hload. unfold libsvm_load in Hload.
  destruct (foldM _ _ file) as [[[data0 tg] n]|] eqn:Hscan; [|done].
  simpl in Hload.
  destruct (scan_fold_spec _ _ _ _ _ _ _ _ _ Hscan) as (exs & Hall & -> & _).
  unfold FileDataset_iter. simpl. destruct sparse.
  - injection Hload as <- <-. simpl. split.
    + apply mapM_Forall2. eapply Forall2_impl; [exact Hall|]. simpl.
      by intros line ex (m & t & Hex & _).
    + by apply Forall2_length in Hall.
  - destruct (foldM (dense_step n) [] file) as [ddata|] eqn:Hdense; [|done].
    injection Hload as <- <-. simpl.
    destruct (dense_fold_spec _ _ _ _ Hdense) as (dexs & Hdexs & ->). simpl.
    split; [by apply mapM_Forall2|]. by apply Forall2_length in Hdexs.
Qed.

End LibsvmEdges.

(** X13. With the default [convert_non_digit_features=float], a line with
    a feature whose identifier is not a number raises (when its first
    token is kept as the target): the callback is called with two
    arguments, which [float] does not accept. *)
Theorem default_non_digit_feature_raises {F E T} (fzero : F)
        (pyfloat : string -> option F) (convert_target : string -> result T)
        int_max line sparse isz t0 rest tok id_str v :
  line_tokens line = t0 :: rest ->
  is_removed t0 = false ->
  tok ∈ rest ->
  py_split_on colon tok = [id_str; v] ->
  isdigit id_str = false ->
  exists e,
    libsvm_load_line F fzero pyfloat E convert_non_digit_float T
                     convert_target int_max line sparse isz = Err e.
Proof.
  intros Htok Ht0 Hin Hsplit Hdig.
  by apply (extra_conversion_error_raises F fzero pyfloat E
              convert_non_digit_float T convert_target int_max line sparse isz
              t0 rest tok id_str v TypeError).
Qed.

(** ** IteratorWithFields *)

Lemma iter_two_fields {A} (data : list (list A)) k n :
  Forall (fun r => Z.of_nat (length r) = n) data ->
  0 <= k <= n ->
  IteratorWithFields_iter (IteratorWithFields_init data [(0, k); (k, n)]) =
    Ok (map (fun r => [take (Z.to_nat k) r; drop (Z.to_nat k) r]) data).
Proof.
  intros Hrows Hk. rewrite IteratorWithFields_iter_total. f_equal.
  apply map_ext_Forall. eapply Forall_impl; [exact Hrows|]. simpl.
  intros r Hr. rewrite !py_slice_forward by lia. simpl.
  rewrite Z.sub_0_r. f_equal. f_equal.
  apply take_ge. rewrite length_drop. lia.
Qed.

(** X14. On a buffer whose rows all have [n] columns, the two fields
    [(0, k)] and [(k, n)] with [0 <= k <= n] cut every row at column [k]:
    the first field is the first [k] entries, the second one the rest,
    and together they are the row. *)
Theorem two_fields_split_each_row {A} (data : list (list A)) k n :
  Forall (fun r => Z.of_nat (length r) = n) data ->
  0 <= k <= n ->
  IteratorWithFields_iter (IteratorWithFields_init data [(0, k); (k, n)]) =
    Ok (map (fun r => [take (Z.to_nat k) r; drop (Z.to_nat k) r]) data) /\
  Forall2 (fun r fields => concat fields = r) data
          (map (fun r => [take (Z.to_nat k) r; drop (Z.to_nat k) r]) data).
Proof.
  intros Hrows Hk. split; [by apply iter_two_fields|].
  apply Forall2_fmap_r, Forall_Forall2_diag, Forall_forall. intros r _.
  simpl. by rewrite app_nil_r, take_drop.
Qed.

(** ** ASCII format *)

Section AsciiFacts.

Variable X : Type.
Variable convert_input : string -> result X.
Variable convert_target : string -> result X.

#[local] Abbreviation shape_1 := (np_shape_1 X).
#[local] Abbreviation row := (ascii_row X convert_input).
#[local] Abbreviation row_target :=
  (ascii_row_target X convert_input convert_target).
#[local] Abbreviation load_ascii :=
  (ascii_load X convert_input convert_target).
#[local] Abbreviation target_row_of :=
  (target_row X convert_input convert_target).

Lemma np_shape_1_spec rows n :
  shape_1 rows = Ok n <->
  rows <> [] /\ Forall (fun r => Z.of_nat (length r) = n) rows.
Proof.
  destruct rows as [|r rows]; simpl.
  - split; [done|]. by intros [? _].
  - destruct (forallb _ rows) eqn:Hall.
    + rewrite forallb_forall in Hall. split.
      * intros [= <-]. split; [done|]. constructor; [done|].
        apply Forall_forall. intros r' Hin%list_elem_of_In.
        apply Hall, Nat.eqb_eq in Hin. by rewrite Hin.
      * intros [_ [Hr _]%Forall_cons]. by rewrite Hr.
    + split; [done|]. intros [_ [Hr Hrows]%Forall_cons]. exfalso.
      assert (forallb (fun r' => Nat.eqb (length r') (length r)) rows = true)
        as Htrue; [|by rewrite Htrue in Hall].
      apply forallb_forall. intros r' Hin%list_elem_of_In. apply Nat.eqb_eq.
      rewrite Forall_forall in Hrows. specialize (Hrows r' Hin). lia.
Qed.

Lemma Forall2_and_r {A B} (P : A -> B -> Prop) (Q : B -> Prop) l k :
  Forall2 P l k -> Forall Q k -> Forall2 (fun x y => P x y /\ Q y) l k.
Proof.
  induction 1 as [|x y l k Hxy _ IH]; intros Hk; [constructor|].
  apply Forall_cons in Hk as [Hy Hk]. constructor; [done | by apply IH].
Qed.

Lemma mapM_length {A B} (f : A -> result B) l out :
  mapM f l = Ok out -> length out = length l.
Proof.
  intros Hout%mapM_Ok_Forall2. by apply Forall2_length in Hout.
Qed.

(** X15. Without a target column, [ascii_load] succeeds exactly on the
    files that have at least one line, whose tokens all convert, and whose
    lines all have the same number of tokens; the data is then the matrix
    of the converted tokens, one row per line, and [input_size] is the
    number of tokens of a line. *)
Theorem ascii_matrix_is_the_converted_file file data n :
  load_ascii file false = Ok (data, n) <->
  exists rows,
    data = AsciiMatrix rows /\
    file <> [] /\
    Forall2 (fun line row =>
               mapM convert_input (py_split line) = Ok row /\
               Z.of_nat (length (py_split line)) = n) file rows.
Proof.
  unfold ascii_load. simpl. split.
  - intros Hload. destruct (mapM row file) as [rows|] eqn:Hrows; [|done].
    simpl in Hload. destruct (shape_1 rows) as [n'|] eqn:Hn; [|done].
    injection Hload as <- <-. apply np_shape_1_spec in Hn as [Hne Hlen].
    apply mapM_Ok_Forall2 in Hrows. exists rows. split; [done|]. split.
    + intros ->. by apply Forall2_nil_inv_l in Hrows.
    + eapply Forall2_impl; [exact (Forall2_and_r _ _ _ _ Hrows Hlen)|]. simpl.
      intros line row [Hrow Hlen']. split; [done|].
      apply mapM_length in Hrow. lia.
  - intros (rows & -> & Hne & Hall).
    assert (mapM row file = Ok rows) as ->.
    { apply mapM_Forall2. eapply Forall2_impl; [exact Hall|]. simpl.
      by intros line row [? _]. }
    simpl. assert (shape_1 rows = Ok n) as ->; [|done].
    apply np_shape_1_spec. split.
    + intros ->. by apply Forall2_nil_inv_r in Hall.
    + apply Forall_forall. intros row Hin.
      apply list_elem_of_lookup in Hin as [i Hi].
      destruct (Forall2_lookup_r _ _ _ _ _ Hall Hi) as (line & _ & Hrow & Hlen).
      apply mapM_length in Hrow. lia.
Qed.

Lemma py_index_last {A} (l : list A) x :
  py_index l (-1) = Ok x -> exists l', l = l' ++ [x].
Proof.
  unfold py_index. simpl.
  destruct (Z.leb_spec 0 (-1 + Z.of_nat (length l))); simpl; [|done].
  destruct (Z.ltb_spec (-1 + Z.of_nat (length l)) (Z.of_nat (length l)));
    [|done].
  destruct (l !! Z.to_nat (-1 + Z.of_nat (length l))) as [y|] eqn:Hy; [|done].
  intros [= <-]. destruct (decide (l = [])) as [->|Hne]; [done|].
  destruct (exists_last Hne) as (l' & z & ->). exists l'. f_equal. f_equal.
  rewrite length_app in Hy. simpl in Hy.
  replace (Z.to_nat (-1 + Z.of_nat (length l' + 1))) with (length l' + 0)%nat
    in Hy by lia.
  rewrite lookup_app_r in Hy by lia.
  replace (length l' + 0 - length l')%nat with 0%nat in Hy by lia.
  by injection Hy.
Qed.

Lemma py_slice_init {A} (l : list A) x : py_slice (l ++ [x]) 0 (-1) = l.
Proof.
  unfold py_slice. simpl. rewrite length_app. simpl.
  rewrite Z.min_l, Z.max_l by lia. rewrite Z.sub_0_r.
  replace (Z.to_nat (-1 + Z.of_nat (length l + 1))) with (length l) by lia.
  change (Z.to_nat 0) with 0%nat. by rewrite drop_0, take_app_length.
Qed.

Lemma ascii_row_target_spec line row :
  row_target line = Ok row <->
  exists inputs t,
    row = inputs ++ [t] /\ target_row_of (Z.of_nat (length inputs)) line inputs t.
Proof.
  unfold ascii_row_target, target_row. split.
  - intros Hrow.
    destruct (mapM convert_input _) as [inputs|] eqn:Hin; [|done].
    simpl in Hrow.
    destruct (py_index (py_split line) (-1)) as [last|] eqn:Hlast; [|done].
    simpl in Hrow. destruct (convert_target last) as [t|] eqn:Ht; [|done].
    injection Hrow as <-. apply py_index_last in Hlast as [toks Htoks].
    rewrite Htoks, py_slice_init in Hin.
    exists inputs, t. split; [done|]. exists toks, last.
    repeat split; try done. apply mapM_length in Hin. lia.
  - intros (inputs & t & -> & toks & last & Htoks & Hin & Ht & _).
    rewrite Htoks, py_slice_init, Hin. simpl.
    assert (py_index (toks ++ [last]) (-1) = Ok last) as ->.
    { unfold py_index. simpl. rewrite length_app. simpl.
      destruct (Z.leb_spec 0 (-1 + Z.of_nat (length toks + 1))); [|lia].
      destruct (Z.ltb_spec (-1 + Z.of_nat (length toks + 1))
                           (Z.of_nat (length toks + 1))); [|lia].
      simpl.
      replace (Z.to_nat (-1 + Z.of_nat (length toks + 1)))
        with (length toks + 0)%nat by lia.
      by rewrite lookup_app_r, Nat.add_0_r, Nat.sub_diag by lia. }
    simpl. by rewrite Ht.
Qed.

(** X16. With the last column as target, a load that succeeds returns
    an iterator that yields, for each line in order, two fields: the
    converted tokens before the last one, and the last token converted by
    [convert_target]; [input_size] is the number of tokens before the
    last one, the same on every line. *)
Theorem ascii_fields_are_inputs_and_target file data n :
  load_ascii file true = Ok (data, n) ->
  exists it examples,
    data = AsciiFields it /\
    IteratorWithFields_iter it = Ok examples /\
    file <> [] /\
    Forall2 (fun line ex =>
               exists inputs t, ex = [inputs; [t]] /\ target_row_of n line inputs t)
            file examples.
Proof.
  unfold ascii_load. simpl. intros Hload.
  destruct (mapM row_target file) as [rows|] eqn:Hrows; [|done].
  simpl in Hload. destruct (shape_1 rows) as [c|] eqn:Hc; [|done].
  injection Hload as <- <-. apply np_shape_1_spec in Hc as [Hne Hlen].
  apply mapM_Ok_Forall2 in Hrows.
  pose proof (Forall2_and_r _ _ _ _ Hrows Hlen) as Hall.
  assert (1 <= c) as Hc.
  { destruct rows as [|row rows]; [done|].
    apply Forall2_cons_inv_r in Hall as (line & file' & [Hrow Hl] & _ & _).
    apply ascii_row_target_spec in Hrow as (inputs & t & -> & _).
    rewrite length_app in Hl. simpl in Hl. lia. }
  eexists _, _. split; [done|].
  split; [apply (iter_two_fields rows (c - 1) c Hlen); lia|]. split.
  - intros ->. by apply Forall2_nil_inv_l in Hrows.
  - apply Forall2_fmap_r. eapply Forall2_impl; [exact Hall|]. simpl.
    intros line row [Hrow Hl].
    apply ascii_row_target_spec in Hrow as (inputs & t & -> & Htarget).
    rewrite length_app in Hl. simpl in Hl.
    exists inputs, t.
    replace (Z.to_nat (c - 1)) with (length inputs) by lia.
    rewrite take_app_length, drop_app_length. split; [done|].
    by replace (c - 1) with (Z.of_nat (length inputs)) by lia.
Qed.

End AsciiFacts.

(** X17. When [ascii_load] with the default conversion reads a file as a
    matrix, [load_from_file] with its default [load_line] yields the rows
    of that matrix, one per line. *)
Theorem load_from_file_yields_the_ascii_rows {F} (pyfloat : string -> option F)
        (convert_target : string -> result F) file rows n :
  ascii_load F (float_of F pyfloat) convert_target file false
    = Ok (AsciiMatrix rows, n) ->
  FileDataset_iter (LargeDatasets.load_from_file F pyfloat file None) = Ok rows.
Proof.
  unfold ascii_load. simpl. intros Hload.
  destruct (mapM _ file) as [rows'|] eqn:Hrows; [|done]. simpl in Hload.
  destruct (np_shape_1 F rows'); [|done]. by injection Hload as <- _.
Qed.

(** ** FileDataset *)

Lemma mapM_app_Err {X Y} (f : X -> result Y) pre x post out e :
  mapM f pre = Ok out -> f x = Err e -> mapM f (pre ++ x :: post) = Err e.
Proof.
  revert out. induction pre as [|y pre IH]; intros out Hpre Hx.
  - change (mapM f ([] ++ x :: post))
      with (y ← f x; k ← mapM f post; Ok (y :: k)).
    by rewrite Hx.
  - change (mapM f ((y :: pre) ++ x :: post))
      with (z ← f y; k ← mapM f (pre ++ x :: post); Ok (z :: k)).
    change (mapM f (y :: pre)) with (z ← f y; k ← mapM f pre; Ok (z :: k))
      in Hpre.
    destruct (f y) as [z|]; [|done]. simpl in Hpre |- *.
    destruct (mapM f pre) as [k|]; [|done]. by rewrite (IH k).
Qed.

(** X18. Iterating a [FileDataset] raises what [load_line] raises on the
    first line that it does not convert, whatever the lines after it
    hold. *)
Theorem file_dataset_stops_at_first_failing_line {X}
        (load_line : string -> result X) pre line post examples e :
  FileDataset_iter (FileDataset_init pre load_line) = Ok examples ->
  load_line line = Err e ->
  FileDataset_iter (FileDataset_init (pre ++ line :: post) load_line) = Err e.
Proof. unfold FileDataset_iter. simpl. apply mapM_app_Err. Qed.

(** ** MemoryDataset: element types and explicit lengths *)

Lemma drop_is_cons {X} (l : list X) t x rest :
  drop t l = x :: rest -> l !! t = Some x /\ drop (S t) l = rest.
Proof.
  intros Hdrop. split.
  - assert (drop t l !! 0%nat = Some x) as H0 by (by rewrite Hdrop).
    rewrite lookup_drop in H0. by rewrite Nat.add_0_r in H0.
  - replace (S t) with (t + 1)%nat by lia. by rewrite <- drop_drop, Hdrop.
Qed.

Lemma count_examples {X} (l : list X) n :
  foldl (fun n _ => S n) n l = (n + length l)%nat.
Proof.
  revert n. induction l as [|x l IH]; intros n; simpl; [lia|]. rewrite IH. lia.
Qed.

Section MemoryDatasetLengths.

Variable A : Type.
Variable zero : A.
Variable dtype : Type.
Variable cast : dtype -> A -> A.

Variable data : list (pyexample A).
Variable field_shapes : list (list nat).
Variable dtypes : list dtype.
Variable len : nat.

Hypothesis dtypes_length : length dtypes = length field_shapes.
Hypothesis data_shaped : Forall (example_shaped A field_shapes) data.

#[local] Abbreviation nd_setitem := (nd_setitem A dtype cast).
#[local] Abbreviation field_array := (field_array A zero dtype cast data len).
#[local] Abbreviation filled_to :=
  (filled_to A zero dtype cast data field_shapes dtypes len).

Lemma filled_to_ext rows rows' mem_data :
  (forall i, (i < length field_shapes)%nat -> rows i = rows' i) ->
  filled_to rows mem_data -> filled_to rows' mem_data.
Proof.
  intros Hext [Hlen Hinv]. split; [done|]. intros i sh d Hsh Hd.
  rewrite <- (Hext i) by (by apply lookup_lt_Some in Hsh). by apply Hinv.
Qed.

Lemma field_array_rows_length i sh d k :
  (k <= len)%nat -> (k <= length data)%nat ->
  length (rows_of (field_array i sh d k)) = len.
Proof.
  intros Hk Hk'. unfold rows_of. simpl.
  rewrite length_app, length_map, length_take, length_replicate. lia.
Qed.

Lemma field_array_set_row i sh d t ex v :
  data !! t = Some ex -> field_of ex i = Some v ->
  has_shape A (row_shape sh) v = true -> (t < len)%nat ->
  nd_setitem (field_array i sh d t) (Z.of_nat t) v =
    Ok (field_array i sh d (S t)).
Proof.
  intros Hex Hv Hshape Ht. pose proof (lookup_lt_Some _ _ _ Hex) as Ht'.
  unfold nd_setitem, field_array. simpl.
  rewrite length_app, length_map, length_take, length_replicate.
  destruct (Z.ltb_spec (Z.of_nat t) 0); [lia|].
  rewrite andb_true_intro
    by (split; [apply Z.leb_le | apply Z.ltb_lt]; lia).
  rewrite Hshape, Nat2Z.id. do 3 f_equal.
  rewrite (take_S_r _ _ _ Hex), map_app. simpl. rewrite Hv. simpl.
  rewrite <- app_assoc. simpl.
  replace (len - t)%nat with (S (len - S t)) by lia. simpl.
  rewrite insert_app_r_alt by (rewrite length_map, length_take; lia).
  rewrite length_map, length_take.
  by replace (t - t `min` length data)%nat with 0%nat by lia.
Qed.

Lemma field_array_row_overflow i sh d k t v :
  (k <= len)%nat -> (k <= length data)%nat -> (len <= t)%nat ->
  nd_setitem (field_array i sh d k) (Z.of_nat t) v = Err IndexError.
Proof.
  intros Hk Hk' Ht. unfold nd_setitem, field_array. simpl.
  rewrite length_app, length_map, length_take, length_replicate.
  destruct (Z.ltb_spec (Z.of_nat t) 0); [lia|].
  destruct (Z.ltb_spec (Z.of_nat t)
              (Z.of_nat (k `min` length data + (len - k)))); [lia|].
  by rewrite andb_false_r.
Qed.

Lemma example_field t ex i sh :
  data !! t = Some ex -> field_shapes !! i = Some sh ->
  exists v, field_of ex i = Some v /\ has_shape A (row_shape sh) v = true.
Proof.
  intros Hex Hsh.
  pose proof (proj1 (Forall_forall _ _) data_shaped _
                (list_elem_of_lookup_2 _ _ _ Hex)) as [_ Hfields].
  by apply Hfields.
Qed.

Lemma set_field rows mem_data i sh d t ex v :
  filled_to rows mem_data ->
  field_shapes !! i = Some sh -> dtypes !! i = Some d ->
  rows i = t -> data !! t = Some ex -> field_of ex i = Some v ->
  exists m,
    mem_data !! i = Some m /\
    ((t < len)%nat ->
     exists m', nd_setitem m (Z.of_nat t) v = Ok m' /\
       filled_to (fun i' => if decide (i' = i) then S t else rows i')
                 (<[i := m']> mem_data)) /\
    ((len <= t)%nat -> nd_setitem m (Z.of_nat t) v = Err IndexError).
Proof.
  intros [Hlen Hinv] Hsh Hd Hrows Hex Hv.
  destruct (Hinv i sh d Hsh Hd) as (Hk & Hk' & Hm). rewrite Hrows in Hk, Hk', Hm.
  destruct (example_field _ _ _ _ Hex Hsh) as (v' & Hv' & Hshape).
  rewrite Hv in Hv'. injection Hv' as <-.
  eexists. split; [exact Hm|]. split.
  - intros Ht. eexists. split; [by eapply field_array_set_row|].
    split; [by rewrite length_insert|]. intros i' sh' d' Hsh' Hd'.
    destruct (decide (i' = i)) as [->|Hne].
    + simplify_eq. pose proof (lookup_lt_Some _ _ _ Hex).
      split; [lia|]. split; [lia|].
      apply list_lookup_insert_eq. by apply lookup_lt_Some in Hm.
    + rewrite list_lookup_insert_ne by done. by apply Hinv.
  - intros Ht. by apply field_array_row_overflow.
Qed.

Lemma copy_field_unfold ex t mem_data i :
  copy_field A dtype cast ex t mem_data i =
    (m ← py_index mem_data (Z.of_nat i);
     v ← example_getitem A ex (Z.of_nat i);
     m' ← nd_setitem m t v;
     Ok (<[i := m']> mem_data)).
Proof. reflexivity. Qed.

Lemma copy_fields_to t vs :
  data !! t = Some (PSeq vs) -> (t < len)%nat ->
  forall k j mem_data,
    (j + k = length field_shapes)%nat ->
    filled_to (fun i => if (i <? j)%nat then S t else t) mem_data ->
    exists mem_data',
      foldM (copy_field A dtype cast (PSeq vs) (Z.of_nat t)) mem_data (seq j k) =
        Ok mem_data' /\
      filled_to (fun _ => S t) mem_data'.
Proof.
  intros Hex Ht. induction k as [|k IH]; intros j mem_data Hjk Hinv.
  - exists mem_data. split; [done|].
    eapply filled_to_ext; [|exact Hinv]. simpl. intros i Hi.
    by destruct (Nat.ltb_spec i j); [|lia].
  - cbn [seq foldM].
    destruct (lookup_lt_is_Some_2 field_shapes j) as [sh Hsh]; [lia|].
    destruct (lookup_lt_is_Some_2 dtypes j) as [d Hd]; [lia|].
    destruct (example_field _ _ _ _ Hex Hsh) as (v & Hv & _).
    destruct (set_field _ _ _ _ _ t (PSeq vs) v Hinv Hsh Hd)
      as (m & Hm & Hok & _); [by rewrite Nat.ltb_irrefl|done..|].
    destruct (Hok Ht) as (m' & Hset & Hinv').
    rewrite copy_field_unfold, (py_index_nat _ _ _ Hm).
    cbn [mbind result_bind example_getitem].
    rewrite (py_index_nat _ _ _ Hv). cbn [mbind result_bind].
    rewrite Hset. cbn [mbind result_bind].
    apply IH; [lia|]. eapply filled_to_ext; [|exact Hinv']. simpl.
    intros i _. destruct (decide (i = j)) as [->|Hne].
    + by destruct (Nat.ltb_spec j (S j)); [|lia].
    + destruct (Nat.ltb_spec i j), (Nat.ltb_spec i (S j)); try done; lia.
Qed.

Lemma copy_multi_to rest :
  Nat.eqb (length field_shapes) 1 = false ->
  forall t mem_data,
    drop t data = rest -> (t <= len)%nat ->
    filled_to (fun _ => t) mem_data ->
    ((length data <= len)%nat ->
     exists mem_data' t',
       foldM (copy_multi A dtype cast (length field_shapes))
             (mem_data, Z.of_nat t) rest = Ok (mem_data', t') /\
       filled_to (fun _ => length data) mem_data') /\
    ((len < length data)%nat -> (1 <= length field_shapes)%nat ->
     foldM (copy_multi A dtype cast (length field_shapes))
           (mem_data, Z.of_nat t) rest = Err IndexError).
Proof.
  intros Hmulti. induction rest as [|ex rest IH]; intros t mem_data Hdrop Ht Hinv.
  - assert (length data <= t)%nat as Hge.
    { apply (f_equal length) in Hdrop. rewrite length_drop in Hdrop.
      simpl in Hdrop. lia. }
    split; [|lia]. intros Hlen. exists mem_data, (Z.of_nat t). split; [done|].
    destruct Hinv as [Hl Hinv]. split; [done|]. intros i sh d Hsh Hd.
    destruct (Hinv i sh d Hsh Hd) as (_ & Hk & Hm).
    by replace (length data) with t by lia.
  - apply drop_is_cons in Hdrop as [Hex Hdrop'].
    pose proof (lookup_lt_Some _ _ _ Hex) as Htd.
    pose proof (proj1 (Forall_forall _ _) data_shaped _
                  (list_elem_of_lookup_2 _ _ _ Hex)) as [Hform _].
    rewrite Hmulti in Hform. destruct Hform as (vs & -> & Hvs).
    cbn [foldM]. rewrite copy_multi_unfold.
    destruct (Nat.lt_ge_cases t len) as [Hlt|Hge].
    + destruct (copy_fields_to t vs Hex Hlt (length field_shapes) 0%nat mem_data)
        as (mem1 & -> & Hinv1); [lia|by eapply filled_to_ext; [|exact Hinv]|].
      cbn [mbind result_bind].
      replace (Z.of_nat t + 1) with (Z.of_nat (S t)) by lia.
      apply IH; [done|lia|done].
    + split; [lia|]. intros _ Hn.
      destruct (lookup_lt_is_Some_2 field_shapes 0) as [sh Hsh]; [lia|].
      destruct (lookup_lt_is_Some_2 dtypes 0) as [d Hd]; [lia|].
      destruct (example_field _ _ _ _ Hex Hsh) as (v & Hv & _).
      destruct (set_field _ _ _ _ _ t (PSeq vs) v Hinv Hsh Hd)
        as (m & Hm & _ & Herr); [done..|].
      destruct (length field_shapes) as [|n]; [lia|]. cbn [seq foldM].
      rewrite copy_field_unfold, (py_index_nat _ 0 _ Hm).
      cbn [mbind result_bind example_getitem].
      rewrite (py_index_nat _ 0 _ Hv). cbn [mbind result_bind].
      by rewrite (Herr Hge).
Qed.

Lemma copy_single_to rest :
  Nat.eqb (length field_shapes) 1 = true ->
  forall t mem_data,
    drop t data = rest -> (t <= len)%nat ->
    filled_to (fun _ => t) mem_data ->
    ((length data <= len)%nat ->
     exists mem_data' t',
       foldM (copy_single A dtype cast) (mem_data, Z.of_nat t) rest =
         Ok (mem_data', t') /\
       filled_to (fun _ => length data) mem_data') /\
    ((len < length data)%nat ->
     foldM (copy_single A dtype cast) (mem_data, Z.of_nat t) rest =
       Err IndexError).
Proof.
  intros Hsingle. apply Nat.eqb_eq in Hsingle as Hn.
  induction rest as [|ex rest IH]; intros t mem_data Hdrop Ht Hinv.
  - assert (length data <= t)%nat as Hge.
    { apply (f_equal length) in Hdrop. rewrite length_drop in Hdrop.
      simpl in Hdrop. lia. }
    split; [|lia]. intros Hlen. exists mem_data, (Z.of_nat t). split; [done|].
    destruct Hinv as [Hl Hinv]. split; [done|]. intros i sh d Hsh Hd.
    destruct (Hinv i sh d Hsh Hd) as (_ & Hk & Hm).
    by replace (length data) with t by lia.
  - apply drop_is_cons in Hdrop as [Hex Hdrop'].
    pose proof (lookup_lt_Some _ _ _ Hex) as Htd.
    pose proof (proj1 (Forall_forall _ _) data_shaped _
                  (list_elem_of_lookup_2 _ _ _ Hex)) as [Hform _].
    rewrite Hsingle in Hform. destruct Hform as (v & ->).
    destruct (lookup_lt_is_Some_2 field_shapes 0) as [sh Hsh]; [lia|].
    destruct (lookup_lt_is_Some_2 dtypes 0) as [d Hd]; [lia|].
    destruct (set_field _ _ _ _ _ t (PVal v) v Hinv Hsh Hd)
      as (m & Hm & Hok & Herr); [done..|].
    cbn [foldM]. rewrite copy_single_unfold.
    rewrite (py_index_nat _ 0 _ Hm : py_index mem_data 0 = Ok m).
    cbn [mbind result_bind example_value].
    destruct (Nat.lt_ge_cases t len) as [Hlt|Hge].
    + destruct (Hok Hlt) as (m' & -> & Hinv1). cbn [mbind result_bind].
      replace (Z.of_nat t + 1) with (Z.of_nat (S t)) by lia.
      apply IH; [done|lia|]. eapply filled_to_ext; [|exact Hinv1]. simpl.
      intros i Hi. destruct (decide (i = 0%nat)); [done|lia].
    + split; [lia|]. intros _. by rewrite (Herr Hge).
Qed.

Lemma alloc_fields k : forall j acc,
  (j + k <= length field_shapes)%nat ->
  exists new,
    foldM (alloc_step A zero dtype field_shapes dtypes len) acc (seq j k) =
      Ok (acc ++ new) /\
    length new = k /\
    forall i sh d,
      (i < k)%nat -> field_shapes !! (j + i)%nat = Some sh ->
      dtypes !! (j + i)%nat = Some d ->
      new !! i = Some (field_array (j + i) sh d 0).
Proof.
  induction k as [|k IH]; intros j acc Hjk.
  - exists []. simpl. rewrite app_nil_r. repeat split. intros; lia.
  - cbn [seq foldM].
    destruct (lookup_lt_is_Some_2 field_shapes j) as [sh Hsh]; [lia|].
    destruct (lookup_lt_is_Some_2 dtypes j) as [d Hd]; [lia|].
    rewrite (alloc_step_ok _ _ _ _ _ _ _ _ _ _ Hsh Hd). cbn [mbind result_bind].
    destruct (IH (S j) (acc ++ [NpArray (len :: row_shape sh) d
                                  (nd_zeros A zero (len :: row_shape sh))]))
      as (new & Hfold & Hlen & Hnew); [lia|].
    rewrite Hfold. eexists (_ :: new). rewrite <- app_assoc. split; [done|].
    split; [simpl; lia|].
    intros i sh' d' Hi Hsh' Hd'. destruct i as [|i].
    + rewrite Nat.add_0_r in Hsh', Hd' |- *. simplify_eq. simpl.
      unfold field_array. simpl. by rewrite Nat.sub_0_r.
    + replace (j + S i)%nat with (S j + i)%nat in * by lia.
      apply Hnew; [lia|done..].
Qed.

Lemma alloc_filled :
  exists mem_data,
    foldM (alloc_step A zero dtype field_shapes dtypes len) []
          (seq 0 (length field_shapes)) = Ok mem_data /\
    filled_to (fun _ => 0%nat) mem_data.
Proof.
  destruct (alloc_fields (length field_shapes) 0%nat [])
    as (new & Hfold & Hlen & Hnew); [lia|].
  exists new. split; [done|]. split; [done|].
  intros i sh d Hsh Hd. split; [lia|]. split; [lia|].
  apply Hnew; [|done..]. by apply lookup_lt_Some in Hsh.
Qed.

Lemma field_array_row i sh d t :
  (length data <= len)%nat -> (t < len)%nat ->
  rows_of (field_array i sh d (length data)) !! t =
    Some (match data !! t with
          | Some ex => nd_cast A dtype cast d
                         (default (Scalar zero) (field_of ex i))
          | None => nd_zeros A zero (row_shape sh)
          end).
Proof.
  intros Hlen Ht. unfold rows_of. simpl. rewrite take_ge by done.
  destruct (data !! t) as [ex|] eqn:Hex.
  - rewrite lookup_app_l by (rewrite length_map; by apply lookup_lt_Some in Hex).
    by rewrite list_lookup_fmap, Hex.
  - apply lookup_ge_None in Hex.
    rewrite lookup_app_r by (by rewrite length_map).
    apply lookup_replicate_2. rewrite length_map. lia.
Qed.

Lemma field_array_getitem i sh d t :
  (length data <= len)%nat -> (t < len)%nat ->
  nd_getitem A dtype (field_array i sh d (length data)) (Z.of_nat t) =
    Ok (match data !! t with
        | Some ex => nd_cast A dtype cast d
                       (default (Scalar zero) (field_of ex i))
        | None => nd_zeros A zero (row_shape sh)
        end).
Proof.
  intros Hlen Ht. pose proof (field_array_row i sh d t Hlen Ht) as Hrow.
  unfold nd_getitem. unfold rows_of in Hrow. simpl in *.
  by apply py_index_nat.
Qed.

Lemma iter_single_to mem_data ds_data :
  Nat.eqb (length field_shapes) 1 = true ->
  (length data <= len)%nat ->
  filled_to (fun _ => length data) mem_data ->
  MemoryDataset_iter A dtype
    (MkMemoryDataset A dtype ds_data field_shapes (length field_shapes)
                     mem_data len) =
    Ok (map (example_cast A dtype cast dtypes) data
        ++ replicate (len - length data) (zero_example A zero field_shapes)).
Proof.
  intros Hsingle Hlen [Hl Hinv]. apply Nat.eqb_eq in Hsingle as Hn.
  unfold MemoryDataset_iter. simpl. rewrite Hsingle.
  destruct field_shapes as [|sh [|? ?]] eqn:Hshapes; try done.
  destruct dtypes as [|d [|? ?]] eqn:Hdtypes; try done.
  destruct (Hinv 0%nat sh d eq_refl eq_refl) as (_ & _ & Hm).
  rewrite (py_index_nat _ 0 _ Hm : py_index mem_data 0 = Ok _). simpl.
  rewrite take_ge by done. rewrite map_app. f_equal. f_equal.
  - rewrite map_map. apply map_ext_Forall.
    eapply Forall_impl; [exact data_shaped|]. simpl.
    by intros ex [[v ->] _].
  - apply (fmap_replicate PVal).
Qed.

Lemma iter_multi_to mem_data ds_data :
  Nat.eqb (length field_shapes) 1 = false ->
  (length data <= len)%nat ->
  filled_to (fun _ => length data) mem_data ->
  MemoryDataset_iter A dtype
    (MkMemoryDataset A dtype ds_data field_shapes (length field_shapes)
                     mem_data len) =
    Ok (map (example_cast A dtype cast dtypes) data
        ++ replicate (len - length data) (zero_example A zero field_shapes)).
Proof.
  intros Hmulti Hlen [Hl Hinv]. unfold MemoryDataset_iter. simpl.
  rewrite Hmulti.
  assert (zero_example A zero field_shapes =
          PSeq (map (fun sh => nd_zeros A zero (row_shape sh)) field_shapes))
    as Hzero.
  { unfold zero_example. by destruct field_shapes as [|sh [|? ?]]. }
  apply mapM_Ok_lookup.
  { rewrite length_seq, length_app, length_map, length_replicate. lia. }
  intros t x ex Hx Hout. apply lookup_seq in Hx as [-> Ht]. simpl.
  assert (forall i m, mem_data !! i = Some m ->
            exists sh d, field_shapes !! i = Some sh /\ dtypes !! i = Some d /\
                         m = field_array i sh d (length data)) as Hmem.
  { intros i m Hm. pose proof (lookup_lt_Some _ _ _ Hm) as Hi.
    destruct (lookup_lt_is_Some_2 field_shapes i) as [sh Hsh]; [lia|].
    destruct (lookup_lt_is_Some_2 dtypes i) as [d Hd]; [lia|].
    destruct (Hinv i sh d Hsh Hd) as (_ & _ & Hm'). rewrite Hm in Hm'.
    injection Hm' as ->. by eauto. }
  destruct (data !! t) as [ex'|] eqn:Hex.
  - rewrite lookup_app_l in Hout
      by (rewrite length_map; by apply lookup_lt_Some in Hex).
    rewrite list_lookup_fmap, Hex in Hout. injection Hout as <-.
    pose proof (proj1 (Forall_forall _ _) data_shaped _
                  (list_elem_of_lookup_2 _ _ _ Hex)) as [Hform _].
    rewrite Hmulti in Hform. destruct Hform as (vs & -> & Hvs). simpl.
    rewrite (mapM_Ok_lookup _ mem_data (zip_with (nd_cast A dtype cast) dtypes vs));
      [done|rewrite length_zip_with; lia|].
    intros i m v Hm Hv. destruct (Hmem i m Hm) as (sh & d & Hsh & Hd & ->).
    apply lookup_zip_with_Some in Hv as (d' & v' & -> & Hd' & Hv').
    rewrite Hd in Hd'. injection Hd' as <-.
    rewrite field_array_getitem by done. rewrite Hex. simpl.
    by rewrite Hv'.
  - apply lookup_ge_None in Hex.
    rewrite lookup_app_r in Hout by (by rewrite length_map).
    apply lookup_replicate in Hout as [-> _]. rewrite Hzero.
    rewrite (mapM_Ok_lookup _ mem_data
               (map (fun sh => nd_zeros A zero (row_shape sh)) field_shapes));
      [done|by rewrite length_map|].
    intros i m v Hm Hv. destruct (Hmem i m Hm) as (sh & d & Hsh & Hd & ->).
    rewrite list_lookup_fmap, Hsh in Hv. injection Hv as <-.
    rewrite field_array_getitem by done.
    by rewrite (proj2 (lookup_ge_None data t)) by done.
Qed.

Lemma init_with_length :
  ((length data <= len)%nat ->
   exists ds,
     MemoryDataset_init A zero dtype cast data field_shapes dtypes (Some len)
       = Ok ds /\
     MemoryDataset_iter A dtype ds =
       Ok (map (example_cast A dtype cast dtypes) data
           ++ replicate (len - length data) (zero_example A zero field_shapes))) /\
  ((len < length data)%nat -> (1 <= length field_shapes)%nat ->
   MemoryDataset_init A zero dtype cast data field_shapes dtypes (Some len)
     = Err IndexError).
Proof.
  unfold MemoryDataset_init.
  destruct alloc_filled as (mem0 & -> & Hinv0). cbn [mbind result_bind].
  destruct (Nat.eqb (length field_shapes) 1) eqn:Hn.
  - destruct (copy_single_to data Hn 0%nat mem0 eq_refl ltac:(lia) Hinv0)
      as [Hok Herr].
    change (Z.of_nat 0) with 0 in Hok, Herr. split.
    + intros Hlen. destruct (Hok Hlen) as (mem1 & t' & -> & Hinv1). simpl.
      eexists. split; [done|]. by apply iter_single_to.
    + intros Hlen _. by rewrite (Herr Hlen).
  - destruct (copy_multi_to data Hn 0%nat mem0 eq_refl ltac:(lia) Hinv0)
      as [Hok Herr].
    change (Z.of_nat 0) with 0 in Hok, Herr. split.
    + intros Hlen. destruct (Hok Hlen) as (mem1 & t' & -> & Hinv1). simpl.
      eexists. split; [done|]. by apply iter_multi_to.
    + intros Hlen Hfields. by rewrite (Herr Hlen Hfields).
Qed.

End MemoryDatasetLengths.

Lemma init_counts_the_examples {A dtype} (zero : A) (cast : dtype -> A -> A)
      data field_shapes dtypes :
  MemoryDataset_init A zero dtype cast data field_shapes dtypes None =
  MemoryDataset_init A zero dtype cast data field_shapes dtypes
                     (Some (length data)).
Proof. unfold MemoryDataset_init. by rewrite count_examples. Qed.

(** X20. With a [length] of at least the number of examples, the examples
    fill the first rows and the remaining rows stay the zeros of
    [np.zeros]: iteration yields every example converted to the element
    types, then one all-zero example per remaining row. *)
Theorem memory_dataset_pads_with_zero_examples {A dtype} (zero : A)
        (cast : dtype -> A -> A) data field_shapes dtypes len :
  length dtypes = length field_shapes ->
  Forall (example_shaped A field_shapes) data ->
  (length data <= len)%nat ->
  exists ds,
    MemoryDataset_init A zero dtype cast data field_shapes dtypes (Some len)
      = Ok ds /\
    MemoryDataset_iter A dtype ds =
      Ok (map (example_cast A dtype cast dtypes) data
          ++ replicate (len - length data) (zero_example A zero field_shapes)).
Proof.
  intros Hd Hdata Hlen.
  by apply (init_with_length A zero dtype cast data field_shapes dtypes len
                             Hd Hdata).
Qed.

(** X21. With a [length] below the number of examples and at least one
    field, construction raises [IndexError]: the first example past the
    allocated rows is written out of bounds. *)
Theorem memory_dataset_short_length_raises {A dtype} (zero : A)
        (cast : dtype -> A -> A) data field_shapes dtypes len :
  length dtypes = length field_shapes ->
  Forall (example_shaped A field_shapes) data ->
  (len < length data)%nat ->
  (1 <= length field_shapes)%nat ->
  MemoryDataset_init A zero dtype cast data field_shapes dtypes (Some len)
    = Err IndexError.
Proof.
  intros Hd Hdata Hlen Hn.
  by apply (init_with_length A zero dtype cast data field_shapes dtypes len
                             Hd Hdata).
Qed.

(** X19. Without [length], every example is stored converted to the element
    type of its field: iteration yields the examples of the source with
    [dtypes[i]] applied to field [i], and as many of them as the source
    has. *)
Theorem memory_dataset_converts_to_dtypes {A dtype} (zero : A)
        (cast : dtype -> A -> A) data field_shapes dtypes :
  length dtypes = length field_shapes ->
  Forall (example_shaped A field_shapes) data ->
  exists ds,
    MemoryDataset_init A zero dtype cast data field_shapes dtypes None = Ok ds /\
    md_length A dtype ds = length data /\
    MemoryDataset_iter A dtype ds =
      Ok (map (example_cast A dtype cast dtypes) data).
Proof.
  intros Hd Hdata. rewrite init_counts_the_examples.
  destruct (proj1 (init_with_length A zero dtype cast data field_shapes dtypes
                     (length data) Hd Hdata) (le_n _)) as (ds & Hinit & Hiter).
  exists ds. split; [done|]. split.
  - unfold MemoryDataset_init in Hinit.
    destruct (foldM _ _ _) as [mem0|]; [|done]. cbn [mbind result_bind] in Hinit.
    destruct (if Nat.eqb _ _ then _ else _) as [[mem1 t]|]; [|done].
    by injection Hinit as <-.
  - by rewrite Hiter, Nat.sub_diag, app_nil_r.
Qed.

(** ** Instances of the further properties *)

Lemma blank_line_raises_witness :
  line_tokens "  " = [] /\
  load_line_default "  " true (-1) = Err IndexError.
Proof.
  split; [reflexivity|].
  refine (proj1 (blank_line_raises Q 0%Q dec_float Q convert_non_digit_float
                   string convert_target_str int64_max "  " (-1) _)).
  vm_compute. reflexivity.
Defined.

Lemma dense_needs_input_size_witness :
  load_line_default "+1 1:0.5" false (-1) = Err ValueError.
Proof.
  apply (dense_needs_input_size Q 0%Q dec_float Q convert_non_digit_float
           string convert_target_str int64_max "+1 1:0.5" (-1)).
  lia.
Defined.

Lemma token_without_colon_raises_witness :
  exists e, load_line_default "+1 1:0.5 foo" true (-1) = Err e.
Proof.
  apply (token_without_colon_raises Q 0%Q dec_float Q convert_non_digit_float
           string convert_target_str int64_max "+1 1:0.5 foo" true (-1)
           "+1" ["1:0.5"; "foo"] "foo").
  - vm_compute. reflexivity.
  - vm_compute. reflexivity.
  - repeat constructor.
  - vm_compute. reflexivity.
Defined.

Lemma sparse_vectors_have_n_feat_entries_witness :
  exists values indices target (extras : list Q),
    [FSparse [(1 # 2)%Q; (2 # 1)%Q] [1; 3]; FTarget "+1"] =
      FSparse values indices :: FTarget target :: map FExtra extras /\
    length values = length indices /\
    Z.of_nat (length indices) = count_features (line_tokens "+1 1:0.5 3:2.0").
Proof.
  apply (sparse_vectors_have_n_feat_entries Q 0%Q dec_float Q
           convert_non_digit_float string convert_target_str int64_max
           "+1 1:0.5 3:2.0" (-1)).
  vm_compute. reflexivity.
Defined.

Lemma sparse_example_of_items_witness :
  exists items target,
    items_of Q dec_float Q convert_non_digit_float (kept ["1:0.5"; "3:2.0"])
      = Ok items /\
    convert_target_str "+1" = Ok target /\
    [FSparse [(1 # 2)%Q; (2 # 1)%Q] [1; 3]; FTarget "+1"] =
      FSparse (item_vals items) (item_ids items)
      :: FTarget target :: map FExtra (item_extras items) /\
    item_ids items = omap numeric_id (kept ["1:0.5"; "3:2.0"]) /\
    Forall (fun k => 1 <= k <= int64_max) (item_ids items).
Proof.
  apply (sparse_example_of_items Q 0%Q dec_float Q convert_non_digit_float
           string convert_target_str int64_max "+1 1:0.5 3:2.0" (-1) "+1"
           ["1:0.5"; "3:2.0"]).
  - vm_compute. reflexivity.
  - vm_compute. reflexivity.
  - vm_compute. reflexivity.
Defined.

Lemma dense_vector_has_input_size_entries_witness :
  load_line_default "+1 1:0.5 3:2.0" false 3 =
    Ok [FDense [(1 # 2)%Q; (0 # 1)%Q; (2 # 1)%Q]; FTarget "+1"] /\
  Z.of_nat (length [(1 # 2)%Q; (0 # 1)%Q; (2 # 1)%Q]) = 3.
Proof.
  split; [vm_compute; reflexivity|].
  apply (dense_vector_has_input_size_entries Q 0%Q dec_float Q
           convert_non_digit_float string convert_target_str int64_max
           "+1 1:0.5 3:2.0" 3 _ [FTarget "+1"]).
  vm_compute. reflexivity.
Defined.

Lemma dense_vector_contents_witness :
  exists items,
    items_of Q dec_float Q convert_non_digit_float (kept ["1:0.5"; "3:2.0"])
      = Ok items /\
    item_ids items = omap numeric_id (kept ["1:0.5"; "3:2.0"]) /\
    (forall p, Z.of_nat p < 3 -> Z.of_nat p + 1 ∉ item_ids items ->
               [(1 # 2)%Q; (0 # 1)%Q; (2 # 1)%Q] !! p = Some 0%Q) /\
    (NoDup (item_ids items) ->
     forall j k x,
       item_ids items !! j = Some k -> item_vals items !! j = Some x ->
       [(1 # 2)%Q; (0 # 1)%Q; (2 # 1)%Q] !! Z.to_nat (k - 1) = Some x).
Proof.
  apply (dense_vector_contents Q 0%Q dec_float Q convert_non_digit_float
           string convert_target_str int64_max "+1 1:0.5 3:2.0" 3 "+1"
           ["1:0.5"; "3:2.0"] _ [FTarget "+1"]).
  - vm_compute. reflexivity.
  - vm_compute. reflexivity.
  - vm_compute. reflexivity.
Defined.

Lemma discovered_input_size_is_largest_index_witness :
  0 <= input_size two_line_metadata /\
  (forall ex idx k,
     ex ∈ two_line_examples -> example_indices Q Q string ex = Ok idx ->
     k ∈ idx -> k <= input_size two_line_metadata) /\
  (input_size two_line_metadata = 0 \/
   exists ex idx,
     ex ∈ two_line_examples /\ example_indices Q Q string ex = Ok idx /\
     input_size two_line_metadata ∈ idx).
Proof.
  apply (discovered_input_size_is_largest_index Q 0%Q dec_float Q
           convert_non_digit_float string convert_target_str int64_max
           two_line_file).
  vm_compute. reflexivity.
Defined.

Lemma targets_are_the_targets_of_the_lines_witness :
  "+1" ∈ targets two_line_metadata <->
  exists ex,
    ex ∈ two_line_examples /\ example_target Q Q string ex = Ok "+1".
Proof.
  refine (targets_are_the_targets_of_the_lines Q 0%Q dec_float Q
            convert_non_digit_float string convert_target_str int64_max
            two_line_file None two_line_examples two_line_metadata _ "+1").
  vm_compute. reflexivity.
Defined.

Lemma auto_sized_dense_load_succeeds_witness :
  exists ddata,
    load_default two_line_file false None = Ok (ddata, two_line_metadata) /\
    Forall2 (fun line ex =>
               load_line_default line false (input_size two_line_metadata)
                 = Ok ex)
            two_line_file ddata.
Proof.
  apply (auto_sized_dense_load_succeeds Q 0%Q dec_float Q
           convert_non_digit_float string convert_target_str int64_max
           two_line_file two_line_examples).
  vm_compute. reflexivity.
Defined.

Lemma sufficient_size_dense_load_succeeds_witness :
  exists ddata,
    load_default two_line_file false (Some 5) =
      Ok (ddata, Metadata (targets two_line_metadata) 5) /\
    Forall2 (fun line ex => load_line_default line false 5 = Ok ex)
            two_line_file ddata.
Proof.
  apply (sufficient_size_dense_load_succeeds Q 0%Q dec_float Q
           convert_non_digit_float string convert_target_str int64_max
           two_line_file 5 two_line_examples).
  - vm_compute. reflexivity.
  - simpl. lia.
Defined.

Lemma loaded_examples_are_the_line_parses_witness :
  FileDataset_iter
    (FileDataset_init two_line_file
       (fun line => load_line_default line false 3)) =
    Ok [[FDense [(1 # 2)%Q; (0 # 1)%Q; (2 # 1)%Q]; FTarget "+1"];
        [FDense [(0 # 1)%Q; (1 # 1)%Q; (0 # 1)%Q]; FTarget "-1"]] /\
  length [[FDense [(1 # 2)%Q; (0 # 1)%Q; (2 # 1)%Q]; FTarget "+1"];
          [FDense [(0 # 1)%Q; (1 # 1)%Q; (0 # 1)%Q];
           @FTarget Q Q string "-1"]] = length two_line_file.
Proof.
  apply (loaded_examples_are_the_line_parses Q 0%Q dec_float Q
           convert_non_digit_float string convert_target_str int64_max
           two_line_file false None _ two_line_metadata).
  vm_compute. reflexivity.
Defined.

Lemma default_non_digit_feature_raises_witness :
  exists e, load_line_default "+1 1:0.5 name:3" true (-1) = Err e.
Proof.
  apply (default_non_digit_feature_raises (E := Q) 0%Q dec_float
           convert_target_str int64_max "+1 1:0.5 name:3" true (-1) "+1"
           ["1:0.5"; "name:3"] "name:3" "name" "3").
  - vm_compute. reflexivity.
  - vm_compute. reflexivity.
  - repeat constructor.
  - vm_compute. reflexivity.
  - vm_compute. reflexivity.
Defined.

Lemma two_fields_split_each_row_witness :
  IteratorWithFields_iter
    (IteratorWithFields_init [[1; 2; 3]; [4; 5; 6]] [(0, 2); (2, 3)]) =
    Ok (map (fun r => [take (Z.to_nat 2) r; drop (Z.to_nat 2) r])
            [[1; 2; 3]; [4; 5; 6]]) /\
  Forall2 (fun r fields => concat fields = r) [[1; 2; 3]; [4; 5; 6]]
          (map (fun r => [take (Z.to_nat 2) r; drop (Z.to_nat 2) r])
               [[1; 2; 3]; [4; 5; 6]]).
Proof.
  apply (two_fields_split_each_row [[1; 2; 3]; [4; 5; 6]] 2 3).
  - repeat constructor.
  - lia.
Defined.

Lemma ascii_matrix_is_the_converted_file_witness :
  ascii_load Q (float_of Q dec_float) (float_of Q dec_float) ascii_file false =
    Ok (AsciiMatrix [[(1 # 1)%Q; (2 # 1)%Q; (1 # 1)%Q];
                     [(3 # 1)%Q; (9 # 2)%Q; (0 # 1)%Q]], 3).
Proof.
  apply (ascii_matrix_is_the_converted_file Q (float_of Q dec_float)
           (float_of Q dec_float) ascii_file).
  eexists. split; [reflexivity|]. split; [discriminate|].
  repeat constructor; vm_compute; reflexivity.
Defined.

Lemma ascii_fields_are_inputs_and_target_witness :
  exists it examples,
    AsciiFields
      (IteratorWithFields_init
         [[(1 # 1)%Q; (2 # 1)%Q; (1 # 1)%Q]; [(3 # 1)%Q; (9 # 2)%Q; (0 # 1)%Q]]
         [(0, 2); (2, 3)]) = AsciiFields it /\
    IteratorWithFields_iter it = Ok examples /\
    ascii_file <> [] /\
    Forall2 (fun line ex =>
               exists inputs t,
                 ex = [inputs; [t]] /\
                 target_row Q (float_of Q dec_float) (float_of Q dec_float)
                            2 line inputs t)
            ascii_file examples.
Proof.
  apply (ascii_fields_are_inputs_and_target Q (float_of Q dec_float)
           (float_of Q dec_float) ascii_file).
  vm_compute. reflexivity.
Defined.

Lemma load_from_file_yields_the_ascii_rows_witness :
  FileDataset_iter (LargeDatasets.load_from_file Q dec_float ascii_file None) =
    Ok [[(1 # 1)%Q; (2 # 1)%Q; (1 # 1)%Q]; [(3 # 1)%Q; (9 # 2)%Q; (0 # 1)%Q]].
Proof.
  apply (load_from_file_yields_the_ascii_rows dec_float (float_of Q dec_float)
           ascii_file _ 3).
  vm_compute. reflexivity.
Defined.

Lemma file_dataset_stops_at_first_failing_line_witness :
  FileDataset_iter
    (FileDataset_init (["1 2"] ++ "x" :: ["3"])
                      (LargeDatasets.load_line_default Q dec_float)) =
    Err ValueError.
Proof.
  apply (file_dataset_stops_at_first_failing_line
           (LargeDatasets.load_line_default Q dec_float) ["1 2"] "x" ["3"]
           [[(1 # 1)%Q; (2 # 1)%Q]]).
  - vm_compute. reflexivity.
  - vm_compute. reflexivity.
Defined.

Lemma memory_dataset_converts_to_dtypes_witness :
  exists ds,
    MemoryDataset_init Z 0 bool np_bool_cast
      [PVal (Scalar 5); PVal (Scalar 0)] [[1%nat]] [true] None = Ok ds /\
    md_length Z bool ds = 2%nat /\
    MemoryDataset_iter Z bool ds = Ok [PVal (Scalar 1); PVal (Scalar 0)].
Proof.
  apply (memory_dataset_converts_to_dtypes 0 np_bool_cast
           [PVal (Scalar 5); PVal (Scalar 0)] [[1%nat]] [true]).
  - reflexivity.
  - repeat constructor; simpl; try (by eauto);
      intros [|i] sh Hsh; simplify_eq/=; eexists; by repeat split.
Defined.

Lemma memory_dataset_pads_with_zero_examples_witness :
  exists ds,
    MemoryDataset_init Z 0 bool np_bool_cast
      [PSeq [Array [Scalar 1; Scalar 2]; Scalar 7]]
      [[2%nat]; [1%nat]] [false; true] (Some 3%nat) = Ok ds /\
    MemoryDataset_iter Z bool ds =
      Ok [PSeq [Array [Scalar 1; Scalar 2]; Scalar 1];
          PSeq [Array [Scalar 0; Scalar 0]; Scalar 0];
          PSeq [Array [Scalar 0; Scalar 0]; Scalar 0]].
Proof.
  apply (memory_dataset_pads_with_zero_examples 0 np_bool_cast
           [PSeq [Array [Scalar 1; Scalar 2]; Scalar 7]]
           [[2%nat]; [1%nat]] [false; true] 3%nat).
  - reflexivity.
  - repeat constructor; simpl; try (by eauto);
      intros [|[|i]] sh Hsh; simplify_eq/=; eexists; by repeat split.
  - simpl. lia.
Defined.

Lemma memory_dataset_short_length_raises_witness :
  MemoryDataset_init Z 0 bool np_bool_cast
    [PVal (Scalar 5); PVal (Scalar 6)] [[1%nat]] [false] (Some 1%nat)
    = Err IndexError.
Proof.
  apply (memory_dataset_short_length_raises 0 np_bool_cast).
  - reflexivity.
  - repeat constructor; simpl; try (by eauto);
      intros [|i] sh Hsh; simplify_eq/=; eexists; by repeat split.
  - simpl. lia.
  - simpl. lia.
Defined.
